(** * Chad-Powers-Tron: the play simulation engine of [football-game.tsx]

    A shallow embedding of the game logic of
    [src/components/football-game.tsx]: the Drive State ([GameState] of
    [src/components/game/types.ts]), the mutable refs of the [FootballGame]
    component, the outcome handlers, [throwBall], [resetPlay] and the
    per-frame callback given to [scene.registerBeforeRender].

    Conventions of the embedding.
    - A JavaScript [number] is an exact rational ([Q]); [==] is equality of
      rationals.  Counters that only ever hold integers ([score], [downs],
      [yardsToGo], the result of [Math.round]) are in [Z].  Comparisons,
      clamps and discrete transitions carry over to the binary64 numbers of
      the program; an equation between computed values need not.  The two
      places where the rounding of binary64 shows, the end point of the
      interpolation of the flight and the count of the sack timer, are
      embedded a second time over the primitive floats ([Lerp64],
      [flightPosition64], [tick64]).
    - [Math.sqrt] is not part of the repository: the geometry is parametric
      in it (Section variable [Math_sqrt]); no statement relies on a
      property of it.
    - The refs ([useRef]) and the React state are the fields of one record,
      [World]; [gameStateRef.current] and [gameState] are the same field
      (every [setGameState] is committed before the next event runs).  The
      one updater with an effect of its own, that of the sack timer, which
      calls [handleSack], is run where React runs it: after the frame
      callback that handed it over has returned.
    - [setTimeout] callbacks and the completion callbacks of the camera
      animations are queued in [pending] and run by the event [EvTimeout].
    - The time delta of a frame, the clock and the draw of [Math.random]
      are inputs of the frame.
    - Meshes, materials, particles, camera moves, limb animation, the two
      linemen (who influence nothing), haptics and audio are left out. *)

From Stdlib Require Import ZArith QArith Qround Qminmax Qabs Lqa Lia.
From Stdlib Require Import List String Bool DecimalString.
From Stdlib Require PrimFloat.
Import ListNotations.

Open Scope Q_scope.

(** ** Numbers *)

Module Num.

Definition ltb (a b : Q) : bool :=
  match a ?= b with Lt => true | _ => false end.

Definition leb (a b : Q) : bool :=
  match a ?= b with Gt => false | _ => true end.

Definition gtb (a b : Q) : bool := ltb b a.
Definition geb (a b : Q) : bool := leb b a.

(** [Math.max], [Math.min], [Math.abs] *)
Definition Math_max (a b : Q) : Q := Qmax a b.
Definition Math_min (a b : Q) : Q := Qmin a b.
Definition Math_abs (a : Q) : Q := Qabs a.

(** [Math.round]: the nearest integer, a tie going up. *)
Definition Math_round (a : Q) : Z := Qfloor (a + 0.5).

(** [BABYLON.Scalar.Lerp(start, end, amount)] *)
Definition Lerp (a b t : Q) : Q := a + (b - a) * t.

(** A computable square root, rounded down to six decimals: it stands in
    for [Math.sqrt] when the model is run on concrete inputs. *)
Definition sqrt6 (a : Q) : Q :=
  Z.sqrt (Qnum a * QDen a * 1000000000000) # (Qden a * 1000000).

End Num.

Import Num.

Infix "<?" := ltb (at level 70, no associativity) : Q_scope.
Infix "<=?" := leb (at level 70, no associativity) : Q_scope.
Infix ">?" := gtb (at level 70, no associativity) : Q_scope.
Infix ">=?" := geb (at level 70, no associativity) : Q_scope.

(** ** Binary64 *)

(** The same source expressions over the numbers the program computes
    with.  [Math.min] and [Math.max] are given for arguments that are not
    NaN. *)

Section Binary64.

Import PrimFloat.
Local Set Warnings "-inexact-float".

(** [BABYLON.Scalar.Lerp(start, end, amount)] *)
Definition Lerp64 (a b t : float) : float := (a + (b - a) * t)%float.

Definition Math_min64 (a b : float) : float := if (a <? b)%float then a else b.
Definition Math_max64 (a b : float) : float := if (a <? b)%float then b else a.

(** A position: x, y and z. *)
Definition Vector64 : Type := (float * float * float)%type.

Record Flight64 : Type := mkFlight64 {
  startPos64 : Vector64;
  targetPos64 : Vector64;
  startTime64 : float;
  duration64 : float;
  maxHeight64 : float
}.

(** [t] of the ball flight (lines 2018-2020). *)
Definition flightParameter64 (flight : Flight64) (now : float) : float :=
  let elapsed := (now - startTime64 flight)%float in
  Math_min64 (elapsed / duration64 flight)%float 1%float.

(** The position written to the ball (lines 2022-2030). *)
Definition flightPosition64 (flight : Flight64) (t : float) : Vector64 :=
  let '(sx, sy, sz) := startPos64 flight in
  let '(tx, ty, tz) := targetPos64 flight in
  let newX := Lerp64 sx tx t in
  let newZ := Lerp64 sz tz t in
  let baseY := Lerp64 sy ty t in
  let arcHeight := (4 * maxHeight64 flight * t * (1 - t))%float in
  let newY := (baseY + arcHeight)%float in
  (newX, newY, newZ).

(** [Math.max(0, prev.sackTimer - 0.1)] (line 1764), and [n] of them. *)
Definition tick64 (sackTimer : float) : float :=
  Math_max64 0%float (sackTimer - 0.1)%float.

Fixpoint ticks64 (n : nat) (sackTimer : float) : float :=
  match n with
  | O => sackTimer
  | S n => ticks64 n (tick64 sackTimer)
  end.

(** A flight from (-2.7, 1.5, -9.5) to (5.75, 1.5, 3) of half a second. *)
Definition crossingPass64 : Flight64 :=
  {| startPos64 := ((-2.7)%float, 1.5%float, (-9.5)%float);
     targetPos64 := (5.75%float, 1.5%float, 3%float);
     startTime64 := 0%float; duration64 := 0.5%float; maxHeight64 := 2.5%float |}.

End Binary64.

(** ** Field geometry *)

Definition FIELD_WIDTH : Q := 36.
Definition FIELD_LENGTH : Q := 60.
Definition FIELD_HALF_WIDTH : Q := FIELD_WIDTH / 2 - 0.5.
Definition FIELD_MIN_Z : Q := -28.
Definition FIELD_MAX_Z : Q := 28.
Definition ENDZONE_Z : Q := 25.

(** ** Vectors ([BABYLON.Vector3]) *)

Record Vector3 : Type := V3 { vx : Q; vy : Q; vz : Q }.

Definition add (a b : Vector3) : Vector3 := V3 (vx a + vx b) (vy a + vy b) (vz a + vz b).
Definition subtract (a b : Vector3) : Vector3 := V3 (vx a - vx b) (vy a - vy b) (vz a - vz b).
Definition scale (a : Vector3) (k : Q) : Vector3 := V3 (vx a * k) (vy a * k) (vz a * k).
Definition Dot (a b : Vector3) : Q := vx a * vx b + vy a * vy b + vz a * vz b.
Definition lengthSquared (a : Vector3) : Q := Dot a a.
Definition DistanceSquared (a b : Vector3) : Q := lengthSquared (subtract a b).
Definition set_y (y : Q) (a : Vector3) : Vector3 := V3 (vx a) y (vz a).

(** [clampToField] (defined in the source, never called there). *)
Definition clampToField (pos : Vector3) : Vector3 :=
  V3 (Math_max (- FIELD_HALF_WIDTH) (Math_min FIELD_HALF_WIDTH (vx pos)))
     (vy pos)
     (Math_max FIELD_MIN_Z (Math_min FIELD_MAX_Z (vz pos))).

(** ** The data model ([game/types.ts] and the refs of the component) *)

Inductive GameStatus : Type := menu | playing | gameover.

Inductive CutsceneType : Type :=
  | cs_none | cs_game_start | cs_touchdown | cs_sack | cs_interception.

Definition is_playing (g : GameStatus) : bool :=
  match g with playing => true | _ => false end.

Definition is_none (c : CutsceneType) : bool :=
  match c with cs_none => true | _ => false end.

Definition is_game_start (c : CutsceneType) : bool :=
  match c with cs_game_start => true | _ => false end.

(** [GameState]; [selectedReceiver] keeps the [id] of the selected
    receiver, the only part of it the game logic reads. *)
Record GameState : Type := mkGameState {
  score : Z;
  downs : Z;
  yardsToGo : Z;
  lineOfScrimmage : Q;
  firstDownMarker : Q;
  sackTimer : Q;
  gameStatus : GameStatus;
  cutscene : CutsceneType;
  selectedReceiver : option string;
  message : option string
}.

(** An element of [receiversRef]: [group.position] and [data]. *)
Record Receiver : Type := mkReceiver {
  data_id : string;
  group_position : Vector3;
  data_isOpen : bool;
  data_position : Q * Q
}.

Inductive Assignment : Type := rusher | corner | safety.

(** An element of [defendersRef]. *)
Record Defender : Type := mkDefender {
  d_position : Vector3;
  target : Assignment;
  basePos : Vector3
}.

(** The flight record of [ballFlightRef]. *)
Record Flight : Type := mkFlight {
  startPos : Vector3;
  targetPos : Vector3;
  startTime : Q;
  duration : Q;
  maxHeight : Q
}.

Record Keyboard : Type := mkKeyboard { key_w : bool; key_a : bool; key_s : bool; key_d : bool }.

Inductive Key : Type := KW | KA | KS | KD.

(** The callbacks handed to [setTimeout] (and, for [TCutsceneEnd], to the
    last camera animation of a cutscene), with the values they close over. *)
Inductive Timer : Type :=
  | TTouchdown                                   (* handleCatch, 500 ms: handleTouchdown() *)
  | TYouWin                                      (* handleTouchdown, 3000 ms *)
  | TFirstDown (newYardsToGo : Z) (newLOS newFirstDownMarker : Q)   (* handleCatch, 1500 ms *)
  | TShortCatch (newDowns newYardsToGo : Z) (catchPosition : Q)     (* handleCatch, 1500 ms *)
  | TInterceptionOver                            (* handleInterception, 1800 ms *)
  | TSackOver (newDowns newYardsToGo : Z) (newLOS : Q)              (* handleSack, 1800 ms *)
  | TIncompleteOver                              (* handleIncomplete, 1500 ms *)
  | TCutsceneEnd (updatesGameState : bool).      (* end of a cutscene's camera animation *)

Record World : Type := mkWorld {
  gameState : GameState;
  lineOfScrimmageRef : Q;
  playStartedRef : bool;
  ballThrownRef : bool;
  playEndedRef : bool;
  ballFlightRef : option Flight;
  cutsceneActiveRef : CutsceneType;
  qbRef : Vector3;
  ballRef : Vector3;
  receiversRef : list Receiver;
  defendersRef : list Defender;
  joystickRef : Q * Q;
  keyboardRef : Keyboard;
  sackTimerAccum : Q;
  gameStartCutscenePlayed : bool;
  pending : list Timer
}.

Definition set_gameState (v : GameState) (w : World) : World :=
  {| gameState := v; lineOfScrimmageRef := lineOfScrimmageRef w;
     playStartedRef := playStartedRef w; ballThrownRef := ballThrownRef w;
     playEndedRef := playEndedRef w; ballFlightRef := ballFlightRef w;
     cutsceneActiveRef := cutsceneActiveRef w; qbRef := qbRef w; ballRef := ballRef w;
     receiversRef := receiversRef w; defendersRef := defendersRef w;
     joystickRef := joystickRef w; keyboardRef := keyboardRef w;
     sackTimerAccum := sackTimerAccum w; gameStartCutscenePlayed := gameStartCutscenePlayed w;
     pending := pending w |}.

Definition set_lineOfScrimmageRef (v : Q) (w : World) : World :=
  {| gameState := gameState w; lineOfScrimmageRef := v; playStartedRef := playStartedRef w;
     ballThrownRef := ballThrownRef w; playEndedRef := playEndedRef w;
     ballFlightRef := ballFlightRef w; cutsceneActiveRef := cutsceneActiveRef w;
     qbRef := qbRef w; ballRef := ballRef w; receiversRef := receiversRef w;
     defendersRef := defendersRef w; joystickRef := joystickRef w; keyboardRef := keyboardRef w;
     sackTimerAccum := sackTimerAccum w; gameStartCutscenePlayed := gameStartCutscenePlayed w;
     pending := pending w |}.

Definition set_playStartedRef (v : bool) (w : World) : World :=
  {| gameState := gameState w; lineOfScrimmageRef := lineOfScrimmageRef w; playStartedRef := v;
     ballThrownRef := ballThrownRef w; playEndedRef := playEndedRef w;
     ballFlightRef := ballFlightRef w; cutsceneActiveRef := cutsceneActiveRef w;
     qbRef := qbRef w; ballRef := ballRef w; receiversRef := receiversRef w;
     defendersRef := defendersRef w; joystickRef := joystickRef w; keyboardRef := keyboardRef w;
     sackTimerAccum := sackTimerAccum w; gameStartCutscenePlayed := gameStartCutscenePlayed w;
     pending := pending w |}.

Definition set_ballThrownRef (v : bool) (w : World) : World :=
  {| gameState := gameState w; lineOfScrimmageRef := lineOfScrimmageRef w;
     playStartedRef := playStartedRef w; ballThrownRef := v; playEndedRef := playEndedRef w;
     ballFlightRef := ballFlightRef w; cutsceneActiveRef := cutsceneActiveRef w;
     qbRef := qbRef w; ballRef := ballRef w; receiversRef := receiversRef w;
     defendersRef := defendersRef w; joystickRef := joystickRef w; keyboardRef := keyboardRef w;
     sackTimerAccum := sackTimerAccum w; gameStartCutscenePlayed := gameStartCutscenePlayed w;
     pending := pending w |}.

Definition set_playEndedRef (v : bool) (w : World) : World :=
  {| gameState := gameState w; lineOfScrimmageRef := lineOfScrimmageRef w;
     playStartedRef := playStartedRef w; ballThrownRef := ballThrownRef w; playEndedRef := v;
     ballFlightRef := ballFlightRef w; cutsceneActiveRef := cutsceneActiveRef w;
     qbRef := qbRef w; ballRef := ballRef w; receiversRef := receiversRef w;
     defendersRef := defendersRef w; joystickRef := joystickRef w; keyboardRef := keyboardRef w;
     sackTimerAccum := sackTimerAccum w; gameStartCutscenePlayed := gameStartCutscenePlayed w;
     pending := pending w |}.

Definition set_ballFlightRef (v : option Flight) (w : World) : World :=
  {| gameState := gameState w; lineOfScrimmageRef := lineOfScrimmageRef w;
     playStartedRef := playStartedRef w; ballThrownRef := ballThrownRef w;
     playEndedRef := playEndedRef w; ballFlightRef := v;
     cutsceneActiveRef := cutsceneActiveRef w; qbRef := qbRef w; ballRef := ballRef w;
     receiversRef := receiversRef w; defendersRef := defendersRef w;
     joystickRef := joystickRef w; keyboardRef := keyboardRef w;
     sackTimerAccum := sackTimerAccum w; gameStartCutscenePlayed := gameStartCutscenePlayed w;
     pending := pending w |}.

Definition set_cutsceneActiveRef (v : CutsceneType) (w : World) : World :=
  {| gameState := gameState w; lineOfScrimmageRef := lineOfScrimmageRef w;
     playStartedRef := playStartedRef w; ballThrownRef := ballThrownRef w;
     playEndedRef := playEndedRef w; ballFlightRef := ballFlightRef w; cutsceneActiveRef := v;
     qbRef := qbRef w; ballRef := ballRef w; receiversRef := receiversRef w;
     defendersRef := defendersRef w; joystickRef := joystickRef w; keyboardRef := keyboardRef w;
     sackTimerAccum := sackTimerAccum w; gameStartCutscenePlayed := gameStartCutscenePlayed w;
     pending := pending w |}.

Definition set_qbRef (v : Vector3) (w : World) : World :=
  {| gameState := gameState w; lineOfScrimmageRef := lineOfScrimmageRef w;
     playStartedRef := playStartedRef w; ballThrownRef := ballThrownRef w;
     playEndedRef := playEndedRef w; ballFlightRef := ballFlightRef w;
     cutsceneActiveRef := cutsceneActiveRef w; qbRef := v; ballRef := ballRef w;
     receiversRef := receiversRef w; defendersRef := defendersRef w;
     joystickRef := joystickRef w; keyboardRef := keyboardRef w;
     sackTimerAccum := sackTimerAccum w; gameStartCutscenePlayed := gameStartCutscenePlayed w;
     pending := pending w |}.

Definition set_ballRef (v : Vector3) (w : World) : World :=
  {| gameState := gameState w; lineOfScrimmageRef := lineOfScrimmageRef w;
     playStartedRef := playStartedRef w; ballThrownRef := ballThrownRef w;
     playEndedRef := playEndedRef w; ballFlightRef := ballFlightRef w;
     cutsceneActiveRef := cutsceneActiveRef w; qbRef := qbRef w; ballRef := v;
     receiversRef := receiversRef w; defendersRef := defendersRef w;
     joystickRef := joystickRef w; keyboardRef := keyboardRef w;
     sackTimerAccum := sackTimerAccum w; gameStartCutscenePlayed := gameStartCutscenePlayed w;
     pending := pending w |}.

Definition set_receiversRef (v : list Receiver) (w : World) : World :=
  {| gameState := gameState w; lineOfScrimmageRef := lineOfScrimmageRef w;
     playStartedRef := playStartedRef w; ballThrownRef := ballThrownRef w;
     playEndedRef := playEndedRef w; ballFlightRef := ballFlightRef w;
     cutsceneActiveRef := cutsceneActiveRef w; qbRef := qbRef w; ballRef := ballRef w;
     receiversRef := v; defendersRef := defendersRef w; joystickRef := joystickRef w;
     keyboardRef := keyboardRef w; sackTimerAccum := sackTimerAccum w;
     gameStartCutscenePlayed := gameStartCutscenePlayed w; pending := pending w |}.

Definition set_defendersRef (v : list Defender) (w : World) : World :=
  {| gameState := gameState w; lineOfScrimmageRef := lineOfScrimmageRef w;
     playStartedRef := playStartedRef w; ballThrownRef := ballThrownRef w;
     playEndedRef := playEndedRef w; ballFlightRef := ballFlightRef w;
     cutsceneActiveRef := cutsceneActiveRef w; qbRef := qbRef w; ballRef := ballRef w;
     receiversRef := receiversRef w; defendersRef := v; joystickRef := joystickRef w;
     keyboardRef := keyboardRef w; sackTimerAccum := sackTimerAccum w;
     gameStartCutscenePlayed := gameStartCutscenePlayed w; pending := pending w |}.

Definition set_joystickRef (v : Q * Q) (w : World) : World :=
  {| gameState := gameState w; lineOfScrimmageRef := lineOfScrimmageRef w;
     playStartedRef := playStartedRef w; ballThrownRef := ballThrownRef w;
     playEndedRef := playEndedRef w; ballFlightRef := ballFlightRef w;
     cutsceneActiveRef := cutsceneActiveRef w; qbRef := qbRef w; ballRef := ballRef w;
     receiversRef := receiversRef w; defendersRef := defendersRef w; joystickRef := v;
     keyboardRef := keyboardRef w; sackTimerAccum := sackTimerAccum w;
     gameStartCutscenePlayed := gameStartCutscenePlayed w; pending := pending w |}.

Definition set_keyboardRef (v : Keyboard) (w : World) : World :=
  {| gameState := gameState w; lineOfScrimmageRef := lineOfScrimmageRef w;
     playStartedRef := playStartedRef w; ballThrownRef := ballThrownRef w;
     playEndedRef := playEndedRef w; ballFlightRef := ballFlightRef w;
     cutsceneActiveRef := cutsceneActiveRef w; qbRef := qbRef w; ballRef := ballRef w;
     receiversRef := receiversRef w; defendersRef := defendersRef w;
     joystickRef := joystickRef w; keyboardRef := v; sackTimerAccum := sackTimerAccum w;
     gameStartCutscenePlayed := gameStartCutscenePlayed w; pending := pending w |}.

Definition set_sackTimerAccum (v : Q) (w : World) : World :=
  {| gameState := gameState w; lineOfScrimmageRef := lineOfScrimmageRef w;
     playStartedRef := playStartedRef w; ballThrownRef := ballThrownRef w;
     playEndedRef := playEndedRef w; ballFlightRef := ballFlightRef w;
     cutsceneActiveRef := cutsceneActiveRef w; qbRef := qbRef w; ballRef := ballRef w;
     receiversRef := receiversRef w; defendersRef := defendersRef w;
     joystickRef := joystickRef w; keyboardRef := keyboardRef w; sackTimerAccum := v;
     gameStartCutscenePlayed := gameStartCutscenePlayed w; pending := pending w |}.

Definition set_gameStartCutscenePlayed (v : bool) (w : World) : World :=
  {| gameState := gameState w; lineOfScrimmageRef := lineOfScrimmageRef w;
     playStartedRef := playStartedRef w; ballThrownRef := ballThrownRef w;
     playEndedRef := playEndedRef w; ballFlightRef := ballFlightRef w;
     cutsceneActiveRef := cutsceneActiveRef w; qbRef := qbRef w; ballRef := ballRef w;
     receiversRef := receiversRef w; defendersRef := defendersRef w;
     joystickRef := joystickRef w; keyboardRef := keyboardRef w;
     sackTimerAccum := sackTimerAccum w; gameStartCutscenePlayed := v; pending := pending w |}.

Definition set_pending (v : list Timer) (w : World) : World :=
  {| gameState := gameState w; lineOfScrimmageRef := lineOfScrimmageRef w;
     playStartedRef := playStartedRef w; ballThrownRef := ballThrownRef w;
     playEndedRef := playEndedRef w; ballFlightRef := ballFlightRef w;
     cutsceneActiveRef := cutsceneActiveRef w; qbRef := qbRef w; ballRef := ballRef w;
     receiversRef := receiversRef w; defendersRef := defendersRef w;
     joystickRef := joystickRef w; keyboardRef := keyboardRef w;
     sackTimerAccum := sackTimerAccum w; gameStartCutscenePlayed := gameStartCutscenePlayed w;
     pending := v |}.

(** [{ ...prev, field: v }] on the Drive State. *)

Definition upd_score (v : Z) (g : GameState) : GameState :=
  mkGameState v (downs g) (yardsToGo g) (lineOfScrimmage g) (firstDownMarker g) (sackTimer g)
              (gameStatus g) (cutscene g) (selectedReceiver g) (message g).

Definition upd_downs (v : Z) (g : GameState) : GameState :=
  mkGameState (score g) v (yardsToGo g) (lineOfScrimmage g) (firstDownMarker g) (sackTimer g)
              (gameStatus g) (cutscene g) (selectedReceiver g) (message g).

Definition upd_yardsToGo (v : Z) (g : GameState) : GameState :=
  mkGameState (score g) (downs g) v (lineOfScrimmage g) (firstDownMarker g) (sackTimer g)
              (gameStatus g) (cutscene g) (selectedReceiver g) (message g).

Definition upd_lineOfScrimmage (v : Q) (g : GameState) : GameState :=
  mkGameState (score g) (downs g) (yardsToGo g) v (firstDownMarker g) (sackTimer g)
              (gameStatus g) (cutscene g) (selectedReceiver g) (message g).

Definition upd_firstDownMarker (v : Q) (g : GameState) : GameState :=
  mkGameState (score g) (downs g) (yardsToGo g) (lineOfScrimmage g) v (sackTimer g)
              (gameStatus g) (cutscene g) (selectedReceiver g) (message g).

Definition upd_sackTimer (v : Q) (g : GameState) : GameState :=
  mkGameState (score g) (downs g) (yardsToGo g) (lineOfScrimmage g) (firstDownMarker g) v
              (gameStatus g) (cutscene g) (selectedReceiver g) (message g).

Definition upd_gameStatus (v : GameStatus) (g : GameState) : GameState :=
  mkGameState (score g) (downs g) (yardsToGo g) (lineOfScrimmage g) (firstDownMarker g)
              (sackTimer g) v (cutscene g) (selectedReceiver g) (message g).

Definition upd_cutscene (v : CutsceneType) (g : GameState) : GameState :=
  mkGameState (score g) (downs g) (yardsToGo g) (lineOfScrimmage g) (firstDownMarker g)
              (sackTimer g) (gameStatus g) v (selectedReceiver g) (message g).

Definition upd_selectedReceiver (v : option string) (g : GameState) : GameState :=
  mkGameState (score g) (downs g) (yardsToGo g) (lineOfScrimmage g) (firstDownMarker g)
              (sackTimer g) (gameStatus g) (cutscene g) v (message g).

Definition upd_message (v : option string) (g : GameState) : GameState :=
  mkGameState (score g) (downs g) (yardsToGo g) (lineOfScrimmage g) (firstDownMarker g)
              (sackTimer g) (gameStatus g) (cutscene g) (selectedReceiver g) v.

Definition setGameState (f : GameState -> GameState) (w : World) : World :=
  set_gameState (f (gameState w)) w.

Definition setTimeout (t : Timer) (w : World) : World :=
  set_pending (pending w ++ [t]) w.

(** [array.forEach((x, i) => ...)] rewriting each element in place. *)
Fixpoint forEach_from {A : Type} (i : nat) (f : A -> nat -> A) (l : list A) : list A :=
  match l with
  | [] => []
  | x :: r => f x i :: forEach_from (S i) f r
  end.

Definition forEach {A : Type} (f : A -> nat -> A) (l : list A) : list A := forEach_from 0 f l.

(** ** The state the component starts with (lines 54-104, 822-905) *)

Definition startingGameState (status : GameStatus) (cs : CutsceneType) : GameState :=
  {| score := 0; downs := 1; yardsToGo := 10; lineOfScrimmage := -15; firstDownMarker := -5;
     sackTimer := 5; gameStatus := status; cutscene := cs;
     selectedReceiver := None; message := None |}.

Definition initialWorld : World :=
  {| gameState := startingGameState menu cs_none;
     lineOfScrimmageRef := -15;
     playStartedRef := false; ballThrownRef := false; playEndedRef := false;
     ballFlightRef := None;
     cutsceneActiveRef := cs_none;
     qbRef := V3 0 0 (-18);
     ballRef := V3 0.3 1.5 (-9.5);
     receiversRef :=
       [ mkReceiver "wr1" (V3 (- FIELD_HALF_WIDTH + 4) 0 (-10)) true (- FIELD_HALF_WIDTH + 4, -10);
         mkReceiver "wr2" (V3 (FIELD_HALF_WIDTH - 4) 0 (-10)) true (FIELD_HALF_WIDTH - 4, -10) ];
     defendersRef :=
       [ mkDefender (V3 (-4) 0 (-8)) rusher (V3 (-4) 0 (-8));
         mkDefender (V3 4 0 (-8)) rusher (V3 4 0 (-8));
         mkDefender (V3 (-12) 0 (-5)) corner (V3 (-12) 0 (-5));
         mkDefender (V3 12 0 (-5)) corner (V3 12 0 (-5));
         mkDefender (V3 0 0 5) safety (V3 0 0 5) ];
     joystickRef := (0, 0);
     keyboardRef := mkKeyboard false false false false;
     sackTimerAccum := 0;
     gameStartCutscenePlayed := false;
     pending := [] |}.

(** ** Input callbacks and game start *)

Definition set_key (k : Key) (v : bool) (kb : Keyboard) : Keyboard :=
  match k with
  | KW => mkKeyboard v (key_a kb) (key_s kb) (key_d kb)
  | KA => mkKeyboard (key_w kb) v (key_s kb) (key_d kb)
  | KS => mkKeyboard (key_w kb) (key_a kb) v (key_d kb)
  | KD => mkKeyboard (key_w kb) (key_a kb) (key_s kb) v
  end.

(** [handleKeyDown], [handleKeyUp] (lines 126-142), for the keys w, a, s, d. *)
Definition handleKeyDown (k : Key) (w : World) : World :=
  let w := set_keyboardRef (set_key k true (keyboardRef w)) w in
  if negb (playStartedRef w) && is_playing (gameStatus (gameState w))
  then set_playStartedRef true w else w.

Definition handleKeyUp (k : Key) (w : World) : World :=
  set_keyboardRef (set_key k false (keyboardRef w)) w.

(** [handleJoystickMove] (lines 153-158) *)
Definition handleJoystickMove (x y : Q) (w : World) : World :=
  let w := set_joystickRef (x, y) w in
  if ((Math_abs x >? 0.1) || (Math_abs y >? 0.1)) && negb (playStartedRef w)
  then set_playStartedRef true w else w.

(** [skipCutscene] (lines 167-183).  The button that calls it is shown some
    time into a cutscene ([canSkipCutscene]); here it may be pressed at any
    time during one. *)
Definition skipCutscene (w : World) : World :=
  if is_none (cutsceneActiveRef w) then w else
  let w := set_cutsceneActiveRef cs_none w in
  setGameState (upd_cutscene cs_none) w.

(** [startGame], [restartGame] (lines 185-223): the same body twice. *)
Definition startGame (w : World) : World :=
  let w := setGameState (fun _ => startingGameState playing cs_game_start) w in
  let w := set_playStartedRef false w in
  let w := set_ballThrownRef false w in
  let w := set_playEndedRef false w in
  set_cutsceneActiveRef cs_game_start w.

Definition restartGame (w : World) : World := startGame w.

(** ** [resetPlay] (lines 912-991) *)

Definition receiverPositions (los : Q) : list Vector3 :=
  [ V3 (- FIELD_HALF_WIDTH + 4) 0 los; V3 (FIELD_HALF_WIDTH - 4) 0 los ].

Definition defenderPositions (los : Q) : list (Vector3 * Assignment) :=
  [ (V3 (-4) 0 (los + 2), rusher);
    (V3 4 0 (los + 2), rusher);
    (V3 (-12) 0 (los + 5), corner);
    (V3 12 0 (los + 5), corner);
    (V3 0 0 (los + 15), safety) ].

(** The two arrays are built once, with two and five elements, and never
    resized, so that the index is within the table; an element without an
    entry is left as it is. *)
Definition resetReceiver (los : Q) (r : Receiver) (i : nat) : Receiver :=
  match nth_error (receiverPositions los) i with
  | Some p => {| data_id := data_id r; group_position := p; data_isOpen := true;
                 data_position := (vx p, vz p) |}
  | None => r
  end.

Definition resetDefender (los : Q) (d : Defender) (i : nat) : Defender :=
  match nth_error (defenderPositions los) i with
  | Some (p, t) => {| d_position := p; target := t; basePos := p |}
  | None => d
  end.

Definition resetPlay (w : World) : World :=
  let w := set_playStartedRef false w in
  let w := set_ballThrownRef false w in
  let w := set_playEndedRef false w in
  let w := set_ballFlightRef None w in
  let los := lineOfScrimmageRef w in
  let w := set_qbRef (V3 0 0 (los - 8)) w in
  let w := set_ballRef (V3 0.3 1.5 (los + 0.5)) w in
  let w := set_receiversRef (forEach (resetReceiver los) (receiversRef w)) w in
  let w := set_defendersRef (forEach (resetDefender los) (defendersRef w)) w in
  setGameState (fun prev => upd_message (Some ""%string)
                             (upd_selectedReceiver None (upd_sackTimer 5 prev))) w.

(** ** Outcome handlers (lines 1399-1638) *)

(** [handleTouchdown]; the timer queued first stands for the end of
    [playTouchdownCutscene]. *)

Definition handleTouchdown (w : World) : World :=
  if playEndedRef w then w else
  let w := set_playEndedRef true w in
  let w := setGameState (fun prev => upd_message (Some "TOUCHDOWN!"%string)
                          (upd_cutscene cs_touchdown (upd_score (score prev + 7) prev))) w in
  let w := set_cutsceneActiveRef cs_touchdown w in
  let w := setTimeout (TCutsceneEnd true) w in
  setTimeout TYouWin w.

Definition turnoverOnDowns (prev : GameState) : GameState :=
  upd_message (Some "TURNOVER ON DOWNS!"%string) (upd_gameStatus gameover prev).

(** [handleCatch] *)
Definition handleCatch (w : World) : World :=
  if playEndedRef w then w else
  let w := set_playEndedRef true w in
  let catchPosition := vz (ballRef w) in
  let currentFirstDownMarker := firstDownMarker (gameState w) in
  if catchPosition >=? ENDZONE_Z - 3 then
    let w := setGameState (upd_message (Some "COMPLETE!"%string)) w in
    setTimeout TTouchdown w
  else if catchPosition >=? currentFirstDownMarker then
    let newLOS := catchPosition in
    let newFirstDownMarker := Math_min (newLOS + 10) (ENDZONE_Z - 1) in
    let yardsToEndzone := ENDZONE_Z - newLOS in
    let newYardsToGo := Math_round (Math_min 10 yardsToEndzone) in
    let w := set_lineOfScrimmageRef newLOS w in
    let w := setGameState (upd_message (Some "FIRST DOWN!"%string)) w in
    setTimeout (TFirstDown newYardsToGo newLOS newFirstDownMarker) w
  else
    let newDowns := (downs (gameState w) + 1)%Z in
    let newYardsToGo := Math_round (currentFirstDownMarker - catchPosition) in
    let w := set_lineOfScrimmageRef catchPosition w in
    if (newDowns >? 4)%Z then setGameState turnoverOnDowns w
    else
      let w := setGameState (upd_message (Some "COMPLETE!"%string)) w in
      setTimeout (TShortCatch newDowns newYardsToGo catchPosition) w.

(** [handleInterception]; the end of [playInterceptionCutscene] resets the
    ref of the cutscene only. *)
Definition handleInterception (w : World) : World :=
  if playEndedRef w then w else
  let w := set_playEndedRef true w in
  let w := setGameState (fun prev => upd_message (Some "INTERCEPTED!"%string)
                          (upd_cutscene cs_interception prev)) w in
  let w := set_cutsceneActiveRef cs_interception w in
  let w := setTimeout (TCutsceneEnd false) w in
  setTimeout TInterceptionOver w.

(** [`SACKED! -${yardsLost} YDS`] *)
Definition sackMessage (yardsLost : Z) : string :=
  ("SACKED! -" ++ NilZero.string_of_int (Z.to_int yardsLost) ++ " YDS")%string.

(** [handleSack] *)
Definition handleSack (w : World) : World :=
  if playEndedRef w then w else
  let w := set_playEndedRef true w in
  let qbPos := qbRef w in
  let newDowns := (downs (gameState w) + 1)%Z in
  let currentLOS := lineOfScrimmageRef w in
  let sackPosition := vz qbPos in
  let yardsLost := Math_round (currentLOS - sackPosition) in
  let newLOS := sackPosition in
  let w := set_lineOfScrimmageRef newLOS w in
  let currentYardsToGo := yardsToGo (gameState w) in
  let newYardsToGo := Math_round (inject_Z currentYardsToGo + inject_Z yardsLost) in
  let w := setGameState (fun prev => upd_message (Some (sackMessage yardsLost))
                          (upd_cutscene cs_sack prev)) w in
  let w := set_cutsceneActiveRef cs_sack w in
  let w := setTimeout (TCutsceneEnd true) w in
  setTimeout (TSackOver newDowns newYardsToGo newLOS) w.

(** [handleIncomplete] *)
Definition handleIncomplete (w : World) : World :=
  if playEndedRef w then w else
  let w := set_playEndedRef true w in
  let newDowns := (downs (gameState w) + 1)%Z in
  if (newDowns >? 4)%Z then setGameState turnoverOnDowns w
  else
    let w := setGameState (fun prev => upd_message (Some "INCOMPLETE!"%string)
                            (upd_downs newDowns prev)) w in
    setTimeout TIncompleteOver w.

(** The body of each queued callback. *)
Definition runTimer (t : Timer) (w : World) : World :=
  match t with
  | TTouchdown => handleTouchdown w
  | TYouWin =>
      setGameState (fun prev => upd_message (Some "YOU WIN!"%string)
                                  (upd_gameStatus gameover prev)) w
  | TFirstDown newYardsToGo newLOS newFirstDownMarker =>
      resetPlay
        (setGameState (fun prev =>
           upd_message (Some ""%string)
             (upd_firstDownMarker newFirstDownMarker
                (upd_lineOfScrimmage newLOS
                   (upd_yardsToGo (Z.max 1 newYardsToGo) (upd_downs 1 prev))))) w)
  | TShortCatch newDowns newYardsToGo catchPosition =>
      resetPlay
        (setGameState (fun prev =>
           upd_message (Some ""%string)
             (upd_lineOfScrimmage catchPosition
                (upd_yardsToGo (Z.max 1 newYardsToGo) (upd_downs newDowns prev)))) w)
  | TInterceptionOver =>
      setGameState (fun prev => upd_cutscene cs_none (upd_gameStatus gameover prev)) w
  | TSackOver newDowns newYardsToGo newLOS =>
      if (newDowns >? 4)%Z then
        setGameState (fun prev => upd_cutscene cs_none (turnoverOnDowns prev)) w
      else
        resetPlay
          (setGameState (fun prev =>
             upd_message (Some ""%string)
               (upd_cutscene cs_none
                  (upd_lineOfScrimmage newLOS
                     (upd_yardsToGo (Z.max 1 newYardsToGo) (upd_downs newDowns prev))))) w)
  | TIncompleteOver =>
      resetPlay (setGameState (upd_message (Some ""%string)) w)
  | TCutsceneEnd updatesGameState =>
      let w := set_cutsceneActiveRef cs_none w in
      if updatesGameState then setGameState (upd_cutscene cs_none) w else w
  end.

(** ** Routes *)

(** [getReceiverVelocity] (lines 994-1047): the route velocity of receiver [receiverIndex]
    standing at [receiverPos]. *)
Definition getReceiverVelocity (w : World) (receiverIndex : nat) (receiverPos : Vector3)
  : Vector3 :=
  let routeSpeed := 10 in
  let startZ := lineOfScrimmageRef w in
  let distanceTraveled := vz receiverPos - startZ in
  if Nat.eqb receiverIndex 0 then
    let breakPoint := 8 in
    if distanceTraveled <? breakPoint then V3 (- routeSpeed * 0.1) 0 routeSpeed
    else
      let defenderInside :=
        match nth_error (defendersRef w) 2 with
        | Some defender => vx (d_position defender) >? vx receiverPos
        | None => false
        end in
      if defenderInside then V3 (- routeSpeed * 0.8) 0 (routeSpeed * 0.6)
      else V3 (routeSpeed * 0.7) 0 (routeSpeed * 0.6)
  else
    let breakPoint := 6 in
    if distanceTraveled <? breakPoint then V3 (- routeSpeed * 0.1) 0 routeSpeed
    else
      let defenderInside :=
        match nth_error (defendersRef w) 3 with
        | Some defender => vx (d_position defender) <? vx receiverPos
        | None => false
        end in
      if defenderInside then V3 (routeSpeed * 0.9) 0 (routeSpeed * 0.4)
      else V3 (- routeSpeed * 0.85) 0 (routeSpeed * 0.5).

(** The receiver part of the frame (lines 1867-1945): one receiver, index [i]. *)
Definition receiverStep (delta : Q) (w : World) (r : Receiver) (i : nat) : Receiver :=
  let routeSpeed := 10 in
  let startZ := lineOfScrimmageRef w in
  let p := group_position r in
  let distanceTraveled := vz p - startZ in
  let p :=
    if vz p <? ENDZONE_Z - 1 then
      if Nat.eqb i 0 then
        let breakPoint := 8 in
        if distanceTraveled <? breakPoint then
          V3 (vx p - routeSpeed * 0.1 * delta) (vy p) (vz p + routeSpeed * delta)
        else
          let defenderInside :=
            match nth_error (defendersRef w) 2 with
            | Some defender => vx (d_position defender) >? vx p
            | None => false
            end in
          if defenderInside then
            V3 (vx p - routeSpeed * 0.8 * delta) (vy p) (vz p + routeSpeed * 0.6 * delta)
          else
            V3 (vx p + routeSpeed * 0.7 * delta) (vy p) (vz p + routeSpeed * 0.6 * delta)
      else
        let breakPoint := 6 in
        if distanceTraveled <? breakPoint then
          V3 (vx p - routeSpeed * 0.1 * delta) (vy p) (vz p + routeSpeed * delta)
        else
          let defenderInside :=
            match nth_error (defendersRef w) 3 with
            | Some defender => vx (d_position defender) <? vx p
            | None => false
            end in
          if defenderInside then
            V3 (vx p + routeSpeed * 0.9 * delta) (vy p) (vz p + routeSpeed * 0.4 * delta)
          else
            V3 (vx p - routeSpeed * 0.85 * delta) (vy p) (vz p + routeSpeed * 0.5 * delta)
    else p in
  let z := Math_min (ENDZONE_Z - 1) (vz p) in
  let x := Math_max (- FIELD_HALF_WIDTH + 1) (Math_min (FIELD_HALF_WIDTH - 1) (vx p)) in
  {| data_id := data_id r; group_position := V3 x (vy p) z; data_isOpen := data_isOpen r;
     data_position := (x, z) |}.

Definition receiversStep (delta : Q) (w : World) : World :=
  set_receiversRef (forEach (receiverStep delta w) (receiversRef w)) w.

(** ** The quarterback (lines 1772-1800) *)

Definition qbStep (delta : Q) (w : World) : World :=
  if negb (ballThrownRef w) then
    let moveSpeed := 6 in
    let kb := keyboardRef w in
    let keyboardX := (if key_a kb then -1 else 0) + (if key_d kb then 1 else 0) in
    let keyboardY := (if key_w kb then 1 else 0) + (if key_s kb then -1 else 0) in
    let joystick := joystickRef w in
    let inputX :=
      if Math_abs (fst joystick) >? Math_abs keyboardX then fst joystick else keyboardX in
    let inputY :=
      if Math_abs (snd joystick) >? Math_abs keyboardY then snd joystick else keyboardY in
    let x := vx (qbRef w) + inputX * moveSpeed * delta in
    let z := vz (qbRef w) - inputY * moveSpeed * delta in
    let x := Math_max (- FIELD_HALF_WIDTH + 1) (Math_min (FIELD_HALF_WIDTH - 1) x) in
    let z := Math_max (FIELD_MIN_Z + 2) (Math_min (-10) z) in
    let w := set_qbRef (V3 x (vy (qbRef w)) z) w in
    set_ballRef (V3 (x + 0.3) (vy (ballRef w)) (z + 0.5)) w
  else w.

(** ** The sack timer (lines 1759-1770) *)

(** What the frame callback does itself (lines 1760-1763): it adds the
    delta to its accumulator and, once a tenth of a second is reached,
    clears the accumulator and hands React an updater of the Drive State.
    The second component tells whether it did. *)
Definition sackTimerStep (delta : Q) (w : World) : World * bool :=
  let w := set_sackTimerAccum (sackTimerAccum w + delta) w in
  if sackTimerAccum w >=? 0.1 then (set_sackTimerAccum 0 w, true) else (w, false).

(** The updater handed over, [(prev) => { ... }] (lines 1763-1769).  React
    calls it when it processes the update, after the frame callback has
    returned: it is then that the ref of the thrown ball is read, and that
    [handleSack] reads the latch and the position of the quarterback.  The
    count is kept as an exact rational here; the program subtracts 0.1 in
    binary64 (see [tick64] below). *)
Definition sackTimerUpdater (w : World) : World :=
  let newTimer := Math_max 0 (sackTimer (gameState w) - 0.1) in
  let w := if (newTimer <=? 0) && negb (ballThrownRef w) then handleSack w else w in
  setGameState (upd_sackTimer newTimer) w.

(** ** Ball flight (lines 2016-2031) *)

(** The position written to the ball at interpolation parameter [t]. *)
Definition flightPosition (flight : Flight) (t : Q) : Vector3 :=
  let newX := Lerp (vx (startPos flight)) (vx (targetPos flight)) t in
  let newZ := Lerp (vz (startPos flight)) (vz (targetPos flight)) t in
  let baseY := Lerp (vy (startPos flight)) (vy (targetPos flight)) t in
  let arcHeight := 4 * maxHeight flight * t * (1 - t) in
  let newY := baseY + arcHeight in
  V3 newX newY newZ.

(** [receiversRef.current.find((r) => r.data.id === selectedReceiver?.id)] *)
Definition findReceiver (id : option string) (l : list Receiver) : option Receiver :=
  match id with
  | Some id => find (fun r => String.eqb (data_id r) id) l
  | None => None
  end.

Definition catchChance (isOpen : bool) : Q := if isOpen then 0.95 else 0.55.

(** Replace element [i] of a list ([a[i] = x] with [i] in range). *)
Fixpoint update_nth {A : Type} (i : nat) (x : A) (l : list A) : list A :=
  match l, i with
  | [], _ => []
  | _ :: r, O => x :: r
  | y :: r, S j => y :: update_nth j x r
  end.

(** [array.find] together with the [indexOf] of what it found. *)
Fixpoint findIndex_from {A : Type} (i : nat) (f : A -> bool) (l : list A) : option (nat * A) :=
  match l with
  | [] => None
  | x :: r => if f x then Some (i, x) else findIndex_from (S i) f r
  end.

(** What a pointer event hit: [pickResult.hit], [pickResult.pickedPoint] and,
    when the picked mesh is the hit area or a child mesh of a receiver, the
    index of that receiver. *)
Record PickResult : Type := mkPick {
  hit : bool;
  pickedPoint : option Vector3;
  pickedReceiver : option nat
}.

Inductive Event : Type :=
  | EvStartGame
  | EvRestartGame
  | EvKeyDown (k : Key)
  | EvKeyUp (k : Key)
  | EvJoystickMove (x y : Q)
  | EvSkipCutscene
  | EvPointerDown (now : Q) (pickResult : PickResult)
  | EvFrame (delta now random : Q)
  | EvTimeout (n : nat).

Fixpoint remove_nth {A : Type} (n : nat) (l : list A) : list A :=
  match l, n with
  | [], _ => []
  | _ :: r, O => r
  | x :: r, S m => x :: remove_nth m r
  end.

(** The five outcome handlers, by name. *)
Inductive Outcome : Type := OTouchdown | OCatch | OInterception | OSack | OIncomplete.

Definition handle (o : Outcome) : World -> World :=
  match o with
  | OTouchdown => handleTouchdown
  | OCatch => handleCatch
  | OInterception => handleInterception
  | OSack => handleSack
  | OIncomplete => handleIncomplete
  end.

(** ** Event sequences used to run the model *)

(** A pointer event on the hit area of receiver [i]. *)
Definition pickReceiver (i : nat) : PickResult := mkPick true None (Some i).

(** Start from the menu, let the opening cutscene begin and end. *)
Definition opening : list Event := [EvStartGame; EvFrame 0 0 0; EvTimeout 0].

(** Snap, throw to the first receiver at once, let him run for a second,
    and let the ball land where he no longer is. *)
Definition incompletePlay : list Event :=
  [EvKeyDown KS; EvPointerDown 0 (pickReceiver 0); EvFrame 1 0 0; EvFrame 0 100 0].

(** Three incomplete passes, each followed by the reset of the play. *)
Definition threeIncompletePasses : list Event :=
  opening ++ incompletePlay ++ [EvTimeout 0] ++ incompletePlay ++ [EvTimeout 0]
          ++ incompletePlay ++ [EvTimeout 0].

(** Snap, retreat while the first receiver runs deep, throw to him, and let
    the ball arrive while he is still running: a catch at about 23.4. *)
Definition touchdownPass : list Event :=
  opening ++ [EvKeyDown KW; EvFrame 2.7 3 0; EvPointerDown 3 (pickReceiver 0); EvFrame 1 100 0].

(** A ball in the air towards the first receiver. *)
Definition shortPass : Flight :=
  {| startPos := V3 0.3 1.5 (-9.5); targetPos := V3 (-13.5) 1.5 (-8); startTime := 0;
     duration := 0.5; maxHeight := 2.5 |}.

Definition withShortPass (w : World) : World :=
  set_ballFlightRef (Some shortPass)
    (set_ballThrownRef true (setGameState (upd_selectedReceiver (Some "wr1"%string)) w)).

(** ** The rating of the game-over screen ([game/game-ui.tsx], lines 100-108) *)

Definition finalRating (score : Z) : string :=
  if (score >=? 28)%Z then "HALL OF FAME!"
  else if (score >=? 21)%Z then "PRO BOWL!"
  else if (score >=? 14)%Z then "SOLID GAME!"
  else if (score >=? 7)%Z then "KEEP GRINDING!"
  else "BACK TO PRACTICE!".

(** ** Counting the queued callbacks *)

(** The callbacks queued by the handlers themselves, as opposed to the ends
    of camera animations. *)
Definition outcome_timer (t : Timer) : bool :=
  match t with TCutsceneEnd _ => false | _ => true end.

Definition outcomes (l : list Timer) : nat := List.length (filter outcome_timer l).

(** A run of frames only: each triple is the delta, the clock and the draw. *)
Definition frames (l : list (Q * Q * Q)) : list Event :=
  map (fun f => EvFrame (fst (fst f)) (snd (fst f)) (snd f)) l.

(** ** Where the players may stand *)

(** The region a receiver is clamped to at the end of his step. *)
Definition receiver_in_bounds (r : Receiver) : Prop :=
  (- FIELD_HALF_WIDTH + 1 <= vx (group_position r)
   /\ vx (group_position r) <= FIELD_HALF_WIDTH - 1)
  /\ vz (group_position r) <= ENDZONE_Z - 1.

(** The band a defender is clamped to at the end of his step, by assignment. *)
Definition in_band (d : Defender) : Prop :=
  (- FIELD_HALF_WIDTH <= vx (d_position d) /\ vx (d_position d) <= FIELD_HALF_WIDTH)
  /\ match target d with
     | rusher => FIELD_MIN_Z + 2 <= vz (d_position d) /\ vz (d_position d) <= -5
     | corner => FIELD_MIN_Z + 10 <= vz (d_position d) /\ vz (d_position d) <= ENDZONE_Z - 1
     | safety => vz (d_position d) <= ENDZONE_Z - 2
     end.

(** Every corner has the receiver it covers: the one two places before it. *)
Definition corners_have_receivers (w : World) : Prop :=
  forall i, nth_error (map target (defendersRef w)) i = Some corner ->
            (2 <= i < 2 + List.length (receiversRef w))%nat.

(** The two receivers and the five defenders the scene is built with. *)
Definition formation (w : World) : Prop :=
  map data_id (receiversRef w) = ["wr1"; "wr2"]%string
  /\ map target (defendersRef w) = [rusher; rusher; corner; corner; safety].

(** A ball marked as thrown has a flight to follow. *)
Definition thrown_has_flight (w : World) : Prop :=
  ballThrownRef w = true -> exists flight : Flight, ballFlightRef w = Some flight.

Definition well_formed (w : World) : Prop := formation w /\ thrown_has_flight w.

(** The refs the formation and the throw are read from. *)
Definition players (w : World) : list Receiver * list Defender * bool * option Flight :=
  (receiversRef w, defendersRef w, ballThrownRef w, ballFlightRef w).

(** The refs and the state an outcome handler writes. *)
Definition play (w : World) : GameState * list Timer * bool * Q * Vector3 * CutsceneType :=
  (gameState w, pending w, playEndedRef w, lineOfScrimmageRef w, qbRef w,
   cutsceneActiveRef w).

Definition is_restart (e : Event) : bool :=
  match e with EvRestartGame => true | _ => false end.

(** The events that do not come from a timer or from the skip button. *)
Definition no_clock (e : Event) : bool :=
  match e with EvSkipCutscene | EvTimeout _ => false | _ => true end.

(** ** Further event sequences *)

(** The opening followed by the snap. *)
Definition snapped : list Event := opening ++ [EvKeyDown KS].

(** Snap, throw to the first receiver at once and let the ball arrive with
    a draw above the catch chance: an interception, and the game over. *)
Definition interceptedPass : list Event :=
  snapped ++ [EvPointerDown 0 (pickReceiver 0); EvFrame 0.3 100 0.99; EvTimeout 1].

Section Geometry.

(** [Math.sqrt] *)
Variable Math_sqrt : Q -> Q.

Definition length (a : Vector3) : Q := Math_sqrt (lengthSquared a).

Definition Distance (a b : Vector3) : Q := Math_sqrt (DistanceSquared a b).

Definition normalize (a : Vector3) : Vector3 :=
  let len := length a in
  if Qeq_bool len 0 then a else scale a (1 / len).

(** *** [throwBall] (lines 1319-1396); [now] is [performance.now() / 1000] *)

Definition throwBall (receiver : string) (clickPoint : option Vector3) (now : Q) (w : World)
  : World :=
  if ballThrownRef w then w else
  let w := setGameState (upd_selectedReceiver (Some receiver)) w in
  let w := set_ballThrownRef true w in
  match findIndex_from 0 (fun r => String.eqb (data_id r) receiver) (receiversRef w) with
  | Some (receiverIndex, targetReceiver) =>
      let receiverPos := group_position targetReceiver in
      let velocity := getReceiverVelocity w receiverIndex receiverPos in
      let velocityMagnitude := length velocity in
      let distance := Distance (ballRef w) receiverPos in
      let ballSpeed := 32 in
      let flightTime := distance / ballSpeed in
      let leadX := vx receiverPos + vx velocity * flightTime * 0.75 in
      let leadZ := vz receiverPos + vz velocity * flightTime * 0.75 in
      let lead :=
        match clickPoint with
        | Some clickPoint =>
            let clickDirection := set_y 0 (subtract clickPoint receiverPos) in
            if length clickDirection >? 0.1 then
              let clickDirection := normalize clickDirection in
              let routeDirection := normalize velocity in
              let alignment := Dot clickDirection routeDirection in
              if alignment >? 0.3 then
                let clickDistance := Distance clickPoint receiverPos in
                let extraLead :=
                  Math_min (clickDistance * 0.5) (velocityMagnitude * flightTime * 0.3) in
                (leadX + vx routeDirection * extraLead, leadZ + vz routeDirection * extraLead)
              else (leadX, leadZ)
            else (leadX, leadZ)
        | None => (leadX, leadZ)
        end in
      let leadX :=
        Math_max (- FIELD_HALF_WIDTH + 1) (Math_min (FIELD_HALF_WIDTH - 1) (fst lead)) in
      let leadZ := Math_min (ENDZONE_Z - 1) (Math_max (vz receiverPos) (snd lead)) in
      let targetPos := V3 leadX 1.5 leadZ in
      let throwDistance := Distance (ballRef w) targetPos in
      let flightDuration := throwDistance / ballSpeed in
      let maxHeight := 1.5 + throwDistance * 0.08 in
      set_ballFlightRef
        (Some {| startPos := ballRef w; targetPos := targetPos; startTime := now;
                 duration := flightDuration; maxHeight := maxHeight |}) w
  | None => w
  end.

(** *** [scene.onPointerDown] (lines 1641-1714) *)

(** One turn of the loop of the throw assist: [best] is [bestScore]
    ([None] for [Infinity]) with [bestReceiver]. *)
Definition assistStep (w : World) (tapPoint : Vector3) (best : option (Q * Receiver))
           (receiver : Receiver) (i : nat) : option (Q * Receiver) :=
  let receiverPos := group_position receiver in
  let dist := Distance (set_y 0 tapPoint) (set_y 0 receiverPos) in
  let velocity := getReceiverVelocity w i receiverPos in
  let routeDir := normalize velocity in
  let toClick := set_y 0 (subtract tapPoint receiverPos) in
  let clickDist := length toClick in
  let below (s : Q) := match best with Some (b, _) => s <? b | None => true end in
  if clickDist >? 0.1 then
    let toClick := normalize toClick in
    let alignment := Dot toClick routeDir in
    let score :=
      if (alignment >? 0) && (clickDist <? 15) then dist * (1 - alignment * 0.5) else dist in
    if below score && (dist <? 15) then Some (score, receiver) else best
  else if below dist && (dist <? 15) then Some (dist, receiver)
  else best.

Fixpoint assistLoop (w : World) (tapPoint : Vector3) (best : option (Q * Receiver))
         (i : nat) (l : list Receiver) : option (Q * Receiver) :=
  match l with
  | [] => best
  | receiver :: rest =>
      assistLoop w tapPoint (assistStep w tapPoint best receiver i) (S i) rest
  end.

Definition onPointerDown (now : Q) (pickResult : PickResult) (w : World) : World :=
  if negb (is_playing (gameStatus (gameState w))) || ballThrownRef w then w else
  let clickPoint := if hit pickResult then pickedPoint pickResult else None in
  let direct :=
    if hit pickResult then
      match pickedReceiver pickResult with
      | Some i => nth_error (receiversRef w) i
      | None => None
      end
    else None in
  match direct with
  | Some receiver => throwBall (data_id receiver) clickPoint now w
  | None =>
      match clickPoint with
      | Some tapPoint =>
          match assistLoop w tapPoint None 0 (receiversRef w) with
          | Some (_, bestReceiver) => throwBall (data_id bestReceiver) clickPoint now w
          | None => w
          end
      | None => w
      end
  end.

(** *** Defenders (lines 1947-2001) *)

Definition clampX (x : Q) : Q := Math_max (- FIELD_HALF_WIDTH) (Math_min FIELD_HALF_WIDTH x).

Definition setDefenderPosition (i : nat) (d : Defender) (p : Vector3) (w : World) : World :=
  set_defendersRef
    (update_nth i {| d_position := p; target := target d; basePos := basePos d |}
                (defendersRef w)) w.

(** The defender part of the frame for the defender at index [i]. *)
Definition defenderStep (delta : Q) (w : World) (i : nat) : World :=
  match nth_error (defendersRef w) i with
  | None => w
  | Some d =>
      match target d with
      | rusher =>
          let toQB := normalize (set_y 0 (subtract (qbRef w) (d_position d))) in
          let rushSpeed := 2.5 in
          let p := add (d_position d) (scale toQB (rushSpeed * delta)) in
          let p := V3 (clampX (vx p)) (vy p)
                      (Math_max (FIELD_MIN_Z + 2) (Math_min (-5) (vz p))) in
          let w := setDefenderPosition i d p w in
          let distToQB := Distance p (qbRef w) in
          if (distToQB <? 1.2) && negb (ballThrownRef w) then handleSack w else w
      | corner =>
          match (if Nat.ltb i 2 then None else nth_error (receiversRef w) (i - 2)) with
          | Some targetReceiver =>
              let toReceiver :=
                normalize (set_y 0 (subtract (group_position targetReceiver) (d_position d))) in
              let coverSpeed := 8.5 in
              let p := add (d_position d) (scale toReceiver (coverSpeed * delta)) in
              let p := V3 (clampX (vx p)) (vy p)
                          (Math_max (FIELD_MIN_Z + 10) (Math_min (ENDZONE_Z - 1) (vz p))) in
              let w := setDefenderPosition i d p w in
              let dist := Distance p (group_position targetReceiver) in
              set_receiversRef
                (update_nth (i - 2)
                   {| data_id := data_id targetReceiver;
                      group_position := group_position targetReceiver;
                      data_isOpen := dist >? 4;
                      data_position := data_position targetReceiver |}
                   (receiversRef w)) w
          | None => w
          end
      | safety =>
          let p := d_position d in
          let z := Math_min (ENDZONE_Z - 2) (vz p + 5 * delta) in
          setDefenderPosition i d (V3 (clampX (vx p)) (vy p) z) w
      end
  end.

Definition defendersStep (delta : Q) (w : World) : World :=
  fold_left (defenderStep delta) (seq 0 (List.length (defendersRef w))) w.

(** *** Arrival of the ball (lines 2035-2058) *)

Definition resolveArrival (random : Q) (w : World) : World :=
  match findReceiver (selectedReceiver (gameState w)) (receiversRef w) with
  | Some receiver =>
      let distToReceiver := Distance (ballRef w) (group_position receiver) in
      let isCatchable := distToReceiver <? 5 in
      if isCatchable then
        if random <? catchChance (data_isOpen receiver) then handleCatch w
        else handleInterception w
      else handleIncomplete w
  | None => w
  end.

(** The ball in flight (lines 2016-2059).  A flight of duration 0 is
    outside what is stated about this function: the quotient is then
    [Infinity] or [NaN] in the program and 0 here. *)
Definition ballFlightStep (now random : Q) (w : World) : World :=
  if ballThrownRef w then
    match ballFlightRef w with
    | Some flight =>
        let elapsed := now - startTime flight in
        let t := Math_min (elapsed / duration flight) 1 in
        let w := set_ballRef (flightPosition flight t) w in
        if t >=? 1 then
          let w := resolveArrival random w in
          let w := set_ballThrownRef false w in
          set_ballFlightRef None w
        else w
    | None => w
    end
  else w.

(** *** The callback of [scene.registerBeforeRender] (lines 1721-2060) *)

(** The last line is not of the callback: it is React running the
    updater of the sack timer, when the callback handed it one, once the
    callback has returned and before anything else happens. *)
Definition beforeRender (delta now random : Q) (w : World) : World :=
  if negb (is_playing (gameStatus (gameState w))) then w
  else if is_game_start (cutsceneActiveRef w) && negb (gameStartCutscenePlayed w) then
    setTimeout (TCutsceneEnd true) (set_gameStartCutscenePlayed true w)
  else if negb (is_none (cutsceneActiveRef w)) then w
  else if negb (playStartedRef w) then w
  else
    let queued := snd (sackTimerStep delta w) in
    let w := fst (sackTimerStep delta w) in
    let w := qbStep delta w in
    let w := receiversStep delta w in
    let w := defendersStep delta w in
    let w := ballFlightStep now random w in
    if queued then sackTimerUpdater w else w.

(** *** The whole component as a transition system *)

(** The start button exists on the menu screen only and the restart
    button on the game-over screen only ([game-ui.tsx]). *)
Definition step (e : Event) (w : World) : World :=
  match e with
  | EvStartGame =>
      match gameStatus (gameState w) with menu => startGame w | _ => w end
  | EvRestartGame =>
      match gameStatus (gameState w) with gameover => restartGame w | _ => w end
  | EvKeyDown k => handleKeyDown k w
  | EvKeyUp k => handleKeyUp k w
  | EvJoystickMove x y => handleJoystickMove x y w
  | EvSkipCutscene => skipCutscene w
  | EvPointerDown now pickResult => onPointerDown now pickResult w
  | EvFrame delta now random => beforeRender delta now random w
  | EvTimeout n =>
      match nth_error (pending w) n with
      | Some t => runTimer t (set_pending (remove_nth n (pending w)) w)
      | None => w
      end
  end.

Definition run (es : list Event) (w : World) : World := fold_left (fun w e => step e w) es w.

Inductive reachable : World -> Prop :=
  | reachable_initial : reachable initialWorld
  | reachable_step : forall e w, reachable w -> reachable (step e w).

(** What the arrival frame does to the flight once the outcome is
    resolved: [ballThrownRef.current = false; ballFlightRef.current = null]. *)
Definition clearFlight (w : World) : World :=
  set_ballFlightRef None (set_ballThrownRef false w).

(** ** Predicates used in the statements *)

(** A predicate on the world that looks only at the Drive State, the
    line-of-scrimmage ref, the queued callbacks and the latch is
    [FrameStable] when the handlers, the tick of the sack timer and the
    start of the opening cutscene preserve it, and [Stable] when the other
    writes of the component do as well. *)

Record FrameStable (P : World -> Prop) : Prop := {
  stable_view : forall w w',
    gameState w' = gameState w -> pending w' = pending w ->
    playEndedRef w' = playEndedRef w -> lineOfScrimmageRef w' = lineOfScrimmageRef w ->
    P w -> P w';
  stable_handle : forall o w, P w -> P (handle o w);
  stable_sackTimer : forall t w, P w -> P (setGameState (upd_sackTimer t) w);
  stable_cutscene : forall w, P w -> P (setTimeout (TCutsceneEnd true) w)
}.

Record Stable (P : World -> Prop) : Prop := {
  stable_frame : FrameStable P;
  stable_selected : forall r w, P w -> P (setGameState (upd_selectedReceiver r) w);
  stable_skip : forall w, P w -> P (setGameState (upd_cutscene cs_none) w);
  stable_start : forall w, gameStatus (gameState w) <> playing -> P w -> P (startGame w);
  stable_timeout : forall n t w,
    nth_error (pending w) n = Some t -> P w ->
    P (runTimer t (set_pending (remove_nth n (pending w)) w))
}.

(** What the queued callbacks may carry for the down counter to stay
    within bounds: a short catch queues its new down only when it is at
    most 4, a sack queues it unchecked and checks it when the callback
    runs. *)
Definition timer_ok (t : Timer) : Prop :=
  match t with
  | TShortCatch newDowns _ _ => (1 <= newDowns <= 4)%Z
  | TSackOver newDowns _ _ => (1 <= newDowns)%Z
  | _ => True
  end.

Definition downs_ok (w : World) : Prop :=
  (1 <= downs (gameState w) <= 4)%Z /\ Forall timer_ok (pending w).

(** A touchdown catch has been made and nothing but its own callback and
    ends of camera animations is queued. *)
Definition awaits_touchdown (s : Z) (w : World) : Prop :=
  playEndedRef w = true
  /\ gameStatus (gameState w) = playing
  /\ score (gameState w) = s
  /\ Forall (fun t => t = TTouchdown \/ exists b, t = TCutsceneEnd b) (pending w).

(** In a frame that began with the ball in hand: the quarterback stands
    at [qb], the ball is still in hand, the sack timer shows [t], and if
    the play has ended the line of scrimmage is where he stands. *)
Definition sack_at (qb : Vector3) (t : Q) (w : World) : Prop :=
  qbRef w = qb
  /\ ballThrownRef w = false
  /\ sackTimer (gameState w) = t
  /\ (playEndedRef w = true -> lineOfScrimmageRef w = vz qb).

(** The latch is set and the Drive State is [g] up to the count of the
    sack timer, with the line of scrimmage at [los]. *)
Definition frozen (g : GameState) (los : Q) (w : World) : Prop :=
  playEndedRef w = true
  /\ (exists t, gameState w = upd_sackTimer t g)
  /\ lineOfScrimmageRef w = los.

(** A finer pair of closure conditions than [FrameStable] and [Stable]:
    the frame calls every handler but [handleTouchdown], calls them only
    while the game is being played or with the latch already set, and the
    only write to the sack timer is its tick. *)
Record FrameInv (P : World -> Prop) : Prop := {
  fi_view : forall w w',
    gameState w' = gameState w -> pending w' = pending w ->
    playEndedRef w' = playEndedRef w -> lineOfScrimmageRef w' = lineOfScrimmageRef w ->
    P w -> P w';
  fi_handle : forall o w, o <> OTouchdown -> P w -> P (handle o w);
  fi_tick : forall w,
    P w -> P (setGameState (upd_sackTimer (Math_max 0 (sackTimer (gameState w) - 0.1))) w);
  fi_cutscene : forall w, P w -> P (setTimeout (TCutsceneEnd true) w)
}.

Record EventInv (P : World -> Prop) : Prop := {
  ei_view : forall w w',
    gameState w' = gameState w -> pending w' = pending w ->
    playEndedRef w' = playEndedRef w -> lineOfScrimmageRef w' = lineOfScrimmageRef w ->
    P w -> P w';
  ei_handle : forall o w,
    o <> OTouchdown ->
    gameStatus (gameState w) = playing \/ playEndedRef w = true ->
    P w -> P (handle o w);
  ei_tick : forall w,
    P w -> P (setGameState (upd_sackTimer (Math_max 0 (sackTimer (gameState w) - 0.1))) w);
  ei_cutscene : forall w, P w -> P (setTimeout (TCutsceneEnd true) w);
  ei_selected : forall r w, P w -> P (setGameState (upd_selectedReceiver r) w);
  ei_skip : forall w, P w -> P (setGameState (upd_cutscene cs_none) w);
  ei_start : forall w, gameStatus (gameState w) <> playing -> P w -> P (startGame w);
  ei_timeout : forall n t w,
    nth_error (pending w) n = Some t -> P w ->
    P (runTimer t (set_pending (remove_nth n (pending w)) w))
}.

(** The game is being played or the play has ended. *)
Definition live (w : World) : Prop :=
  gameStatus (gameState w) = playing \/ playEndedRef w = true.

(** No point has been scored and none is on its way: [TYouWin] is not
    queued, at most one callback of a handler is queued, and while one is,
    the latch is set and the game is being played. *)
Definition unscored (w : World) : Prop :=
  score (gameState w) = 0%Z
  /\ ~ In TYouWin (pending w)
  /\ (outcomes (pending w) <= 1)%nat
  /\ (outcomes (pending w) = 1%nat ->
      playEndedRef w = true /\ gameStatus (gameState w) = playing).

(** The bounds of the derived fields of the Drive State, with what the
    queued callback of a first down may carry for the marker. *)
Definition marker_ok (t : Timer) : Prop :=
  match t with
  | TFirstDown _ _ newFirstDownMarker =>
      -5 <= newFirstDownMarker /\ newFirstDownMarker <= ENDZONE_Z - 1
  | _ => True
  end.

Definition drive_bounds (w : World) : Prop :=
  (1 <= yardsToGo (gameState w))%Z
  /\ (0 <= sackTimer (gameState w) /\ sackTimer (gameState w) <= 5)
  /\ (-5 <= firstDownMarker (gameState w) /\ firstDownMarker (gameState w) <= ENDZONE_Z - 1)
  /\ Forall marker_ok (pending w).

(** ** Properties *)

(** *** Numbers *)

Lemma ltb_lt (a b : Q) : (a <? b) = true <-> a < b.
Proof.
  unfold ltb. rewrite Qlt_alt. destruct (a ?= b); split; intro H; congruence.
Qed.

Lemma ltb_ge (a b : Q) : (a <? b) = false <-> b <= a.
Proof.
  rewrite <- not_true_iff_false, ltb_lt. split; [apply Qnot_lt_le | apply Qle_not_lt].
Qed.

Lemma leb_le (a b : Q) : (a <=? b) = true <-> a <= b.
Proof.
  unfold leb. rewrite Qle_alt. destruct (a ?= b); split; intro H; congruence.
Qed.

Lemma leb_gt (a b : Q) : (a <=? b) = false <-> b < a.
Proof.
  rewrite <- not_true_iff_false, leb_le. split; [apply Qnot_le_lt | apply Qlt_not_le].
Qed.

Lemma geb_ge (a b : Q) : (a >=? b) = true <-> b <= a.
Proof. apply leb_le. Qed.

Lemma geb_lt (a b : Q) : (a >=? b) = false <-> a < b.
Proof. apply leb_gt. Qed.

Lemma Math_max_lower (a b : Q) : a <= Math_max a b.
Proof. apply Q.le_max_l. Qed.

Lemma Math_max_upper (a b c : Q) : a <= c -> b <= c -> Math_max a b <= c.
Proof. apply Q.max_lub. Qed.

Lemma Math_min_upper (a b : Q) : Math_min a b <= a.
Proof. apply Q.le_min_l. Qed.

(** [Math.max(lo, Math.min(hi, x))] lies in [[lo, hi]]. *)
Lemma clamp_between (lo hi x : Q) :
  lo <= hi -> lo <= Math_max lo (Math_min hi x) /\ Math_max lo (Math_min hi x) <= hi.
Proof.
  intro Hle. split.
  - apply Math_max_lower.
  - apply Math_max_upper; [exact Hle | apply Math_min_upper].
Qed.

Lemma Math_round_lower (n : Z) (a : Q) : inject_Z n <= a -> (n <= Math_round a)%Z.
Proof.
  intro H. unfold Math_round. rewrite <- (Qfloor_Z n).
  apply Qfloor_resp_le. lra.
Qed.

Lemma Math_round_inject_Z (n : Z) : Math_round (inject_Z n) = n.
Proof.
  apply Z.le_antisymm.
  - unfold Math_round. apply Z.lt_succ_r. rewrite Zlt_Qlt.
    apply Qle_lt_trans with (inject_Z n + 0.5); [apply Qfloor_le |].
    unfold Z.succ. rewrite inject_Z_plus. change (inject_Z 1) with 1. lra.
  - apply Math_round_lower. lra.
Qed.

(** *** The per-play latch *)

Ltac unfold_handlers :=
  unfold handle, handleTouchdown, handleCatch, handleInterception, handleSack,
    handleIncomplete in *.

Ltac split_ifs :=
  repeat match goal with
         | |- context [if ?c then _ else _] => destruct c eqn:?
         end.

Ltac Zgtb_to_Prop :=
  repeat match goal with
         | H : (_ >? _)%Z = _ |- _ =>
             simpl in H; rewrite Z.gtb_ltb in H;
             first [apply Z.ltb_ge in H | apply Z.ltb_lt in H]
         end.

(** A handler called with the latch set returns at once. *)
Lemma handle_latched (o : Outcome) (w : World) :
  playEndedRef w = true -> handle o w = w.
Proof.
  intro H. destruct o; unfold_handlers; rewrite H; reflexivity.
Qed.

(** Whatever a handler does, the latch is set when it returns. *)
Lemma handle_sets_latch (o : Outcome) (w : World) :
  playEndedRef (handle o w) = true.
Proof.
  destruct o; unfold_handlers; destruct (playEndedRef w) eqn:E; auto;
    split_ifs; reflexivity.
Qed.

(** *** Predicates every frame and every event preserves *)

Section StableFrame.

Variable P : World -> Prop.
Hypothesis HP : FrameStable P.

Ltac neutral w0 :=
  apply (stable_view P HP w0); [reflexivity | reflexivity | reflexivity | reflexivity | ].

Lemma stable_sackTimerStep delta w : P w -> P (fst (sackTimerStep delta w)).
Proof.
  intro H. unfold sackTimerStep. cbv zeta.
  destruct (_ >=? _); simpl fst; neutral w; exact H.
Qed.

Lemma stable_sackTimerUpdater w : P w -> P (sackTimerUpdater w).
Proof.
  intro H. unfold sackTimerUpdater.
  apply (stable_sackTimer P HP).
  destruct (_ && _); [apply (stable_handle P HP OSack) |]; exact H.
Qed.

Lemma stable_qbStep delta w : P w -> P (qbStep delta w).
Proof.
  intro H. unfold qbStep. destruct (negb _); [| exact H]. neutral w; exact H.
Qed.

Lemma stable_receiversStep delta w : P w -> P (receiversStep delta w).
Proof. intro H. unfold receiversStep. neutral w; exact H. Qed.

Lemma stable_defenderStep delta w i : P w -> P (defenderStep delta w i).
Proof.
  intro H. unfold defenderStep.
  destruct (nth_error (defendersRef w) i) as [d |]; [| exact H].
  destruct (target d).
  - destruct (_ && _).
    + apply (stable_handle P HP OSack). neutral w; exact H.
    + neutral w; exact H.
  - destruct (if Nat.ltb i 2 then None else nth_error (receiversRef w) (i - 2));
      [neutral w | ]; exact H.
  - neutral w; exact H.
Qed.

Lemma stable_defendersStep delta w : P w -> P (defendersStep delta w).
Proof.
  unfold defendersStep. generalize (seq 0 (List.length (defendersRef w))).
  intro l. revert w. induction l as [| i l IH]; intros w H; simpl.
  - exact H.
  - apply IH, stable_defenderStep, H.
Qed.

Lemma stable_resolveArrival random w : P w -> P (resolveArrival random w).
Proof.
  intro H. unfold resolveArrival.
  destruct (findReceiver _ _); [| exact H].
  destruct (_ <? 5).
  - destruct (_ <? _).
    + apply (stable_handle P HP OCatch), H.
    + apply (stable_handle P HP OInterception), H.
  - apply (stable_handle P HP OIncomplete), H.
Qed.

Lemma stable_ballFlightStep now random w : P w -> P (ballFlightStep now random w).
Proof.
  intro H. unfold ballFlightStep.
  destruct (ballThrownRef w); [| exact H].
  destruct (ballFlightRef w) as [flight |]; [| exact H].
  destruct (_ >=? 1).
  - match goal with
    | |- P (set_ballFlightRef _ (set_ballThrownRef _ ?x)) =>
        apply (stable_view P HP x); [reflexivity | reflexivity | reflexivity | reflexivity |]
    end.
    apply stable_resolveArrival. neutral w; exact H.
  - neutral w; exact H.
Qed.

Lemma stable_beforeRender delta now random w :
  P w -> P (beforeRender delta now random w).
Proof.
  intro H. unfold beforeRender.
  destruct (negb (is_playing _)); [exact H |].
  destruct (_ && _).
  { apply (stable_cutscene P HP). neutral w; exact H. }
  destruct (negb (is_none _)); [exact H |].
  destruct (negb (playStartedRef w)); [exact H |]. cbv zeta.
  destruct (snd (sackTimerStep delta w)); [apply stable_sackTimerUpdater |];
    apply stable_ballFlightStep, stable_defendersStep, stable_receiversStep,
      stable_qbStep, stable_sackTimerStep, H.
Qed.

End StableFrame.

Section StableEvents.

Variable P : World -> Prop.
Hypothesis HP : Stable P.

Let HF : FrameStable P := stable_frame P HP.

Ltac neutral w0 :=
  apply (stable_view P HF w0); [reflexivity | reflexivity | reflexivity | reflexivity | ].

Lemma stable_throwBall receiver clickPoint now w :
  P w -> P (throwBall receiver clickPoint now w).
Proof.
  intro H. unfold throwBall.
  destruct (ballThrownRef w); [exact H |].
  assert (H' : P (set_ballThrownRef true
                    (setGameState (upd_selectedReceiver (Some receiver)) w))).
  { match goal with
    | |- P (set_ballThrownRef _ ?x) =>
        apply (stable_view P HF x); [reflexivity | reflexivity | reflexivity | reflexivity |]
    end.
    apply (stable_selected P HP), H. }
  destruct (findIndex_from _ _ _) as [[receiverIndex targetReceiver] |]; [| exact H'].
  match goal with
  | |- P (set_ballFlightRef _ ?x) =>
      apply (stable_view P HF x); [reflexivity | reflexivity | reflexivity | reflexivity |]
  end.
  exact H'.
Qed.

Lemma stable_onPointerDown now pickResult w :
  P w -> P (onPointerDown now pickResult w).
Proof.
  intro H. unfold onPointerDown.
  destruct (_ || _); [exact H |].
  destruct (if hit pickResult then _ else _) as [receiver |].
  - apply stable_throwBall, H.
  - destruct (if hit pickResult then pickedPoint pickResult else None); [| exact H].
    destruct (assistLoop _ _ _ _ _) as [[s bestReceiver] |]; [| exact H].
    apply stable_throwBall, H.
Qed.

Theorem stable_step e w : P w -> P (step e w).
Proof.
  intro H. destruct e; simpl.
  - destruct (gameStatus (gameState w)) eqn:E; try exact H.
    apply (stable_start P HP); [congruence | exact H].
  - destruct (gameStatus (gameState w)) eqn:E; try exact H.
    apply (stable_start P HP); [congruence | exact H].
  - unfold handleKeyDown. destruct (_ && _); neutral w; exact H.
  - unfold handleKeyUp. neutral w; exact H.
  - unfold handleJoystickMove. destruct (_ && _); neutral w; exact H.
  - unfold skipCutscene. destruct (is_none _); [exact H |].
    apply (stable_skip P HP). neutral w; exact H.
  - apply stable_onPointerDown, H.
  - apply stable_beforeRender; [exact HF | exact H].
  - destruct (nth_error (pending w) n) as [t |] eqn:E; [| exact H].
    apply (stable_timeout P HP); assumption.
Qed.

Corollary stable_run es w : P w -> P (run es w).
Proof.
  unfold run. revert w. induction es as [| e es IH]; intros w H; simpl.
  - exact H.
  - apply IH, stable_step, H.
Qed.

Corollary stable_reachable w : P initialWorld -> reachable w -> P w.
Proof.
  intros H0 Hr. induction Hr as [| e w Hr IH]; [exact H0 | apply stable_step, IH].
Qed.

End StableEvents.

(** *** One outcome per play *)

Lemma upd_sackTimer_self (g : GameState) : g = upd_sackTimer (sackTimer g) g.
Proof. destruct g. reflexivity. Qed.

Lemma frozen_frame_stable (g : GameState) (los : Q) : FrameStable (frozen g los).
Proof.
  constructor.
  - intros w w' Eg _ El Es (Hl & Ht & Hs). unfold frozen.
    rewrite Eg, El, Es. repeat split; assumption.
  - intros o w H. rewrite handle_latched; [exact H | apply H].
  - intros t w (Hl & [t0 Ht] & Hs). repeat split; try assumption.
    exists t. simpl. rewrite Ht. reflexivity.
  - intros w H. exact H.
Qed.

(** C8. Within a play at most one outcome fires.  When the first
    handler [o1] of touchdown, catch (first down or short), interception,
    sack and incomplete returns, the latch is set.  From then on, until the
    play is reset, every further trigger [o2] returns at the latch and
    changes nothing at all, and no part of a frame (the accumulator of the
    sack timer and the updater with its sack trigger, quarterback,
    receivers, defenders with their sack trigger, ball flight with its
    arrival) nor a whole frame clears the latch or changes the Drive State,
    the count of the sack timer apart: triggers that race in one frame
    find the latch set by the first of them. *)
Theorem one_outcome_per_play :
  forall (o1 : Outcome) (w : World),
    let g := gameState (handle o1 w) in
    let los := lineOfScrimmageRef (handle o1 w) in
    frozen g los (handle o1 w)
    /\ forall w' : World,
         frozen g los w' ->
         (forall o2 : Outcome, handle o2 w' = w')
         /\ forall delta now random : Q,
              frozen g los (fst (sackTimerStep delta w'))
              /\ frozen g los (sackTimerUpdater w')
              /\ frozen g los (qbStep delta w')
              /\ frozen g los (receiversStep delta w')
              /\ frozen g los (defendersStep delta w')
              /\ frozen g los (ballFlightStep now random w')
              /\ frozen g los (beforeRender delta now random w').
Proof.
  intros o1 w g los. split.
  - split; [apply handle_sets_latch | split; [| reflexivity]].
    exists (sackTimer g). apply upd_sackTimer_self.
  - intros w' H. split.
    + intro o2. apply handle_latched, H.
    + intros delta now random.
      pose proof (frozen_frame_stable g los) as HF.
      split; [apply stable_sackTimerStep; assumption |].
      split; [apply stable_sackTimerUpdater; assumption |].
      split; [apply stable_qbStep; assumption |].
      split; [apply stable_receiversStep; assumption |].
      split; [apply stable_defendersStep; assumption |].
      split; [apply stable_ballFlightStep; assumption |].
      apply stable_beforeRender; assumption.
Qed.

(** *** The down counter *)

Lemma Forall_remove_nth {A : Type} (Q : A -> Prop) (n : nat) (l : list A) :
  Forall Q l -> Forall Q (remove_nth n l).
Proof.
  intro H. revert n. induction H as [| x l Hx Hl IH]; intro n.
  - destruct n; constructor.
  - destruct n; simpl; [exact Hl | constructor; [exact Hx | apply IH]].
Qed.

Lemma Forall_nth_error {A : Type} (Q : A -> Prop) (n : nat) (l : list A) (x : A) :
  Forall Q l -> nth_error l n = Some x -> Q x.
Proof.
  intros H E. rewrite Forall_forall in H. apply H. eapply nth_error_In, E.
Qed.

Lemma Forall_snoc {A : Type} (Q : A -> Prop) (l : list A) (x : A) :
  Forall Q l -> Q x -> Forall Q (l ++ [x]).
Proof.
  intros Hl Hx. apply Forall_app. split; [exact Hl | constructor; [exact Hx | constructor]].
Qed.

Lemma downs_ok_handle (o : Outcome) (w : World) : downs_ok w -> downs_ok (handle o w).
Proof.
  intros [Hd Hp]. unfold downs_ok.
  destruct o; unfold_handlers; destruct (playEndedRef w); auto; split_ifs; simpl;
    Zgtb_to_Prop; (split; [try lia | repeat apply Forall_snoc; simpl; auto; try lia]).
Qed.

Lemma downs_ok_resetPlay (w : World) : downs_ok w -> downs_ok (resetPlay w).
Proof. intros [Hd Hp]. split; assumption. Qed.

Lemma downs_ok_runTimer (t : Timer) (w : World) :
  timer_ok t -> downs_ok w -> downs_ok (runTimer t w).
Proof.
  intros Ht Hw. destruct t; simpl in *.
  - apply (downs_ok_handle OTouchdown), Hw.
  - destruct Hw as [Hd Hp]. split; assumption.
  - apply downs_ok_resetPlay. destruct Hw as [Hd Hp]. split; simpl; [lia | assumption].
  - apply downs_ok_resetPlay. destruct Hw as [Hd Hp]. split; simpl; [lia | assumption].
  - destruct Hw as [Hd Hp]. split; assumption.
  - destruct (newDowns >? 4)%Z eqn:E; Zgtb_to_Prop.
    + destruct Hw as [Hd Hp]. split; assumption.
    + apply downs_ok_resetPlay. destruct Hw as [Hd Hp]. split; simpl; [lia | assumption].
  - apply downs_ok_resetPlay. destruct Hw as [Hd Hp]. split; assumption.
  - destruct updatesGameState; destruct Hw as [Hd Hp]; split; assumption.
Qed.

Lemma downs_ok_stable : Stable downs_ok.
Proof.
  constructor; [constructor | | | |].
  - intros w w' Eg Ep _ _ [Hd Hp]. unfold downs_ok. rewrite Eg, Ep. split; assumption.
  - apply downs_ok_handle.
  - intros t w [Hd Hp]. split; assumption.
  - intros w [Hd Hp]. split; [assumption | apply Forall_snoc; simpl; auto].
  - intros r w [Hd Hp]. split; assumption.
  - intros w [Hd Hp]. split; assumption.
  - intros w _ [Hd Hp]. split; simpl; [lia | assumption].
  - intros n t w E [Hd Hp]. apply downs_ok_runTimer.
    + eapply Forall_nth_error; eassumption.
    + split; [assumption | apply Forall_remove_nth, Hp].
Qed.

Lemma downs_ok_initialWorld : downs_ok initialWorld.
Proof. split; simpl; [lia | constructor]. Qed.

Lemma reachable_run (es : list Event) (w : World) : reachable w -> reachable (run es w).
Proof.
  unfold run. revert w. induction es as [| e es IH]; intros w H; simpl.
  - exact H.
  - apply IH. constructor. exact H.
Qed.

(** C1. In every state the component can reach the down counter is
    between 1 and 4 (so it is while the game is being played, and a down
    above 4 is never seen).  On fourth down, each outcome that uses a down
    ends the game by a turnover on downs and leaves the counter at 4: an
    incomplete pass and a catch short of the marker at once, a sack when the
    callback it queued runs after the cutscene. *)
Theorem down_counter_in_range :
  forall w : World,
    reachable w ->
    (1 <= downs (gameState w) <= 4)%Z
    /\ (playEndedRef w = false -> downs (gameState w) = 4%Z ->
        (gameStatus (gameState (handleIncomplete w)) = gameover
         /\ downs (gameState (handleIncomplete w)) = 4%Z)
        /\ (vz (ballRef w) < ENDZONE_Z - 3 ->
            vz (ballRef w) < firstDownMarker (gameState w) ->
            gameStatus (gameState (handleCatch w)) = gameover
            /\ downs (gameState (handleCatch w)) = 4%Z)
        /\ (exists newYardsToGo newLOS,
               pending (handleSack w)
               = pending w ++ [TCutsceneEnd true; TSackOver 5 newYardsToGo newLOS]
               /\ downs (gameState (handleSack w)) = 4%Z
               /\ forall w', gameStatus (gameState
                                (runTimer (TSackOver 5 newYardsToGo newLOS) w')) = gameover
                             /\ downs (gameState
                                  (runTimer (TSackOver 5 newYardsToGo newLOS) w'))
                                = downs (gameState w'))).
Proof.
  intros w Hr. split.
  - apply (stable_reachable downs_ok downs_ok_stable w downs_ok_initialWorld Hr).
  - intros Hlatch H4. split; [| split].
    + unfold handleIncomplete. rewrite Hlatch. simpl. rewrite H4. simpl.
      split; [reflexivity | exact H4].
    + intros Htd Hshort. apply geb_lt in Htd. apply geb_lt in Hshort.
      unfold handleCatch. rewrite Hlatch. simpl. rewrite Htd, Hshort, H4. simpl.
      split; [reflexivity | exact H4].
    + unfold handleSack. rewrite Hlatch. simpl. rewrite H4.
      do 2 eexists. split; [| split].
      * rewrite <- app_assoc. reflexivity.
      * reflexivity.
      * intro w'. split; reflexivity.
Qed.

(** *** First down *)

(** C2 (amended). A catch at or beyond the first-down marker and short of
    the touchdown margin moves the line of scrimmage (the ref at once, the
    Drive State when the queued callback runs) to the catch position, the
    marker to [min(newLOS + 10, endzone - 1)], the yards to go to
    [min(10, endzone - newLOS)] rounded to the nearest integer, and the
    down to 1. *)
Theorem first_down_moves_the_chains :
  forall w : World,
    playEndedRef w = false ->
    firstDownMarker (gameState w) <= vz (ballRef w) ->
    vz (ballRef w) < ENDZONE_Z - 3 ->
    let newLOS := vz (ballRef w) in
    let newFirstDownMarker := Math_min (newLOS + 10) (ENDZONE_Z - 1) in
    let newYardsToGo := Math_round (Math_min 10 (ENDZONE_Z - newLOS)) in
    let callback := TFirstDown newYardsToGo newLOS newFirstDownMarker in
    lineOfScrimmageRef (handleCatch w) = newLOS
    /\ pending (handleCatch w) = pending w ++ [callback]
    /\ forall w' : World,
         let g := gameState (runTimer callback w') in
         downs g = 1%Z
         /\ lineOfScrimmage g = newLOS
         /\ firstDownMarker g = newFirstDownMarker
         /\ yardsToGo g = newYardsToGo.
Proof.
  intros w Hlatch Hmarker Htd newLOS newFirstDownMarker newYardsToGo callback.
  apply geb_lt in Htd. apply geb_ge in Hmarker.
  unfold handleCatch. rewrite Hlatch. simpl. rewrite Htd, Hmarker. simpl.
  split; [reflexivity | split; [reflexivity |]].
  intros w'. repeat split.
  apply Z.max_r. subst newYardsToGo. apply Math_round_lower.
  apply geb_lt in Htd. subst newLOS. unfold ENDZONE_Z in *.
  change (inject_Z 1) with 1. apply Q.min_glb; lra.
Qed.

(** *** Sack *)

Lemma handleSack_fields (w : World) :
  qbRef (handleSack w) = qbRef w
  /\ ballThrownRef (handleSack w) = ballThrownRef w
  /\ sackTimer (gameState (handleSack w)) = sackTimer (gameState w)
  /\ playEndedRef (handleSack w) = true
  /\ lineOfScrimmageRef (handleSack w)
     = (if playEndedRef w then lineOfScrimmageRef w else vz (qbRef w)).
Proof.
  unfold handleSack. destruct (playEndedRef w) eqn:E; repeat split; exact E.
Qed.

Lemma sack_at_handleSack (qb : Vector3) (t : Q) (w : World) :
  sack_at qb t w -> sack_at qb t (handleSack w).
Proof.
  intros (Hq & Hb & Ht & Hl).
  destruct (handleSack_fields w) as (Eq & Eb & Et & _ & El).
  unfold sack_at. rewrite Eq, Eb, Et, El.
  repeat split; try assumption.
  intros _. destruct (playEndedRef w); [apply Hl; reflexivity | rewrite Hq; reflexivity].
Qed.

Lemma sack_at_defenderStep (qb : Vector3) (t : Q) (delta : Q) (w : World) (i : nat) :
  sack_at qb t w -> sack_at qb t (defenderStep delta w i).
Proof.
  intro H. unfold defenderStep.
  destruct (nth_error (defendersRef w) i) as [d |]; [| exact H].
  destruct (target d); cbv zeta.
  - destruct (_ && _); [apply sack_at_handleSack |]; exact H.
  - destruct (if Nat.ltb i 2 then None else nth_error (receiversRef w) (i - 2)); exact H.
  - exact H.
Qed.

Lemma sack_at_defendersStep (qb : Vector3) (t : Q) (delta : Q) (w : World) :
  sack_at qb t w -> sack_at qb t (defendersStep delta w).
Proof.
  unfold defendersStep. generalize (seq 0 (List.length (defendersRef w))).
  intro l. revert w. induction l as [| i l IH]; intros w H; simpl.
  - exact H.
  - apply IH, sack_at_defenderStep, H.
Qed.

Lemma sack_at_qbStep (delta : Q) (w : World) :
  playEndedRef w = false -> ballThrownRef w = false ->
  sack_at (qbRef (qbStep delta w)) (sackTimer (gameState w)) (qbStep delta w).
Proof.
  intros Hlatch Hthrown. unfold sack_at, qbStep. rewrite Hthrown. simpl.
  repeat split; [exact Hthrown |]. rewrite Hlatch. discriminate.
Qed.

(** C4 (amended). A sack costs [Math.round(LOS - tackle position)] yards:
    the line of scrimmage moves to where the quarterback stands, and when
    the callback queued for the end of the cutscene runs, either the down
    would pass 4 and the game is over, or the down is incremented and the
    yards to go become the old ones plus the yards lost, at least 1.  The
    sack fires from the updater of the sack timer, when the count it
    stores is 0, and from a rusher that ends its move within 1.2 of the
    quarterback, in both cases only if the ball has not been thrown.  The
    updater is handed to React by the frame in which a tenth of a second
    is complete and runs once the callback of that frame has returned: a
    sack from the timer tackles the quarterback where the move of that
    frame has taken him. *)
Theorem sack_transition :
  forall w : World,
    playEndedRef w = false ->
    let tackle := vz (qbRef w) in
    let yardsLost := Math_round (lineOfScrimmageRef w - tackle) in
    let newDowns := (downs (gameState w) + 1)%Z in
    let callback := TSackOver newDowns (yardsToGo (gameState w) + yardsLost) tackle in
    (lineOfScrimmageRef (handleSack w) = tackle
     /\ message (gameState (handleSack w)) = Some (sackMessage yardsLost)
     /\ pending (handleSack w) = pending w ++ [TCutsceneEnd true; callback]
     /\ forall w' : World,
          let g := gameState (runTimer callback w') in
          if (newDowns >? 4)%Z
          then gameStatus g = gameover /\ downs g = downs (gameState w')
          else downs g = newDowns
               /\ yardsToGo g = Z.max 1 (yardsToGo (gameState w) + yardsLost)
               /\ lineOfScrimmage g = tackle)
    /\ (sackTimer (gameState w) - 0.1 <= 0 ->
        ballThrownRef w = false ->
        sackTimerUpdater w
        = setGameState (upd_sackTimer (Math_max 0 (sackTimer (gameState w) - 0.1)))
            (handleSack w))
    /\ (forall delta now random : Q,
          gameStatus (gameState w) = playing ->
          cutsceneActiveRef w = cs_none ->
          playStartedRef w = true ->
          0.1 <= sackTimerAccum w + delta ->
          let moved := qbStep delta (set_sackTimerAccum 0 w) in
          beforeRender delta now random w
          = sackTimerUpdater
              (ballFlightStep now random
                 (defendersStep delta (receiversStep delta moved)))
          /\ (sackTimer (gameState w) - 0.1 <= 0 ->
              ballThrownRef w = false ->
              playEndedRef (beforeRender delta now random w) = true
              /\ lineOfScrimmageRef (beforeRender delta now random w) = vz (qbRef moved)))
    /\ (forall (delta : Q) (i : nat) (d : Defender),
          nth_error (defendersRef w) i = Some d ->
          target d = rusher ->
          ballThrownRef w = false ->
          let toQB := normalize (set_y 0 (subtract (qbRef w) (d_position d))) in
          let moved := add (d_position d) (scale toQB (2.5 * delta)) in
          let p := V3 (clampX (vx moved)) (vy moved)
                      (Math_max (FIELD_MIN_Z + 2) (Math_min (-5) (vz moved))) in
          Distance p (qbRef w) < 1.2 ->
          defenderStep delta w i = handleSack (setDefenderPosition i d p w)).
Proof.
  intros w Hlatch tackle yardsLost newDowns callback.
  assert (Hupdater : forall v : World,
             sackTimer (gameState v) - 0.1 <= 0 ->
             ballThrownRef v = false ->
             sackTimerUpdater v
             = setGameState (upd_sackTimer (Math_max 0 (sackTimer (gameState v) - 0.1)))
                 (handleSack v)).
  { intros v Htimer Hthrown. unfold sackTimerUpdater. cbv zeta.
    assert (Hzero : (Math_max 0 (sackTimer (gameState v) - 0.1) <=? 0) = true).
    { apply leb_le. apply Math_max_upper; [lra | exact Htimer]. }
    rewrite Hzero, Hthrown. reflexivity. }
  split; [| split; [| split]].
  - unfold handleSack. rewrite Hlatch. simpl.
    rewrite <- inject_Z_plus, Math_round_inject_Z.
    split; [reflexivity | split; [reflexivity | split]].
    + rewrite <- app_assoc. reflexivity.
    + intros w'. destruct (newDowns >? 4)%Z; simpl; repeat split.
  - apply Hupdater.
  - intros delta now random Hplaying Hnone Hstarted Haccum moved.
    assert (Hstep : sackTimerStep delta w = (set_sackTimerAccum 0 w, true)).
    { unfold sackTimerStep. cbv zeta.
      change (sackTimerAccum (set_sackTimerAccum (sackTimerAccum w + delta) w))
        with (sackTimerAccum w + delta).
      apply geb_ge in Haccum. rewrite Haccum. reflexivity. }
    assert (Hframe : beforeRender delta now random w
                     = sackTimerUpdater
                         (ballFlightStep now random
                            (defendersStep delta (receiversStep delta moved)))).
    { unfold beforeRender. rewrite Hplaying, Hnone, Hstarted. cbv zeta.
      rewrite Hstep. reflexivity. }
    split; [exact Hframe |].
    intros Htimer Hthrown. rewrite Hframe.
    assert (H2 : sack_at (qbRef moved) (sackTimer (gameState w)) moved)
      by (apply (sack_at_qbStep delta (set_sackTimerAccum 0 w)); assumption).
    assert (H4 : sack_at (qbRef moved) (sackTimer (gameState w))
                   (defendersStep delta (receiversStep delta moved)))
      by (apply sack_at_defendersStep; exact H2).
    set (w4 := defendersStep delta (receiversStep delta moved)) in *.
    destruct H4 as (Hq & Hb & Ht & Hl).
    assert (H5 : ballFlightStep now random w4 = w4)
      by (unfold ballFlightStep; rewrite Hb; reflexivity).
    rewrite H5, Hupdater; [| rewrite Ht; exact Htimer | exact Hb].
    destruct (handleSack_fields w4) as (Eq & _ & _ & Ee & El).
    split; [exact Ee |].
    change (lineOfScrimmageRef (handleSack w4) = vz (qbRef moved)).
    rewrite El. destruct (playEndedRef w4); [apply Hl; reflexivity | rewrite Hq; reflexivity].
  - intros delta i d Hnth Htarget Hthrown toQB moved p Hdist.
    unfold defenderStep. rewrite Hnth, Htarget.
    fold toQB. fold moved. fold p. simpl.
    apply ltb_lt in Hdist. rewrite Hdist, Hthrown. reflexivity.
Qed.

(** *** Ball flight *)

Lemma ballRef_handle (o : Outcome) (w : World) : ballRef (handle o w) = ballRef w.
Proof.
  destruct o; unfold_handlers; destruct (playEndedRef w); auto; split_ifs; reflexivity.
Qed.

Lemma ballRef_resolveArrival (random : Q) (w : World) :
  ballRef (resolveArrival random w) = ballRef w.
Proof.
  unfold resolveArrival. destruct (findReceiver _ _); [| reflexivity].
  destruct (_ <? 5); [destruct (_ <? _) |].
  - apply (ballRef_handle OCatch).
  - apply (ballRef_handle OInterception).
  - apply (ballRef_handle OIncomplete).
Qed.

(** The ball is written at [flightPosition] in every frame of a flight. *)
Lemma ballRef_ballFlightStep (now random : Q) (w : World) (flight : Flight) :
  ballThrownRef w = true -> ballFlightRef w = Some flight ->
  ballRef (ballFlightStep now random w)
  = flightPosition flight (Math_min ((now - startTime flight) / duration flight) 1).
Proof.
  intros Hthrown Hflight. unfold ballFlightStep. rewrite Hthrown, Hflight.
  destruct (_ >=? 1); simpl; [apply ballRef_resolveArrival | reflexivity].
Qed.

(** C5. In the frame in which the interpolation parameter reaches 1 the
    outcome is decided against the position the targeted receiver has in
    that frame: beyond the catchable radius 5 (and on it) the pass is
    incomplete; within it a draw below the catch chance is a catch and any
    other draw an interception.  The chance is 0.95 for an open receiver
    and 0.55 for a covered one, both in (0,1].  The frame then clears the
    flight, so that no later frame resolves it again. *)
Theorem arrival_resolution :
  forall (now random : Q) (w : World) (flight : Flight) (receiver : Receiver),
    ballThrownRef w = true ->
    ballFlightRef w = Some flight ->
    1 <= Math_min ((now - startTime flight) / duration flight) 1 ->
    findReceiver (selectedReceiver (gameState w)) (receiversRef w) = Some receiver ->
    let landed := set_ballRef (flightPosition flight
                    (Math_min ((now - startTime flight) / duration flight) 1)) w in
    let dist := Distance (ballRef landed) (group_position receiver) in
    let after := ballFlightStep now random w in
    (5 <= dist -> after = clearFlight (handleIncomplete landed))
    /\ (dist < 5 -> random < catchChance (data_isOpen receiver) ->
        after = clearFlight (handleCatch landed))
    /\ (dist < 5 -> catchChance (data_isOpen receiver) <= random ->
        after = clearFlight (handleInterception landed))
    /\ (forall now' random', ballFlightStep now' random' after = after)
    /\ catchChance false < catchChance true
    /\ (0 < catchChance false /\ catchChance false <= 1)
    /\ (0 < catchChance true /\ catchChance true <= 1).
Proof.
  intros now random w flight receiver Hthrown Hflight Ht Hfind landed dist after.
  assert (Hafter : after = clearFlight (resolveArrival random landed)).
  { subst after. unfold ballFlightStep. rewrite Hthrown, Hflight.
    apply geb_ge in Ht. rewrite Ht. reflexivity. }
  assert (Hres : resolveArrival random landed
                 = if dist <? 5
                   then if random <? catchChance (data_isOpen receiver)
                        then handleCatch landed else handleInterception landed
                   else handleIncomplete landed).
  { unfold resolveArrival. subst landed. simpl. rewrite Hfind. reflexivity. }
  rewrite Hafter, Hres.
  split; [| split; [| split; [| split; [| split; [| split]]]]].
  - intro H. apply ltb_ge in H. rewrite H. reflexivity.
  - intros H Hr. apply ltb_lt in H. apply ltb_lt in Hr. rewrite H, Hr. reflexivity.
  - intros H Hr. apply ltb_lt in H. apply ltb_ge in Hr. rewrite H, Hr. reflexivity.
  - intros now' random'. reflexivity.
  - reflexivity.
  - split; [reflexivity | discriminate].
  - split; [reflexivity | discriminate].
Qed.

(** C7 (amended). During a flight with a positive duration, at clock [now]
    not earlier than the start, the ball is at the linear interpolation of
    start and target on x and z at [t = clamp(elapsed / duration, 0, 1)],
    and at the interpolated height plus [4 * maxHeight * t * (1 - t)];
    when no time has elapsed this is the start position; when the duration
    has elapsed [t] is 1, the arc term is 0 and each coordinate is
    [Lerp start target 1], that is [start + (target - start) * 1] as it is
    evaluated: the target over the rationals, and in binary64 the target
    up to the rounding of the subtraction and of the addition (see
    [Lerp64]). *)
Theorem ball_flight_interpolation :
  forall (now random : Q) (w : World) (flight : Flight),
    ballThrownRef w = true ->
    ballFlightRef w = Some flight ->
    0 < duration flight ->
    startTime flight <= now ->
    let elapsed := now - startTime flight in
    let t := Math_min (elapsed / duration flight) 1 in
    let a := startPos flight in
    let b := targetPos flight in
    let p := ballRef (ballFlightStep now random w) in
    t == Math_max 0 (Math_min (elapsed / duration flight) 1)
    /\ (0 <= t /\ t <= 1)
    /\ vx p = vx a + (vx b - vx a) * t
    /\ vz p = vz a + (vz b - vz a) * t
    /\ vy p = (vy a + (vy b - vy a) * t) + 4 * maxHeight flight * t * (1 - t)
    /\ (elapsed == 0 -> vx p == vx a /\ vy p == vy a /\ vz p == vz a)
    /\ (duration flight <= elapsed ->
        t == 1
        /\ 4 * maxHeight flight * t * (1 - t) == 0
        /\ vx p = Lerp (vx a) (vx b) t
        /\ vy p == Lerp (vy a) (vy b) t
        /\ vz p = Lerp (vz a) (vz b) t).
Proof.
  intros now random w flight Hthrown Hflight Hdur Hnow elapsed t a b p.
  assert (Hp : p = flightPosition flight t)
    by (apply ballRef_ballFlightStep; assumption).
  assert (Hq : 0 <= elapsed / duration flight).
  { apply Qle_shift_div_l; [exact Hdur | subst elapsed; lra]. }
  assert (Ht0 : 0 <= t) by (apply Q.min_glb; [exact Hq | lra]).
  assert (Ht1 : t <= 1) by apply Q.le_min_r.
  rewrite Hp. unfold flightPosition, Lerp. simpl. fold a. fold b.
  split; [| split; [| split; [| split; [| split; [| split]]]]];
    try reflexivity.
  - symmetry. apply Q.max_r. exact Ht0.
  - split; assumption.
  - intro He.
    assert (Hz : t == 0).
    { unfold t. rewrite He. unfold Qdiv. rewrite Qmult_0_l. apply Q.min_l. lra. }
    rewrite Hz. repeat split; ring.
  - intro He.
    assert (Hz : t == 1).
    { apply Q.min_r. apply Qle_shift_div_l; [exact Hdur | lra]. }
    split; [exact Hz |].
    split; [rewrite Hz; ring |].
    split; [reflexivity | split; [rewrite Hz; ring | reflexivity]].
Qed.

(** *** The quarterback *)

(** C6 (amended). Whenever the quarterback is moved (the ball has not been
    thrown), for any frame delta and any input, the position ends within
    [[-halfWidth + 1, halfWidth - 1]] laterally and within
    [[fieldMin + 2, -10]] downfield; the ball is pinned at the offset
    (0.3, 0.5) from it. *)
Theorem qb_stays_in_pocket :
  forall (delta : Q) (w : World),
    ballThrownRef w = false ->
    let p := qbRef (qbStep delta w) in
    (- FIELD_HALF_WIDTH + 1 <= vx p /\ vx p <= FIELD_HALF_WIDTH - 1)
    /\ (FIELD_MIN_Z + 2 <= vz p /\ vz p <= -10)
    /\ vx (ballRef (qbStep delta w)) = vx p + 0.3
    /\ vz (ballRef (qbStep delta w)) = vz p + 0.5.
Proof.
  intros delta w Hthrown p. subst p. unfold qbStep. rewrite Hthrown. simpl.
  split; [| split; [| split]]; try reflexivity.
  - apply clamp_between. vm_compute. discriminate.
  - apply clamp_between. vm_compute. discriminate.
Qed.

(** *** Throwing *)

(** C9 (amended). A throw requested while the ball is marked as thrown
    (from the throw until the frame of its arrival) changes nothing, and
    neither does a pointer event while the game is not being played; the
    flight record, of which the ref holds at most one, is only written by a
    throw accepted with no ball in the air. *)
Theorem throw_refused_while_in_flight :
  forall (receiver : string) (clickPoint : option Vector3) (now : Q)
         (pickResult : PickResult) (w : World),
    (ballThrownRef w = true ->
     throwBall receiver clickPoint now w = w /\ onPointerDown now pickResult w = w)
    /\ (gameStatus (gameState w) <> playing -> onPointerDown now pickResult w = w)
    /\ (ballFlightRef (throwBall receiver clickPoint now w) <> ballFlightRef w ->
        ballThrownRef w = false)
    /\ (ballFlightRef (onPointerDown now pickResult w) <> ballFlightRef w ->
        ballThrownRef w = false /\ gameStatus (gameState w) = playing).
Proof.
  intros receiver clickPoint now pickResult w.
  split; [| split; [| split]].
  - intro H. unfold throwBall, onPointerDown. rewrite H, orb_true_r. split; reflexivity.
  - intro H. unfold onPointerDown.
    destruct (gameStatus (gameState w)); try reflexivity. congruence.
  - intro H. destruct (ballThrownRef w) eqn:E; [| reflexivity].
    unfold throwBall in H. rewrite E in H. congruence.
  - intro H. unfold onPointerDown in H.
    destruct (gameStatus (gameState w)); simpl in H; try congruence.
    destruct (ballThrownRef w); [congruence | split; reflexivity].
Qed.

(** *** Open receivers *)

Lemma forEach_from_Forall {A : Type} (Q : A -> Prop) (f : A -> nat -> A) (l : list A) :
  forall i, (forall x j, (i <= j < i + List.length l)%nat -> Q (f x j)) ->
            Forall Q (forEach_from i f l).
Proof.
  induction l as [| x l IH]; intros i H; simpl.
  - constructor.
  - constructor.
    + apply H. simpl. lia.
    + apply IH. intros y j Hj. apply H. simpl. lia.
Qed.

Lemma nth_error_update_nth {A : Type} (i : nat) (x : A) (l : list A) :
  (i < List.length l)%nat -> nth_error (update_nth i x l) i = Some x.
Proof.
  revert i. induction l as [| y l IH]; intros i H; simpl in H.
  - lia.
  - destruct i; simpl; [reflexivity | apply IH; lia].
Qed.

Lemma nth_error_in_range {A : Type} (i : nat) (x : A) (l : list A) :
  nth_error l i = Some x -> (i < List.length l)%nat.
Proof. intro H. apply nth_error_Some. congruence. Qed.

(** C10. A play reset marks both receivers open, whatever the positions
    were and wherever the corners stand; the flag is next written by the
    step of the corner assigned to the receiver, as the comparison of the
    distance between the two, after the corner has moved, with 4. *)
Theorem reset_marks_receivers_open :
  forall w : World,
    (List.length (receiversRef w) <= 2)%nat ->
    Forall (fun r => data_isOpen r = true) (receiversRef (resetPlay w))
    /\ forall (delta : Q) (i : nat) (d : Defender) (targetReceiver : Receiver),
         nth_error (defendersRef w) i = Some d ->
         target d = corner ->
         (2 <= i)%nat ->
         nth_error (receiversRef w) (i - 2) = Some targetReceiver ->
         exists d' r',
           nth_error (defendersRef (defenderStep delta w i)) i = Some d'
           /\ nth_error (receiversRef (defenderStep delta w i)) (i - 2) = Some r'
           /\ group_position r' = group_position targetReceiver
           /\ data_isOpen r' = (Distance (d_position d') (group_position r') >? 4).
Proof.
  intros w Hlen. split.
  - simpl. unfold forEach. apply forEach_from_Forall.
    intros r j Hj. unfold resetReceiver.
    destruct j as [| [| j]]; simpl; try reflexivity. lia.
  - intros delta i d targetReceiver Hd Htarget Hi Hr.
    unfold defenderStep. rewrite Hd, Htarget.
    assert (Hlt : Nat.ltb i 2 = false) by (apply Nat.ltb_ge; exact Hi).
    rewrite Hlt, Hr. simpl.
    do 2 eexists. split; [| split; [| split]].
    + apply nth_error_update_nth. eapply nth_error_in_range, Hd.
    + apply nth_error_update_nth. eapply nth_error_in_range, Hr.
    + reflexivity.
    + reflexivity.
Qed.

(** *** Touchdown *)

Lemma awaits_touchdown_stable (s : Z) : Stable (awaits_touchdown s).
Proof.
  constructor; [constructor | | | |].
  - intros w w' Eg Ep El _ (Hl & Hg & Hs & Hp). unfold awaits_touchdown.
    rewrite Eg, Ep, El. repeat split; assumption.
  - intros o w H. rewrite handle_latched; [exact H | apply H].
  - intros t w (Hl & Hg & Hs & Hp). repeat split; assumption.
  - intros w (Hl & Hg & Hs & Hp). repeat split; try assumption.
    apply Forall_snoc; [exact Hp | right; eexists; reflexivity].
  - intros r w (Hl & Hg & Hs & Hp). repeat split; assumption.
  - intros w (Hl & Hg & Hs & Hp). repeat split; assumption.
  - intros w Hn (Hl & Hg & Hs & Hp). congruence.
  - intros n t w E (Hl & Hg & Hs & Hp).
    assert (Ht : t = TTouchdown \/ exists b, t = TCutsceneEnd b)
      by exact (Forall_nth_error _ n (pending w) t Hp E).
    assert (Hp' : Forall (fun t => t = TTouchdown \/ exists b, t = TCutsceneEnd b)
                    (remove_nth n (pending w))) by (apply Forall_remove_nth, Hp).
    destruct Ht as [-> | [b ->]]; simpl.
    + unfold handleTouchdown. simpl. rewrite Hl. repeat split; assumption.
    + destruct b; repeat split; assumption.
Qed.

(** C3 (what the code does). After a catch at or beyond [endzone - 3] the
    only thing queued is the callback that calls [handleTouchdown], and
    [handleTouchdown] returns at the latch [handleCatch] has just set: from
    then on, whatever events follow, the score stays what it was and the
    game stays in the playing status with the latch set. *)
Theorem touchdown_catch_never_scores :
  forall (w : World) (es : list Event),
    playEndedRef w = false ->
    gameStatus (gameState w) = playing ->
    pending w = [] ->
    ENDZONE_Z - 3 <= vz (ballRef w) ->
    pending (handleCatch w) = [TTouchdown]
    /\ runTimer TTouchdown (handleCatch w) = handleCatch w
    /\ score (gameState (run es (handleCatch w))) = score (gameState w)
    /\ gameStatus (gameState (run es (handleCatch w))) = playing
    /\ playEndedRef (run es (handleCatch w)) = true.
Proof.
  intros w es Hlatch Hplaying Hpending Htd.
  apply geb_ge in Htd.
  assert (Hc : handleCatch w
               = setTimeout TTouchdown
                   (setGameState (upd_message (Some "COMPLETE!"%string))
                      (set_playEndedRef true w))).
  { unfold handleCatch. rewrite Hlatch. simpl. rewrite Htd. reflexivity. }
  assert (Ha : awaits_touchdown (score (gameState w)) (handleCatch w)).
  { rewrite Hc. unfold awaits_touchdown. simpl. rewrite Hpending. simpl.
    repeat split; try assumption. constructor; [left; reflexivity | constructor]. }
  split; [| split].
  - rewrite Hc. simpl. rewrite Hpending. reflexivity.
  - apply (handle_latched OTouchdown). apply Ha.
  - apply (stable_run _ (awaits_touchdown_stable _) es) in Ha.
    destruct Ha as (Hl & Hg & Hs & _). repeat split; assumption.
Qed.

(** ** Further properties of the component *)

(** *** Predicates preserved by the frame as it is written *)

Lemma sackTimer_handle (o : Outcome) (w : World) :
  sackTimer (gameState (handle o w)) = sackTimer (gameState w).
Proof.
  destruct o; unfold_handlers; destruct (playEndedRef w); auto; split_ifs; reflexivity.
Qed.

Section InvFrame.

Variable P : World -> Prop.
Hypothesis HP : FrameInv P.

Ltac neutral w0 :=
  apply (fi_view P HP w0); [reflexivity | reflexivity | reflexivity | reflexivity | ].

Lemma inv_sackTimerStep delta w : P w -> P (fst (sackTimerStep delta w)).
Proof.
  intro H. unfold sackTimerStep. cbv zeta.
  destruct (_ >=? _); simpl fst; neutral w; exact H.
Qed.

Lemma inv_sackTimerUpdater w : P w -> P (sackTimerUpdater w).
Proof.
  intro H. unfold sackTimerUpdater. cbv zeta.
  destruct (_ && _).
  - replace (Math_max 0 (sackTimer (gameState w) - 0.1))
      with (Math_max 0 (sackTimer (gameState (handleSack w)) - 0.1))
      by (rewrite (sackTimer_handle OSack); reflexivity).
    apply (fi_tick P HP). apply (fi_handle P HP OSack); [discriminate | exact H].
  - apply (fi_tick P HP), H.
Qed.

Lemma inv_qbStep delta w : P w -> P (qbStep delta w).
Proof.
  intro H. unfold qbStep. destruct (negb _); [| exact H]. neutral w; exact H.
Qed.

Lemma inv_receiversStep delta w : P w -> P (receiversStep delta w).
Proof. intro H. unfold receiversStep. neutral w; exact H. Qed.

Lemma inv_defenderStep delta w i : P w -> P (defenderStep delta w i).
Proof.
  intro H. unfold defenderStep.
  destruct (nth_error (defendersRef w) i) as [d |]; [| exact H].
  destruct (target d).
  - destruct (_ && _).
    + apply (fi_handle P HP OSack); [discriminate |]. neutral w; exact H.
    + neutral w; exact H.
  - destruct (if Nat.ltb i 2 then None else nth_error (receiversRef w) (i - 2));
      [neutral w | ]; exact H.
  - neutral w; exact H.
Qed.

Lemma inv_defendersStep delta w : P w -> P (defendersStep delta w).
Proof.
  unfold defendersStep. generalize (seq 0 (List.length (defendersRef w))).
  intro l. revert w. induction l as [| i l IH]; intros w H; simpl.
  - exact H.
  - apply IH, inv_defenderStep, H.
Qed.

Lemma inv_resolveArrival random w : P w -> P (resolveArrival random w).
Proof.
  intro H. unfold resolveArrival.
  destruct (findReceiver _ _); [| exact H].
  destruct (_ <? 5).
  - destruct (_ <? _).
    + apply (fi_handle P HP OCatch); [discriminate | exact H].
    + apply (fi_handle P HP OInterception); [discriminate | exact H].
  - apply (fi_handle P HP OIncomplete); [discriminate | exact H].
Qed.

Lemma inv_ballFlightStep now random w : P w -> P (ballFlightStep now random w).
Proof.
  intro H. unfold ballFlightStep.
  destruct (ballThrownRef w); [| exact H].
  destruct (ballFlightRef w) as [flight |]; [| exact H].
  destruct (_ >=? 1).
  - match goal with
    | |- P (set_ballFlightRef _ (set_ballThrownRef _ ?x)) =>
        apply (fi_view P HP x); [reflexivity | reflexivity | reflexivity | reflexivity |]
    end.
    apply inv_resolveArrival. neutral w; exact H.
  - neutral w; exact H.
Qed.

Lemma inv_beforeRender delta now random w : P w -> P (beforeRender delta now random w).
Proof.
  intro H. unfold beforeRender.
  destruct (negb (is_playing _)); [exact H |].
  destruct (_ && _).
  { apply (fi_cutscene P HP). neutral w; exact H. }
  destruct (negb (is_none _)); [exact H |].
  destruct (negb (playStartedRef w)); [exact H |]. cbv zeta.
  destruct (snd (sackTimerStep delta w)); [apply inv_sackTimerUpdater |];
    apply inv_ballFlightStep, inv_defendersStep, inv_receiversStep,
      inv_qbStep, inv_sackTimerStep, H.
Qed.

End InvFrame.

Section InvEvents.

Variable P : World -> Prop.
Hypothesis HP : EventInv P.

Lemma live_frame_inv : FrameInv (fun w => live w /\ P w).
Proof.
  constructor.
  - intros w w' Eg Ep El Es [Hl H]. split.
    + unfold live in *. rewrite Eg, El. exact Hl.
    + apply (ei_view P HP w); assumption.
  - intros o w Ho [Hl H]. split.
    + right. apply handle_sets_latch.
    + apply (ei_handle P HP); assumption.
  - intros w [Hl H]. split; [exact Hl | apply (ei_tick P HP), H].
  - intros w [Hl H]. split; [exact Hl | apply (ei_cutscene P HP), H].
Qed.

Lemma event_inv_beforeRender delta now random w :
  P w -> P (beforeRender delta now random w).
Proof.
  intro H. destruct (gameStatus (gameState w)) eqn:E.
  - unfold beforeRender. rewrite E. exact H.
  - apply (inv_beforeRender _ live_frame_inv delta now random w).
    split; [left; exact E | exact H].
  - unfold beforeRender. rewrite E. exact H.
Qed.

Ltac neutral w0 :=
  apply (ei_view P HP w0); [reflexivity | reflexivity | reflexivity | reflexivity | ].

Lemma event_inv_throwBall receiver clickPoint now w :
  P w -> P (throwBall receiver clickPoint now w).
Proof.
  intro H. unfold throwBall.
  destruct (ballThrownRef w); [exact H |].
  assert (H' : P (set_ballThrownRef true
                    (setGameState (upd_selectedReceiver (Some receiver)) w))).
  { match goal with
    | |- P (set_ballThrownRef _ ?x) =>
        apply (ei_view P HP x); [reflexivity | reflexivity | reflexivity | reflexivity |]
    end.
    apply (ei_selected P HP), H. }
  destruct (findIndex_from _ _ _) as [[receiverIndex targetReceiver] |]; [| exact H'].
  match goal with
  | |- P (set_ballFlightRef _ ?x) =>
      apply (ei_view P HP x); [reflexivity | reflexivity | reflexivity | reflexivity |]
  end.
  exact H'.
Qed.

Lemma event_inv_onPointerDown now pickResult w :
  P w -> P (onPointerDown now pickResult w).
Proof.
  intro H. unfold onPointerDown.
  destruct (_ || _); [exact H |].
  destruct (if hit pickResult then _ else _) as [receiver |].
  - apply event_inv_throwBall, H.
  - destruct (if hit pickResult then pickedPoint pickResult else None); [| exact H].
    destruct (assistLoop _ _ _ _ _) as [[s bestReceiver] |]; [| exact H].
    apply event_inv_throwBall, H.
Qed.

Lemma event_inv_step e w : P w -> P (step e w).
Proof.
  intro H. destruct e; simpl.
  - destruct (gameStatus (gameState w)) eqn:E; try exact H.
    apply (ei_start P HP); [congruence | exact H].
  - destruct (gameStatus (gameState w)) eqn:E; try exact H.
    apply (ei_start P HP); [congruence | exact H].
  - unfold handleKeyDown. destruct (_ && _); neutral w; exact H.
  - unfold handleKeyUp. neutral w; exact H.
  - unfold handleJoystickMove. destruct (_ && _); neutral w; exact H.
  - unfold skipCutscene. destruct (is_none _); [exact H |].
    apply (ei_skip P HP). neutral w; exact H.
  - apply event_inv_onPointerDown, H.
  - apply event_inv_beforeRender, H.
  - destruct (nth_error (pending w) n) as [t |] eqn:E; [| exact H].
    apply (ei_timeout P HP); assumption.
Qed.

Lemma event_inv_reachable w : P initialWorld -> reachable w -> P w.
Proof.
  intros H0 Hr. induction Hr as [| e w Hr IH]; [exact H0 | apply event_inv_step, IH].
Qed.

End InvEvents.

(** *** The score *)

Lemma outcomes_snoc (l : list Timer) (t : Timer) :
  outcomes (l ++ [t]) = (outcomes l + (if outcome_timer t then 1 else 0))%nat.
Proof.
  unfold outcomes. rewrite filter_app, length_app. simpl.
  destruct (outcome_timer t); reflexivity.
Qed.

Lemma outcomes_remove_nth (n : nat) (l : list Timer) (t : Timer) :
  nth_error l n = Some t ->
  outcomes l = (outcomes (remove_nth n l) + (if outcome_timer t then 1 else 0))%nat.
Proof.
  revert n. induction l as [| x l IH]; intros n E.
  - destruct n; discriminate.
  - destruct n as [| n]; simpl in E.
    + injection E as ->. unfold outcomes. simpl.
      destruct (outcome_timer t); simpl; lia.
    + specialize (IH n E). unfold outcomes in *. simpl.
      destruct (outcome_timer x); simpl; lia.
Qed.

Lemma In_remove_nth {A : Type} (x : A) (n : nat) (l : list A) :
  In x (remove_nth n l) -> In x l.
Proof.
  revert n. induction l as [| y l IH]; intros n H.
  - destruct n; exact H.
  - destruct n as [| n]; simpl in H.
    + right. exact H.
    + destruct H as [-> | H]; [left; reflexivity | right; eapply IH, H].
Qed.

Lemma not_In_snoc (l : list Timer) (t : Timer) :
  ~ In TYouWin l -> t <> TYouWin -> ~ In TYouWin (l ++ [t]).
Proof.
  intros Hl Ht H. apply in_app_or in H. destruct H as [H | [H | []]]; [auto | congruence].
Qed.

Lemma unscored_handle (o : Outcome) (w : World) :
  o <> OTouchdown -> live w -> unscored w -> unscored (handle o w).
Proof.
  intros Ho Hlive (Hs & Hy & Hle & Hone).
  destruct (playEndedRef w) eqn:Hlatch.
  { rewrite handle_latched by exact Hlatch. repeat split; try assumption; apply Hone; assumption. }
  assert (Hplaying : gameStatus (gameState w) = playing)
    by (destruct Hlive as [H | H]; [exact H | congruence]).
  assert (Hzero : outcomes (pending w) = 0%nat).
  { destruct (outcomes (pending w)) as [| [| k]]; [reflexivity | | lia].
    destruct (Hone eq_refl) as [H _]. congruence. }
  destruct o; try congruence; unfold_handlers; rewrite Hlatch; split_ifs;
    unfold unscored; simpl; rewrite ?outcomes_snoc, ?Hzero; simpl;
    (split; [exact Hs |]);
    (split; [repeat apply not_In_snoc; (exact Hy || discriminate) |]);
    (split; [lia |]); intro H; try lia; (split; [reflexivity | exact Hplaying]).
Qed.

Lemma unscored_event_inv : EventInv unscored.
Proof.
  constructor.
  - intros w w' Eg Ep El _ H. unfold unscored in *. rewrite Eg, Ep, El. exact H.
  - intros o w Ho Hl H. apply unscored_handle; assumption.
  - intros w H. exact H.
  - intros w (Hs & Hy & Hle & Hone). unfold unscored. simpl. rewrite outcomes_snoc. simpl.
    rewrite Nat.add_0_r. repeat split; try assumption; try (apply Hone; assumption).
    apply not_In_snoc; [exact Hy | discriminate].
  - intros r w H. exact H.
  - intros w H. exact H.
  - intros w Hn (Hs & Hy & Hle & Hone).
    assert (Hzero : outcomes (pending w) = 0%nat).
    { destruct (outcomes (pending w)) as [| [| k]]; [reflexivity | | lia].
      destruct (Hone eq_refl) as [_ H]. congruence. }
    unfold unscored. simpl. rewrite Hzero. repeat split; try assumption; lia.
  - intros n t w E (Hs & Hy & Hle & Hone).
    pose proof (outcomes_remove_nth n (pending w) t E) as Hcount.
    assert (Hy' : ~ In TYouWin (remove_nth n (pending w)))
      by (intro H; apply Hy; eapply In_remove_nth, H).
    destruct t; simpl in Hcount.
    + assert (Hl : playEndedRef w = true) by (apply Hone; lia).
      simpl. unfold handleTouchdown. simpl. rewrite Hl.
      unfold unscored. simpl. repeat split; try assumption; lia.
    + exfalso. apply Hy. eapply nth_error_In, E.
    + unfold unscored. simpl. repeat split; try assumption; lia.
    + unfold unscored. simpl. repeat split; try assumption; lia.
    + unfold unscored. simpl. repeat split; try assumption; lia.
    + simpl. destruct (newDowns >? 4)%Z;
        unfold unscored; simpl; repeat split; try assumption; lia.
    + unfold unscored. simpl. repeat split; try assumption; lia.
    + rewrite Nat.add_0_r in Hcount.
      simpl. destruct updatesGameState;
        unfold unscored; simpl; rewrite <- Hcount;
        repeat split; try assumption; apply Hone; assumption.
Qed.

Lemma unscored_initialWorld : unscored initialWorld.
Proof.
  unfold unscored, outcomes. simpl.
  split; [reflexivity | split; [intros [] | split; [lia | discriminate]]].
Qed.

(** X1. No state the component can reach has a score other than 0, and
    the callback that ends the game with a win is never queued: scoring
    takes [handleTouchdown] with the latch unset, and the only call of it
    is queued by [handleCatch] after it has set the latch, which nothing
    clears before the call.  The rating of the game-over screen is then
    its lowest. *)
Theorem score_is_always_zero :
  forall w : World,
    reachable w ->
    score (gameState w) = 0%Z
    /\ ~ In TYouWin (pending w)
    /\ finalRating (score (gameState w)) = "BACK TO PRACTICE!"%string.
Proof.
  intros w Hr.
  destruct (event_inv_reachable unscored unscored_event_inv w unscored_initialWorld Hr)
    as (Hs & Hy & _).
  split; [exact Hs | split; [exact Hy |]]. rewrite Hs. reflexivity.
Qed.

(** *** Bounds of the Drive State *)

Lemma drive_bounds_handle (o : Outcome) (w : World) :
  drive_bounds w -> drive_bounds (handle o w).
Proof.
  intros (Hy & Ht & Hm & Hp).
  destruct o; unfold_handlers; destruct (playEndedRef w);
    try (repeat split; assumption); split_ifs; unfold drive_bounds; simpl;
    (split; [exact Hy |]); (split; [exact Ht |]); (split; [exact Hm |]);
    repeat apply Forall_snoc; simpl; auto.
  match goal with H : (_ >=? firstDownMarker _) = true |- _ => apply geb_ge in H; simpl in H end.
  destruct Hm as [Hm _]. unfold ENDZONE_Z in *. split.
  - apply Q.min_glb; lra.
  - apply Q.le_min_r.
Qed.

Lemma drive_bounds_resetPlay (w : World) :
  (1 <= yardsToGo (gameState w))%Z ->
  (-5 <= firstDownMarker (gameState w) /\ firstDownMarker (gameState w) <= ENDZONE_Z - 1) ->
  Forall marker_ok (pending w) ->
  drive_bounds (resetPlay w).
Proof.
  intros Hy Hm Hp. unfold drive_bounds. simpl.
  split; [exact Hy | split; [split; discriminate | split; [exact Hm | exact Hp]]].
Qed.

Lemma drive_bounds_event_inv : EventInv drive_bounds.
Proof.
  constructor.
  - intros w w' Eg Ep _ _ H. unfold drive_bounds in *. rewrite Eg, Ep. exact H.
  - intros o w _ _ H. apply drive_bounds_handle, H.
  - intros w (Hy & [Ht0 Ht5] & Hm & Hp). unfold drive_bounds. simpl.
    split; [exact Hy | split; [| split; [exact Hm | exact Hp]]].
    split; [apply Math_max_lower | apply Math_max_upper; lra].
  - intros w (Hy & Ht & Hm & Hp). unfold drive_bounds. simpl.
    split; [exact Hy | split; [exact Ht | split; [exact Hm |]]].
    apply Forall_snoc; simpl; auto.
  - intros r w H. exact H.
  - intros w H. exact H.
  - intros w _ (Hy & Ht & Hm & Hp). unfold drive_bounds. simpl.
    split; [lia | split; [split; discriminate | split; [split; discriminate | exact Hp]]].
  - intros n t w E (Hy & Ht & Hm & Hp).
    assert (Hp' : Forall marker_ok (remove_nth n (pending w)))
      by (apply Forall_remove_nth, Hp).
    assert (Hok : marker_ok t) by exact (Forall_nth_error _ n (pending w) t Hp E).
    assert (Hsame : drive_bounds (set_pending (remove_nth n (pending w)) w))
      by (split; [exact Hy | split; [exact Ht | split; [exact Hm | exact Hp']]]).
    destruct t; simpl.
    + apply (drive_bounds_handle OTouchdown), Hsame.
    + exact Hsame.
    + apply drive_bounds_resetPlay; simpl; [lia | exact Hok | exact Hp'].
    + apply drive_bounds_resetPlay; simpl; [lia | exact Hm | exact Hp'].
    + exact Hsame.
    + destruct (newDowns >? 4)%Z.
      * exact Hsame.
      * apply drive_bounds_resetPlay; simpl; [lia | exact Hm | exact Hp'].
    + apply drive_bounds_resetPlay; simpl; [exact Hy | exact Hm | exact Hp'].
    + destruct updatesGameState; exact Hsame.
Qed.

Lemma drive_bounds_initialWorld : drive_bounds initialWorld.
Proof.
  unfold drive_bounds. simpl.
  split; [lia | split; [split; discriminate | split; [split; discriminate | constructor]]].
Qed.

(** X2. In every state the component can reach the yards to go are at
    least 1, the sack timer is between 0 and its starting value 5, and the
    first-down marker is between its starting position -5 and one short of
    the endzone. *)
Theorem drive_state_bounds :
  forall w : World,
    reachable w ->
    (1 <= yardsToGo (gameState w))%Z
    /\ (0 <= sackTimer (gameState w) /\ sackTimer (gameState w) <= 5)
    /\ (-5 <= firstDownMarker (gameState w)
        /\ firstDownMarker (gameState w) <= ENDZONE_Z - 1).
Proof.
  intros w Hr.
  destruct (event_inv_reachable drive_bounds drive_bounds_event_inv w
              drive_bounds_initialWorld Hr) as (Hy & Ht & Hm & _).
  split; [exact Hy | split; [exact Ht | exact Hm]].
Qed.

(** *** The reset of a play *)

Lemma forEach_from_idempotent {A : Type} (f : A -> nat -> A) (l : list A) :
  (forall x j, f (f x j) j = f x j) ->
  forall i, forEach_from i f (forEach_from i f l) = forEach_from i f l.
Proof.
  intro Hf. induction l as [| x l IH]; intro i; simpl.
  - reflexivity.
  - rewrite Hf, IH. reflexivity.
Qed.

Lemma nth_error_forEach_from {A : Type} (f : A -> nat -> A) (l : list A) :
  forall i n, nth_error (forEach_from i f l) n
              = option_map (fun x => f x (i + n)%nat) (nth_error l n).
Proof.
  induction l as [| x l IH]; intros i n; simpl.
  - destruct n; reflexivity.
  - destruct n as [| n]; simpl.
    + rewrite Nat.add_0_r. reflexivity.
    + rewrite IH. replace (S i + n)%nat with (i + S n)%nat by lia. reflexivity.
Qed.

Lemma resetReceiver_idempotent (los : Q) (r : Receiver) (i : nat) :
  resetReceiver los (resetReceiver los r i) i = resetReceiver los r i.
Proof.
  unfold resetReceiver. destruct (nth_error (receiverPositions los) i); reflexivity.
Qed.

Lemma resetDefender_idempotent (los : Q) (d : Defender) (i : nat) :
  resetDefender los (resetDefender los d i) i = resetDefender los d i.
Proof.
  unfold resetDefender.
  destruct (nth_error (defenderPositions los) i) as [[p t] |]; reflexivity.
Qed.

Lemma receiversRef_resetPlay (w : World) :
  receiversRef (resetPlay w)
  = forEach_from 0 (resetReceiver (lineOfScrimmageRef w)) (receiversRef w).
Proof. reflexivity. Qed.

Lemma defendersRef_resetPlay (w : World) :
  defendersRef (resetPlay w)
  = forEach_from 0 (resetDefender (lineOfScrimmageRef w)) (defendersRef w).
Proof. reflexivity. Qed.

Lemma lineOfScrimmageRef_resetPlay (w : World) :
  lineOfScrimmageRef (resetPlay w) = lineOfScrimmageRef w.
Proof. reflexivity. Qed.

Lemma gameState_resetPlay (w : World) :
  gameState (resetPlay w)
  = upd_message (Some ""%string) (upd_selectedReceiver None (upd_sackTimer 5 (gameState w))).
Proof. reflexivity. Qed.

Lemma World_ext (w w' : World) :
  gameState w = gameState w' ->
  lineOfScrimmageRef w = lineOfScrimmageRef w' ->
  playStartedRef w = playStartedRef w' ->
  ballThrownRef w = ballThrownRef w' ->
  playEndedRef w = playEndedRef w' ->
  ballFlightRef w = ballFlightRef w' ->
  cutsceneActiveRef w = cutsceneActiveRef w' ->
  qbRef w = qbRef w' ->
  ballRef w = ballRef w' ->
  receiversRef w = receiversRef w' ->
  defendersRef w = defendersRef w' ->
  joystickRef w = joystickRef w' ->
  keyboardRef w = keyboardRef w' ->
  sackTimerAccum w = sackTimerAccum w' ->
  gameStartCutscenePlayed w = gameStartCutscenePlayed w' ->
  pending w = pending w' ->
  w = w'.
Proof.
  destruct w, w'. simpl. intros. subst. reflexivity.
Qed.

(** X3. Resetting a play twice in a row gives the same state as resetting
    it once. *)
Theorem resetPlay_idempotent :
  forall w : World, resetPlay (resetPlay w) = resetPlay w.
Proof.
  intro w.
  assert (Hq : forall v, qbRef (resetPlay v) = V3 0 0 (lineOfScrimmageRef v - 8))
    by reflexivity.
  assert (Hb : forall v, ballRef (resetPlay v) = V3 0.3 1.5 (lineOfScrimmageRef v + 0.5))
    by reflexivity.
  assert (Hc : forall v, cutsceneActiveRef (resetPlay v) = cutsceneActiveRef v)
    by reflexivity.
  assert (Hj : forall v, joystickRef (resetPlay v) = joystickRef v) by reflexivity.
  assert (Hk : forall v, keyboardRef (resetPlay v) = keyboardRef v) by reflexivity.
  assert (Ha : forall v, sackTimerAccum (resetPlay v) = sackTimerAccum v) by reflexivity.
  assert (Hs : forall v, gameStartCutscenePlayed (resetPlay v) = gameStartCutscenePlayed v)
    by reflexivity.
  assert (Hp : forall v, pending (resetPlay v) = pending v) by reflexivity.
  apply World_ext.
  - rewrite 2 gameState_resetPlay. reflexivity.
  - apply lineOfScrimmageRef_resetPlay.
  - reflexivity.
  - reflexivity.
  - reflexivity.
  - reflexivity.
  - apply Hc.
  - rewrite 2 Hq, lineOfScrimmageRef_resetPlay. reflexivity.
  - rewrite 2 Hb, lineOfScrimmageRef_resetPlay. reflexivity.
  - rewrite 2 receiversRef_resetPlay, lineOfScrimmageRef_resetPlay.
    apply forEach_from_idempotent, resetReceiver_idempotent.
  - rewrite 2 defendersRef_resetPlay, lineOfScrimmageRef_resetPlay.
    apply forEach_from_idempotent, resetDefender_idempotent.
  - apply Hj.
  - apply Hk.
  - apply Ha.
  - apply Hs.
  - apply Hp.
Qed.


(** *** The transitions of a play that no point above covers *)

(** X5. An interception ends the game whatever the down: the handler
    starts the cutscene and queues the game over, neither of them touches
    the down, the yards to go, the line of scrimmage or the score, and no
    reset of the play follows. *)
Theorem interception_ends_game :
  forall w : World,
    playEndedRef w = false ->
    let w1 := handleInterception w in
    pending w1 = pending w ++ [TCutsceneEnd false; TInterceptionOver]
    /\ cutsceneActiveRef w1 = cs_interception
    /\ gameStatus (gameState w1) = gameStatus (gameState w)
    /\ downs (gameState w1) = downs (gameState w)
    /\ lineOfScrimmageRef w1 = lineOfScrimmageRef w
    /\ forall w' : World,
         let w2 := runTimer TInterceptionOver w' in
         gameStatus (gameState w2) = gameover
         /\ upd_cutscene cs_none (upd_gameStatus gameover (gameState w')) = gameState w2
         /\ set_gameState (gameState w2) w' = w2.
Proof.
  intros w Hlatch w1. subst w1. unfold handleInterception. rewrite Hlatch. simpl.
  split; [rewrite <- app_assoc; reflexivity |].
  repeat split.
Qed.

(** X6. A catch short of the first-down marker (and of the touchdown
    margin) on a down before the fourth moves the line of scrimmage to the
    catch position at once and, when its callback runs, increments the down,
    sets the yards to go to the rounded distance left to the marker, at
    least 1, and leaves the marker where it was. *)
Theorem short_catch_transition :
  forall w : World,
    playEndedRef w = false ->
    vz (ballRef w) < ENDZONE_Z - 3 ->
    vz (ballRef w) < firstDownMarker (gameState w) ->
    (downs (gameState w) < 4)%Z ->
    let catchPosition := vz (ballRef w) in
    let newYardsToGo := Math_round (firstDownMarker (gameState w) - catchPosition) in
    let callback := TShortCatch (downs (gameState w) + 1) newYardsToGo catchPosition in
    lineOfScrimmageRef (handleCatch w) = catchPosition
    /\ pending (handleCatch w) = pending w ++ [callback]
    /\ gameStatus (gameState (handleCatch w)) = gameStatus (gameState w)
    /\ (0 <= newYardsToGo)%Z
    /\ forall w' : World,
         let g := gameState (runTimer callback w') in
         downs g = (downs (gameState w) + 1)%Z
         /\ yardsToGo g = Z.max 1 newYardsToGo
         /\ lineOfScrimmage g = catchPosition
         /\ firstDownMarker g = firstDownMarker (gameState w')
         /\ score g = score (gameState w').
Proof.
  intros w Hlatch Htd Hshort Hdowns catchPosition newYardsToGo callback.
  assert (Hround : (0 <= newYardsToGo)%Z).
  { apply Math_round_lower. change (inject_Z 0) with 0. subst catchPosition. lra. }
  apply geb_lt in Htd. apply geb_lt in Hshort.
  unfold handleCatch. rewrite Hlatch. simpl. rewrite Htd, Hshort.
  assert (Hgt : (downs (gameState w) + 1 >? 4)%Z = false)
    by (rewrite Z.gtb_ltb; apply Z.ltb_ge; lia).
  rewrite Hgt. simpl.
  split; [reflexivity | split; [reflexivity | split; [reflexivity | split; [exact Hround |]]]].
  intro w'. repeat split.
Qed.

(** X7. An incomplete pass on a down before the fourth costs the down at
    once and nothing else: the line of scrimmage, the yards to go and the
    marker stay, and the callback it queues resets the play on the same
    line. *)
Theorem incomplete_transition :
  forall w : World,
    playEndedRef w = false ->
    (downs (gameState w) < 4)%Z ->
    let w1 := handleIncomplete w in
    gameState w1
    = upd_message (Some "INCOMPLETE!"%string)
        (upd_downs (downs (gameState w) + 1) (gameState w))
    /\ lineOfScrimmageRef w1 = lineOfScrimmageRef w
    /\ pending w1 = pending w ++ [TIncompleteOver]
    /\ forall w' : World,
         let w2 := runTimer TIncompleteOver w' in
         downs (gameState w2) = downs (gameState w')
         /\ yardsToGo (gameState w2) = yardsToGo (gameState w')
         /\ firstDownMarker (gameState w2) = firstDownMarker (gameState w')
         /\ lineOfScrimmageRef w2 = lineOfScrimmageRef w'
         /\ qbRef w2 = V3 0 0 (lineOfScrimmageRef w' - 8)
         /\ playEndedRef w2 = false.
Proof.
  intros w Hlatch Hdowns w1. subst w1. unfold handleIncomplete. rewrite Hlatch. simpl.
  assert (Hgt : (downs (gameState w) + 1 >? 4)%Z = false)
    by (rewrite Z.gtb_ltb; apply Z.ltb_ge; lia).
  rewrite Hgt. simpl. repeat split.
Qed.

(** *** Routes *)

(** X8. While a receiver is short of [endzone - 1], his step in a frame is
    the displacement by the velocity [getReceiverVelocity] gives for him,
    times the frame delta, followed by the clamp: the lead of a throw is
    computed from the velocity he really runs with. *)
Theorem route_step_follows_velocity :
  forall (delta : Q) (w : World) (r : Receiver) (i : nat),
    vz (group_position r) < ENDZONE_Z - 1 ->
    let p := group_position r in
    let v := getReceiverVelocity w i p in
    let p' := group_position (receiverStep delta w r i) in
    vx p' == Math_max (- FIELD_HALF_WIDTH + 1)
               (Math_min (FIELD_HALF_WIDTH - 1) (vx p + vx v * delta))
    /\ vz p' == Math_min (ENDZONE_Z - 1) (vz p + vz v * delta)
    /\ vy p' = vy p /\ vy v = 0.
Proof.
  intros delta w r i Hz p v p'.
  apply ltb_lt in Hz. subst p' v p. unfold receiverStep, getReceiverVelocity.
  cbv zeta. rewrite Hz.
  destruct (Nat.eqb i 0); split_ifs; simpl;
    (split; [apply Q.max_compat; [reflexivity | apply Q.min_compat; [reflexivity | ring]] |]);
    (split; [apply Q.min_compat; [reflexivity | ring] |]); split; reflexivity.
Qed.

Lemma receiverStep_in_bounds (delta : Q) (w : World) (r : Receiver) (i : nat) :
  receiver_in_bounds (receiverStep delta w r i).
Proof.
  unfold receiver_in_bounds, receiverStep. cbv zeta. cbn [group_position vx vz]. split.
  - apply clamp_between. vm_compute. discriminate.
  - apply Math_min_upper.
Qed.

Lemma receiverStep_forward (delta : Q) (w : World) (r : Receiver) (i : nat) :
  0 <= delta ->
  vz (group_position r) <= ENDZONE_Z - 1 ->
  vz (group_position r) <= vz (group_position (receiverStep delta w r i)).
Proof.
  intros Hd Hz. unfold receiverStep. cbv zeta. cbn [group_position vz].
  apply Q.min_glb; [exact Hz |].
  split_ifs; cbn [vz]; lra.
Qed.

(** X9. After the receiver part of a frame every receiver is within one
    unit of the sidelines and at most at [endzone - 1], with the same
    identity and open flag as before; and with a frame delta that is not
    negative, a receiver who was not beyond [endzone - 1] has not moved
    back. *)
Theorem receivers_stay_in_bounds :
  forall (delta : Q) (w : World),
    Forall receiver_in_bounds (receiversRef (receiversStep delta w))
    /\ map data_id (receiversRef (receiversStep delta w)) = map data_id (receiversRef w)
    /\ map data_isOpen (receiversRef (receiversStep delta w))
       = map data_isOpen (receiversRef w)
    /\ forall (i : nat) (r : Receiver),
         0 <= delta ->
         nth_error (receiversRef w) i = Some r ->
         vz (group_position r) <= ENDZONE_Z - 1 ->
         exists r', nth_error (receiversRef (receiversStep delta w)) i = Some r'
                    /\ vz (group_position r) <= vz (group_position r').
Proof.
  intros delta w. unfold receiversStep. simpl. unfold forEach.
  split; [| split; [| split]].
  - apply forEach_from_Forall. intros r j _. apply receiverStep_in_bounds.
  - generalize 0%nat. induction (receiversRef w) as [| r l IH]; intro k; simpl;
      [reflexivity | rewrite IH; reflexivity].
  - generalize 0%nat. induction (receiversRef w) as [| r l IH]; intro k; simpl;
      [reflexivity | rewrite IH; reflexivity].
  - intros i r Hd Hr Hz. rewrite nth_error_forEach_from, Hr. simpl.
    eexists. split; [reflexivity | apply receiverStep_forward; assumption].
Qed.

(** *** The arc of the ball *)




(** *** Throwing *)

(** X11. A throw to a receiver of the array, with no ball in the air,
    marks the ball thrown, selects him and writes a flight that starts at
    the ball at the present clock and aims, at height 1.5, within one unit
    of the sidelines and at most at [endzone - 1], and not short of the
    receiver unless he is beyond that; its duration is the distance to the
    aim point at 32 units a second and its peak 1.5 plus 0.08 of it. *)
Theorem throw_aims_within_the_field :
  forall (receiver : string) (clickPoint : option Vector3) (now : Q) (w : World)
         (i : nat) (r : Receiver),
    ballThrownRef w = false ->
    findIndex_from 0 (fun r => String.eqb (data_id r) receiver) (receiversRef w)
    = Some (i, r) ->
    let w' := throwBall receiver clickPoint now w in
    ballThrownRef w' = true
    /\ selectedReceiver (gameState w') = Some receiver
    /\ exists flight : Flight,
         ballFlightRef w' = Some flight
         /\ startPos flight = ballRef w
         /\ startTime flight = now
         /\ vy (targetPos flight) = 1.5
         /\ (- FIELD_HALF_WIDTH + 1 <= vx (targetPos flight)
             /\ vx (targetPos flight) <= FIELD_HALF_WIDTH - 1)
         /\ vz (targetPos flight) <= ENDZONE_Z - 1
         /\ (vz (group_position r) <= ENDZONE_Z - 1 ->
             vz (group_position r) <= vz (targetPos flight))
         /\ duration flight = Distance (ballRef w) (targetPos flight) / 32
         /\ maxHeight flight = 1.5 + Distance (ballRef w) (targetPos flight) * 0.08.
Proof.
  intros receiver clickPoint now w i r Hthrown Hfind w'. subst w'.
  unfold throwBall. rewrite Hthrown. simpl. rewrite Hfind. simpl.
  split; [reflexivity | split; [reflexivity |]].
  eexists. split; [reflexivity |]. simpl.
  split; [reflexivity | split; [reflexivity | split; [reflexivity |]]].
  split; [apply clamp_between; vm_compute; discriminate |].
  split; [apply Q.le_min_l |].
  split; [| split; reflexivity].
  intro Hz. apply Q.min_glb; [exact Hz | apply Q.le_max_l].
Qed.

Lemma assistLoop_out_of_reach (w : World) (tapPoint : Vector3) (l : list Receiver) :
  (forall r, In r l -> 15 <= Distance (set_y 0 tapPoint) (set_y 0 (group_position r))) ->
  forall (best : option (Q * Receiver)) (i : nat),
    assistLoop w tapPoint best i l = best.
Proof.
  induction l as [| r l IH]; intros Hfar best i; simpl.
  - reflexivity.
  - assert (Hr : (Distance (set_y 0 tapPoint) (set_y 0 (group_position r)) <? 15) = false)
      by (apply ltb_ge, Hfar; left; reflexivity).
    unfold assistStep. rewrite Hr, !andb_false_r.
    destruct (_ >? 0.1); apply IH; intros r' Hin; apply Hfar; right; exact Hin.
Qed.

(** X12. A pointer event throws nothing and changes nothing when it hits
    nothing, and when it hits no receiver and either has no picked point or
    its point is, on the ground, 15 units or more from every receiver. *)
Theorem tap_out_of_reach_is_ignored :
  forall (now : Q) (pickResult : PickResult) (w : World),
    (hit pickResult = false -> onPointerDown now pickResult w = w)
    /\ (pickedReceiver pickResult = None -> pickedPoint pickResult = None ->
        onPointerDown now pickResult w = w)
    /\ (forall tapPoint : Vector3,
          pickedReceiver pickResult = None ->
          pickedPoint pickResult = Some tapPoint ->
          (forall r, In r (receiversRef w) ->
                     15 <= Distance (set_y 0 tapPoint) (set_y 0 (group_position r))) ->
          onPointerDown now pickResult w = w).
Proof.
  intros now pickResult w. unfold onPointerDown.
  destruct (negb (is_playing (gameStatus (gameState w))) || ballThrownRef w);
    [repeat split |].
  split; [| split].
  - intro H. rewrite H. reflexivity.
  - intros Hr Hp. rewrite Hr, Hp. destruct (hit pickResult); reflexivity.
  - intros tapPoint Hr Hp Hfar. rewrite Hr, Hp.
    destruct (hit pickResult); [| reflexivity].
    rewrite assistLoop_out_of_reach by exact Hfar. reflexivity.
Qed.

(** *** Defenders *)

Lemma length_update_nth {A : Type} (i : nat) (x : A) (l : list A) :
  List.length (update_nth i x l) = List.length l.
Proof.
  revert i. induction l as [| y l IH]; intros [| i]; simpl; try reflexivity.
  rewrite IH. reflexivity.
Qed.

Lemma nth_error_update_nth_other {A : Type} (i j : nat) (x : A) (l : list A) :
  i <> j -> nth_error (update_nth i x l) j = nth_error l j.
Proof.
  revert i j. induction l as [| y l IH]; intros [| i] [| j] H; simpl; try reflexivity.
  - congruence.
  - apply IH. congruence.
Qed.

Lemma map_update_nth {A B : Type} (f : A -> B) (i : nat) (x y : A) (l : list A) :
  nth_error l i = Some y -> f x = f y -> map f (update_nth i x l) = map f l.
Proof.
  revert i. induction l as [| z l IH]; intros [| i] H E; simpl in *; try discriminate.
  - injection H as ->. rewrite E. reflexivity.
  - rewrite (IH i H E). reflexivity.
Qed.

Lemma players_handle (o : Outcome) (w : World) : players (handle o w) = players w.
Proof. destruct o; unfold_handlers; split_ifs; reflexivity. Qed.

(** What the step of one defender leaves as it is. *)
Lemma defenderStep_players (delta : Q) (w : World) (i : nat) :
  let w1 := defenderStep delta w i in
  map data_id (receiversRef w1) = map data_id (receiversRef w)
  /\ map group_position (receiversRef w1) = map group_position (receiversRef w)
  /\ map target (defendersRef w1) = map target (defendersRef w)
  /\ ballThrownRef w1 = ballThrownRef w
  /\ ballFlightRef w1 = ballFlightRef w.
Proof.
  unfold defenderStep. cbv zeta.
  destruct (nth_error (defendersRef w) i) as [d |] eqn:Hd; [| repeat split].
  destruct (target d) eqn:T; cbv zeta.
  - match goal with |- context [handleSack ?w1] => set (W := w1) end.
    pose proof (players_handle OSack W) as Hs.
    match goal with |- context [if ?c then _ else _] => destruct c end; [| subst W].
    + unfold players in Hs. simpl handle in Hs. injection Hs as -> -> -> ->.
      subst W. unfold setDefenderPosition. simpl.
      repeat split. apply (map_update_nth target i _ d); [exact Hd | reflexivity].
    + unfold setDefenderPosition. simpl.
      repeat split. apply (map_update_nth target i _ d); [exact Hd | reflexivity].
  - destruct (if Nat.ltb i 2 then None else nth_error (receiversRef w) (i - 2))
      as [r |] eqn:Hr; [| repeat split].
    destruct (Nat.ltb i 2); [discriminate |].
    unfold setDefenderPosition. simpl.
    split; [apply (map_update_nth data_id (i - 2) _ r); [exact Hr | reflexivity] |].
    split; [apply (map_update_nth group_position (i - 2) _ r); [exact Hr | reflexivity] |].
    split; [apply (map_update_nth target i _ d); [exact Hd | reflexivity] |].
    split; reflexivity.
  - unfold setDefenderPosition. simpl.
    repeat split. apply (map_update_nth target i _ d); [exact Hd | reflexivity].
Qed.

Lemma defendersFold_players (delta : Q) (l : list nat) :
  forall w : World,
    let w' := fold_left (defenderStep delta) l w in
    map data_id (receiversRef w') = map data_id (receiversRef w)
    /\ map group_position (receiversRef w') = map group_position (receiversRef w)
    /\ map target (defendersRef w') = map target (defendersRef w)
    /\ ballThrownRef w' = ballThrownRef w
    /\ ballFlightRef w' = ballFlightRef w.
Proof.
  induction l as [| i l IH]; intro w; simpl; [repeat split |].
  destruct (IH (defenderStep delta w i)) as (a1 & a2 & a3 & a4 & a5).
  destruct (defenderStep_players delta w i) as (b1 & b2 & b3 & b4 & b5).
  repeat split; etransitivity; eassumption.
Qed.

Lemma corners_have_receivers_ext (w w' : World) :
  map target (defendersRef w') = map target (defendersRef w) ->
  map data_id (receiversRef w') = map data_id (receiversRef w) ->
  corners_have_receivers w -> corners_have_receivers w'.
Proof.
  intros Ht Hi H i Hc. rewrite Ht in Hc.
  rewrite <- (length_map data_id), Hi, length_map. apply H, Hc.
Qed.

(** What the step of defender [i] does to defender [i]. *)
Lemma defenderStep_at (delta : Q) (w : World) (i : nat) (d : Defender) :
  nth_error (defendersRef w) i = Some d ->
  exists d' : Defender,
    defendersRef (defenderStep delta w i) = update_nth i d' (defendersRef w)
    /\ ((target d = corner -> (2 <= i < 2 + List.length (receiversRef w))%nat) ->
        in_band d').
Proof.
  intro Hd. unfold defenderStep. rewrite Hd.
  destruct (target d) eqn:T; cbv zeta.
  - eexists. split.
    + match goal with |- context [handleSack ?w1] => set (W := w1) end.
      pose proof (players_handle OSack W) as Hs.
      match goal with |- context [if ?c then _ else _] => destruct c end; [| subst W].
      * unfold players in Hs. simpl handle in Hs. injection Hs as _ -> _ _.
        subst W. unfold setDefenderPosition. simpl. reflexivity.
      * unfold setDefenderPosition. simpl. reflexivity.
    + intros _. unfold in_band. cbn [d_position target vx vz]. rewrite T.
      split; apply clamp_between; vm_compute; discriminate.
  - destruct (Nat.ltb i 2) eqn:L.
    + exists d. split.
      * clear -Hd. revert i Hd. induction (defendersRef w) as [| y l IH];
          intros [| i] Hd; simpl in *; try discriminate.
        -- injection Hd as ->. reflexivity.
        -- rewrite <- (IH i Hd) at 1. reflexivity.
      * intro H. apply Nat.ltb_lt in L. specialize (H eq_refl). lia.
    + destruct (nth_error (receiversRef w) (i - 2)) as [r |] eqn:Hr.
      * eexists. split; [unfold setDefenderPosition; simpl; reflexivity |].
        intros _. unfold in_band. cbn [d_position target vx vz]. rewrite T.
        split; apply clamp_between; vm_compute; discriminate.
      * exists d. split.
        -- clear -Hd. revert i Hd. induction (defendersRef w) as [| y l IH];
             intros [| i] Hd; simpl in *; try discriminate.
           ++ injection Hd as ->. reflexivity.
           ++ rewrite <- (IH i Hd) at 1. reflexivity.
        -- intro H. specialize (H eq_refl). apply nth_error_None in Hr. lia.
  - eexists. split; [unfold setDefenderPosition; simpl; reflexivity |].
    intros _. unfold in_band. cbn [d_position target vx vz]. rewrite T.
    split; [apply clamp_between; vm_compute; discriminate | apply Math_min_upper].
Qed.

Lemma defendersFold_at (delta : Q) (l : list nat) :
  NoDup l ->
  forall w : World,
    corners_have_receivers w ->
    forall (j : nat) (d : Defender),
      nth_error (defendersRef w) j = Some d ->
      exists d' : Defender,
        nth_error (defendersRef (fold_left (defenderStep delta) l w)) j = Some d'
        /\ (In j l -> in_band d') /\ (~ In j l -> d' = d).
Proof.
  induction l as [| i l IH]; intros Hnd w Hc j d Hj; simpl.
  - exists d. split; [exact Hj | split; [intros [] | reflexivity]].
  - inversion Hnd as [| i' l' Hnotin Hnd']; subst.
    destruct (defenderStep_players delta w i) as (b1 & _ & b3 & _ & _).
    assert (Hc1 : corners_have_receivers (defenderStep delta w i))
      by (apply (corners_have_receivers_ext w); assumption).
    destruct (Nat.eq_dec i j) as [-> | Hne].
    + destruct (defenderStep_at delta w j d Hj) as (d1 & Hd1 & Hband).
      assert (Hj1 : nth_error (defendersRef (defenderStep delta w j)) j = Some d1).
      { rewrite Hd1. apply nth_error_update_nth. eapply nth_error_in_range, Hj. }
      destruct (IH Hnd' _ Hc1 j d1 Hj1) as (d' & Hd' & _ & Hsame).
      exists d'. split; [exact Hd' | split].
      * intros _. rewrite (Hsame Hnotin). apply Hband. intro T.
        apply Hc. apply map_nth_error with (f := target) in Hj. rewrite T in Hj. exact Hj.
      * intro Hn. exfalso. apply Hn. left. reflexivity.
    + assert (Hj1 : nth_error (defendersRef (defenderStep delta w i)) j = Some d).
      { destruct (nth_error (defendersRef w) i) as [di |] eqn:Hi.
        - destruct (defenderStep_at delta w i di Hi) as (d1 & Hd1 & _).
          rewrite Hd1, nth_error_update_nth_other by exact Hne. exact Hj.
        - unfold defenderStep. rewrite Hi. exact Hj. }
      destruct (IH Hnd' _ Hc1 j d Hj1) as (d' & Hd' & Hin & Hsame).
      exists d'. split; [exact Hd' | split].
      * intros [He | Hi]; [congruence | apply Hin, Hi].
      * intro Hn. apply Hsame. intro Hi. apply Hn. right. exact Hi.
Qed.

Lemma defendersStep_in_band (delta : Q) (w : World) :
  corners_have_receivers w -> Forall in_band (defendersRef (defendersStep delta w)).
Proof.
  intro Hc. apply Forall_forall. intros x Hx.
  destruct (In_nth_error _ _ Hx) as [j Hj].
  destruct (defendersFold_players delta (seq 0 (List.length (defendersRef w))) w)
    as (_ & _ & Ht & _ & _).
  fold (defendersStep delta w) in Ht.
  assert (Hlen : (j < List.length (defendersRef w))%nat).
  { rewrite <- (length_map target), <- Ht, length_map. eapply nth_error_in_range, Hj. }
  destruct (nth_error (defendersRef w) j) as [d |] eqn:Hd;
    [| apply nth_error_None in Hd; lia].
  destruct (defendersFold_at delta _ (seq_NoDup (List.length (defendersRef w)) 0) w Hc j d Hd)
    as (d' & Hd' & Hin & _).
  fold (defendersStep delta w) in Hd'. rewrite Hj in Hd'. injection Hd' as <-.
  apply Hin, in_seq. lia.
Qed.

(** X13. When every corner has the receiver it covers, the defender part
    of a frame leaves every defender between the sidelines and in the band
    of his assignment (rushers from two units inside the near end of the
    field to -5, corners from ten units inside it to [endzone - 1], the
    safety at most at [endzone - 2]), changes no assignment and moves no
    receiver. *)
Theorem defenders_stay_in_bands :
  forall (delta : Q) (w : World),
    corners_have_receivers w ->
    let w' := defendersStep delta w in
    Forall in_band (defendersRef w')
    /\ map target (defendersRef w') = map target (defendersRef w)
    /\ map data_id (receiversRef w') = map data_id (receiversRef w)
    /\ map group_position (receiversRef w') = map group_position (receiversRef w)
    /\ corners_have_receivers w'.
Proof.
  intros delta w Hc w'.
  destruct (defendersFold_players delta (seq 0 (List.length (defendersRef w))) w)
    as (Hi & Hp & Ht & _ & _).
  fold (defendersStep delta w) in Hi, Hp, Ht. fold w' in Hi, Hp, Ht.
  split; [apply defendersStep_in_band, Hc |].
  split; [exact Ht | split; [exact Hi | split; [exact Hp |]]].
  apply (corners_have_receivers_ext w); assumption.
Qed.

(** *** The formation and the flight in every reachable world *)

Lemma well_formed_players (w w' : World) :
  players w' = players w -> well_formed w -> well_formed w'.
Proof.
  unfold players, well_formed, formation, thrown_has_flight.
  intro E. injection E as -> -> -> ->. exact (fun H => H).
Qed.

Lemma players_sackTimerStep (delta : Q) (w : World) :
  players (fst (sackTimerStep delta w)) = players w.
Proof. unfold sackTimerStep. cbv zeta. destruct (_ >=? _); reflexivity. Qed.

Lemma players_sackTimerUpdater (w : World) : players (sackTimerUpdater w) = players w.
Proof.
  unfold sackTimerUpdater. cbv zeta.
  match goal with |- context [if ?c then _ else _] => destruct c end; [| reflexivity].
  transitivity (players (handleSack w)); [reflexivity | exact (players_handle OSack w)].
Qed.

Lemma players_qbStep (delta : Q) (w : World) : players (qbStep delta w) = players w.
Proof. unfold qbStep. destruct (negb _); reflexivity. Qed.

Lemma map_data_id_forEach_from (f : Receiver -> nat -> Receiver) (l : list Receiver) :
  (forall r i, data_id (f r i) = data_id r) ->
  forall k, map data_id (forEach_from k f l) = map data_id l.
Proof.
  intro H. induction l as [| r l IH]; intro k; simpl; [reflexivity |].
  rewrite H, IH. reflexivity.
Qed.

Lemma well_formed_receiversStep (delta : Q) (w : World) :
  well_formed w -> well_formed (receiversStep delta w).
Proof.
  intros [[Hi Ht] Hf]. split; [split |]; [| exact Ht | exact Hf].
  unfold receiversStep. simpl. unfold forEach.
  rewrite map_data_id_forEach_from; [exact Hi | reflexivity].
Qed.

Lemma well_formed_defendersStep (delta : Q) (w : World) :
  well_formed w -> well_formed (defendersStep delta w).
Proof.
  intros [[Hi Ht] Hf].
  destruct (defendersFold_players delta (seq 0 (List.length (defendersRef w))) w)
    as (a1 & _ & a3 & a4 & a5).
  fold (defendersStep delta w) in a1, a3, a4, a5.
  split; [split |]; [congruence | congruence |].
  unfold thrown_has_flight. rewrite a4, a5. exact Hf.
Qed.

Lemma players_resolveArrival (random : Q) (w : World) :
  players (resolveArrival random w) = players w.
Proof.
  unfold resolveArrival. destruct (findReceiver _ _); [| reflexivity]. cbv zeta.
  destruct (_ <? 5); [destruct (_ <? _) |].
  - apply (players_handle OCatch).
  - apply (players_handle OInterception).
  - apply (players_handle OIncomplete).
Qed.

Lemma well_formed_ballFlightStep (now random : Q) (w : World) :
  well_formed w -> well_formed (ballFlightStep now random w).
Proof.
  intro H. unfold ballFlightStep.
  destruct (ballThrownRef w) eqn:B; [| exact H].
  destruct (ballFlightRef w) as [flight |] eqn:F; [| exact H]. cbv zeta.
  destruct (_ >=? 1).
  - match goal with |- context [resolveArrival random ?w1] => set (W := w1) end.
    pose proof (players_resolveArrival random W) as E.
    unfold players in E. injection E as E1 E2 _ _.
    destruct H as [[Hi Ht] _]. split; [split |].
    + change (map data_id (receiversRef (resolveArrival random W)) = ["wr1"; "wr2"]%string).
      rewrite E1. exact Hi.
    + change (map target (defendersRef (resolveArrival random W))
              = [rusher; rusher; corner; corner; safety]).
      rewrite E2. exact Ht.
    + intro Hc. discriminate Hc.
  - apply (well_formed_players w); [reflexivity | exact H].
Qed.

Lemma findIndex_from_member (r : Receiver) (l : list Receiver) :
  In r l ->
  forall k, exists (i : nat) (r' : Receiver),
    findIndex_from k (fun x => String.eqb (data_id x) (data_id r)) l = Some (i, r').
Proof.
  induction l as [| x l IH]; intros Hin k; [destruct Hin |]. simpl.
  destruct (String.eqb (data_id x) (data_id r)) eqn:E; [eauto |].
  destruct Hin as [-> | Hin]; [rewrite String.eqb_refl in E; discriminate |].
  apply IH, Hin.
Qed.

Lemma well_formed_throwBall (r : Receiver) (clickPoint : option Vector3) (now : Q)
      (w : World) :
  In r (receiversRef w) -> well_formed w ->
  well_formed (throwBall (data_id r) clickPoint now w).
Proof.
  intros Hin H. unfold throwBall.
  destruct (ballThrownRef w); [exact H |]. cbv zeta.
  match goal with |- context [findIndex_from 0 ?f ?l] =>
    change l with (receiversRef w);
    destruct (findIndex_from_member r (receiversRef w) Hin 0) as (i & r' & ->)
  end.
  destruct H as [[Hi Ht] _]. split; [split; assumption |].
  intros _. eexists. reflexivity.
Qed.

Lemma assistStep_cases (w : World) (tapPoint : Vector3) (best : option (Q * Receiver))
      (r : Receiver) (i : nat) :
  assistStep w tapPoint best r i = best
  \/ exists s : Q, assistStep w tapPoint best r i = Some (s, r).
Proof. unfold assistStep. cbv zeta. split_ifs; eauto. Qed.

Lemma assistLoop_member (w : World) (tapPoint : Vector3) (l : list Receiver) :
  forall (best : option (Q * Receiver)) (i : nat) (s : Q) (r : Receiver),
    assistLoop w tapPoint best i l = Some (s, r) ->
    (exists s' : Q, best = Some (s', r)) \/ In r l.
Proof.
  induction l as [| x l IH]; intros best i s r H; simpl in H.
  - left. eauto.
  - destruct (IH _ _ _ _ H) as [[s' Hs] | Hin]; [| right; right; exact Hin].
    destruct (assistStep_cases w tapPoint best x i) as [E | [s'' E]];
      rewrite E in Hs.
    + left. eauto.
    + injection Hs as _ <-. right. left. reflexivity.
Qed.

Lemma well_formed_onPointerDown (now : Q) (pickResult : PickResult) (w : World) :
  well_formed w -> well_formed (onPointerDown now pickResult w).
Proof.
  intro H. unfold onPointerDown.
  destruct (negb _ || _); [exact H |]. cbv zeta.
  match goal with |- context [match ?direct with Some _ => _ | None => _ end] =>
    destruct direct as [r |] eqn:D
  end.
  - apply well_formed_throwBall; [| exact H].
    destruct (hit pickResult); [| discriminate].
    destruct (pickedReceiver pickResult); [| discriminate].
    eapply nth_error_In, D.
  - destruct (if hit pickResult then pickedPoint pickResult else None) as [tapPoint |];
      [| exact H].
    destruct (assistLoop w tapPoint None 0 (receiversRef w)) as [[s r] |] eqn:A; [| exact H].
    apply well_formed_throwBall; [| exact H].
    destruct (assistLoop_member _ _ _ _ _ _ _ A) as [[s' E] | Hin];
      [discriminate | exact Hin].
Qed.

Lemma well_formed_beforeRender (delta now random : Q) (w : World) :
  well_formed w -> well_formed (beforeRender delta now random w).
Proof.
  intro H. unfold beforeRender.
  destruct (negb (is_playing _)); [exact H |].
  destruct (_ && _); [apply (well_formed_players w); [reflexivity | exact H] |].
  destruct (negb (is_none _)); [exact H |].
  destruct (negb (playStartedRef w)); [exact H |]. cbv zeta.
  assert (H5 : well_formed
                 (ballFlightStep now random
                    (defendersStep delta
                       (receiversStep delta (qbStep delta (fst (sackTimerStep delta w))))))).
  { apply well_formed_ballFlightStep, well_formed_defendersStep, well_formed_receiversStep.
    apply (well_formed_players (fst (sackTimerStep delta w))); [apply players_qbStep |].
    apply (well_formed_players w); [apply players_sackTimerStep | exact H]. }
  destruct (snd (sackTimerStep delta w)); [| exact H5].
  eapply well_formed_players; [apply players_sackTimerUpdater | exact H5].
Qed.

Lemma formation_resetPlay (w : World) : formation w -> well_formed (resetPlay w).
Proof.
  intros [Hi Ht]. split; [split |].
  - rewrite receiversRef_resetPlay. unfold forEach.
    rewrite map_data_id_forEach_from; [exact Hi |].
    intros r i. unfold resetReceiver. destruct (nth_error _ i); reflexivity.
  - rewrite defendersRef_resetPlay.
    destruct (defendersRef w) as [| d0 [| d1 [| d2 [| d3 [| d4 [| d5 l]]]]]];
      try discriminate Ht.
    reflexivity.
  - intro Hc. discriminate Hc.
Qed.

Lemma well_formed_runTimer (t : Timer) (w : World) :
  well_formed w -> well_formed (runTimer t w).
Proof.
  intro H. destruct t as [| | ? ? ? | ? ? ? | | ? ? ? | | b]; simpl runTimer.
  - apply (well_formed_players w); [apply (players_handle OTouchdown) | exact H].
  - exact H.
  - apply formation_resetPlay. exact (proj1 H).
  - apply formation_resetPlay. exact (proj1 H).
  - exact H.
  - destruct (_ >? 4)%Z; [exact H | apply formation_resetPlay; exact (proj1 H)].
  - apply formation_resetPlay. exact (proj1 H).
  - destruct b; exact H.
Qed.

Lemma well_formed_step (e : Event) (w : World) : well_formed w -> well_formed (step e w).
Proof.
  intro H. destruct e; simpl step.
  - destruct (gameStatus (gameState w)); try exact H.
    destruct H as [Hf _]. split; [exact Hf | intro Hc; discriminate Hc].
  - destruct (gameStatus (gameState w)); try exact H.
    destruct H as [Hf _]. split; [exact Hf | intro Hc; discriminate Hc].
  - unfold handleKeyDown. cbv zeta. destruct (_ && _); exact H.
  - exact H.
  - unfold handleJoystickMove. cbv zeta. destruct (_ && _); exact H.
  - unfold skipCutscene. destruct (is_none _); exact H.
  - apply well_formed_onPointerDown, H.
  - apply well_formed_beforeRender, H.
  - destruct (nth_error (pending w) n); [| exact H].
    apply well_formed_runTimer. exact H.
Qed.

Lemma well_formed_reachable (w : World) : reachable w -> well_formed w.
Proof.
  induction 1 as [| e w _ IH]; [| apply well_formed_step, IH].
  split; [split; reflexivity | intro Hc; discriminate Hc].
Qed.

Lemma formation_corners (w : World) : formation w -> corners_have_receivers w.
Proof.
  intros [Hi Ht] i Hc. rewrite Ht in Hc.
  rewrite <- (length_map data_id), Hi.
  destruct i as [| [| [| [| [| i]]]]]; simpl in Hc; try discriminate Hc; simpl; try lia.
  destruct i; discriminate Hc.
Qed.

(** X14. In every reachable world the scene holds the receivers wr1 and
    wr2 and two rushers, two corners and a safety, in this order, so that
    every corner has the receiver it covers; and a ball marked as thrown
    has a flight: a throw is never left without one, which would hold the
    play for good, since nothing but the arrival of the ball clears the
    mark during a play. *)
Theorem formation_is_kept :
  forall w : World,
    reachable w ->
    map data_id (receiversRef w) = ["wr1"; "wr2"]%string
    /\ map target (defendersRef w) = [rusher; rusher; corner; corner; safety]
    /\ corners_have_receivers w
    /\ (ballThrownRef w = true -> exists flight : Flight, ballFlightRef w = Some flight).
Proof.
  intros w Hr. destruct (well_formed_reachable w Hr) as [Hf Ht].
  split; [exact (proj1 Hf) | split; [exact (proj2 Hf) |]].
  split; [apply formation_corners, Hf | exact Ht].
Qed.

(** *** Once the ball is away *)

Lemma play_defenderStep_thrown (delta : Q) (w : World) (i : nat) :
  ballThrownRef w = true ->
  play (defenderStep delta w i) = play w
  /\ ballRef (defenderStep delta w i) = ballRef w.
Proof.
  intro Hthrown. unfold defenderStep.
  destruct (nth_error (defendersRef w) i) as [d |]; [| split; reflexivity].
  destruct (target d); cbv zeta.
  - match goal with |- context [negb (ballThrownRef ?W)] =>
      change (ballThrownRef W) with (ballThrownRef w)
    end.
    rewrite Hthrown, andb_false_r. split; reflexivity.
  - destruct (if Nat.ltb i 2 then None else _); split; reflexivity.
  - split; reflexivity.
Qed.

Lemma play_defendersFold_thrown (delta : Q) (l : list nat) :
  forall w : World,
    ballThrownRef w = true ->
    play (fold_left (defenderStep delta) l w) = play w
    /\ ballRef (fold_left (defenderStep delta) l w) = ballRef w.
Proof.
  induction l as [| i l IH]; intros w Hthrown; simpl; [split; reflexivity |].
  destruct (play_defenderStep_thrown delta w i Hthrown) as [E1 E2].
  destruct (defenderStep_players delta w i) as (_ & _ & _ & Ht & _).
  destruct (IH (defenderStep delta w i)) as [E3 E4]; [rewrite Ht; exact Hthrown |].
  split; etransitivity; eassumption.
Qed.

Lemma sackTimerStep_accum (delta : Q) (w : World) :
  exists (a : Q) (queued : bool), sackTimerStep delta w = (set_sackTimerAccum a w, queued).
Proof.
  unfold sackTimerStep. cbv zeta. destruct (_ >=? _).
  - exists 0, true. reflexivity.
  - exists (sackTimerAccum w + delta), false. reflexivity.
Qed.

Lemma sackTimerUpdater_thrown (w : World) :
  ballThrownRef w = true ->
  sackTimerUpdater w
  = setGameState (upd_sackTimer (Math_max 0 (sackTimer (gameState w) - 0.1))) w.
Proof.
  intro Hthrown. unfold sackTimerUpdater. cbv zeta.
  rewrite Hthrown, andb_false_r. reflexivity.
Qed.

(** X15. Once the ball is away, and until it arrives, a simulated frame
    does not sack the quarterback, whatever the sack timer shows and
    however close the rushers are: the latch, the queued callbacks, the
    line of scrimmage and the Drive State but for the count of the sack
    timer stay as they are, the quarterback does not move, and the ball is
    put on its flight path. *)
Theorem no_sack_once_thrown :
  forall (delta now random : Q) (w : World) (flight : Flight),
    gameStatus (gameState w) = playing ->
    cutsceneActiveRef w = cs_none ->
    playStartedRef w = true ->
    ballThrownRef w = true ->
    ballFlightRef w = Some flight ->
    0 < duration flight ->
    now - startTime flight < duration flight ->
    let w' := beforeRender delta now random w in
    playEndedRef w' = playEndedRef w
    /\ pending w' = pending w
    /\ lineOfScrimmageRef w' = lineOfScrimmageRef w
    /\ qbRef w' = qbRef w
    /\ gameState w' = upd_sackTimer (sackTimer (gameState w')) (gameState w)
    /\ ballThrownRef w' = true
    /\ ballFlightRef w' = Some flight
    /\ ballRef w'
       = flightPosition flight (Math_min ((now - startTime flight) / duration flight) 1).
Proof.
  intros delta now random w flight Hplaying Hnone Hstarted Hthrown Hflight Hdur Hnow w'.
  subst w'. unfold beforeRender. rewrite Hplaying, Hnone, Hstarted.
  destruct (sackTimerStep_accum delta w) as (a & queued & ->).
  simpl. cbv zeta.
  set (w1 := set_sackTimerAccum a w).
  assert (Hq : qbStep delta w1 = w1).
  { unfold qbStep. change (ballThrownRef w1) with (ballThrownRef w).
    rewrite Hthrown. reflexivity. }
  rewrite Hq.
  set (w3 := receiversStep delta w1).
  assert (Hthrown3 : ballThrownRef w3 = true) by exact Hthrown.
  destruct (play_defendersFold_thrown delta (seq 0 (List.length (defendersRef w3))) w3
              Hthrown3) as [Eplay Eball].
  destruct (defendersFold_players delta (seq 0 (List.length (defendersRef w3))) w3)
    as (_ & _ & _ & Et & Ef).
  fold (defendersStep delta w3) in Eplay, Eball, Et, Ef.
  set (w4 := defendersStep delta w3) in *.
  unfold play in Eplay. injection Eplay as Eg Ep El Elos Eqb _.
  change (ballThrownRef w3) with (ballThrownRef w) in Et. rewrite Hthrown in Et.
  change (ballFlightRef w3) with (ballFlightRef w) in Ef. rewrite Hflight in Ef.
  change (playEndedRef w3) with (playEndedRef w) in El.
  change (pending w3) with (pending w) in Ep.
  change (lineOfScrimmageRef w3) with (lineOfScrimmageRef w) in Elos.
  change (qbRef w3) with (qbRef w) in Eqb.
  change (gameState w3) with (gameState w) in Eg.
  assert (Hlt : (Math_min ((now - startTime flight) / duration flight) 1 >=? 1) = false).
  { apply geb_lt. apply Qle_lt_trans with ((now - startTime flight) / duration flight);
      [apply Q.le_min_l |].
    apply Qlt_shift_div_r; [exact Hdur | lra]. }
  assert (Hfly : ballFlightStep now random w4
                 = set_ballRef
                     (flightPosition flight
                        (Math_min ((now - startTime flight) / duration flight) 1)) w4).
  { unfold ballFlightStep. rewrite Et, Ef. cbv zeta. rewrite Hlt. reflexivity. }
  rewrite Hfly.
  set (w5 := set_ballRef _ w4).
  assert (H5 : playEndedRef w5 = playEndedRef w /\ pending w5 = pending w
               /\ lineOfScrimmageRef w5 = lineOfScrimmageRef w /\ qbRef w5 = qbRef w
               /\ gameState w5 = gameState w
               /\ ballThrownRef w5 = true /\ ballFlightRef w5 = Some flight
               /\ ballRef w5
                  = flightPosition flight
                      (Math_min ((now - startTime flight) / duration flight) 1)).
  { repeat split; assumption. }
  destruct H5 as (A1 & A2 & A3 & A4 & A5 & A6 & A7 & A8).
  destruct queued.
  - rewrite (sackTimerUpdater_thrown w5 A6).
    split; [exact A1 | split; [exact A2 | split; [exact A3 | split; [exact A4 |]]]].
    split; [| split; [exact A6 | split; [exact A7 | exact A8]]].
    change (upd_sackTimer (Math_max 0 (sackTimer (gameState w5) - 0.1)) (gameState w5)
            = upd_sackTimer (Math_max 0 (sackTimer (gameState w5) - 0.1)) (gameState w)).
    rewrite A5. reflexivity.
  - split; [exact A1 | split; [exact A2 | split; [exact A3 | split; [exact A4 |]]]].
    split; [| split; [exact A6 | split; [exact A7 | exact A8]]].
    rewrite A5. apply upd_sackTimer_self.
Qed.

(** *** Frames that change nothing *)

Lemma run_cons (e : Event) (es : list Event) (w : World) :
  run (e :: es) w = run es (step e w).
Proof. reflexivity. Qed.

Lemma run_frames_fixed (fs : list (Q * Q * Q)) (w : World) :
  (forall delta now random, beforeRender delta now random w = w) ->
  run (frames fs) w = w.
Proof.
  intro H. induction fs as [| f fs IH]; [reflexivity |].
  unfold frames. simpl map. rewrite run_cons. simpl step. rewrite H. exact IH.
Qed.

Lemma beforeRender_before_snap (delta now random : Q) (w : World) :
  cutsceneActiveRef w <> cs_game_start \/ gameStartCutscenePlayed w = true ->
  playStartedRef w = false ->
  beforeRender delta now random w = w.
Proof.
  intros Hc Hs. unfold beforeRender.
  destruct (negb (is_playing _)); [reflexivity |].
  destruct (is_game_start (cutsceneActiveRef w) && negb (gameStartCutscenePlayed w)) eqn:E.
  - apply andb_prop in E. destruct E as [E1 E2]. destruct Hc as [Hc | Hc].
    + destruct (cutsceneActiveRef w); try discriminate E1. congruence.
    + rewrite Hc in E2. discriminate E2.
  - destruct (negb (is_none _)); [reflexivity |]. rewrite Hs. reflexivity.
Qed.

(** X16. After the reset of a play no player and no ball moves, and the
    sack timer does not run, until the snap: any number of frames leaves
    the refs and the Drive State as the reset left them (the shake of the
    camera is the one thing a frame does before it checks for the snap),
    also after a joystick event within the dead zone of 0.1; a key press
    during the game, or a joystick event beyond the dead zone, is what
    starts the play. *)
Theorem nothing_moves_before_the_snap :
  forall (w : World) (fs : list (Q * Q * Q)),
    cutsceneActiveRef w <> cs_game_start \/ gameStartCutscenePlayed w = true ->
    run (frames fs) (resetPlay w) = resetPlay w
    /\ (forall x y : Q,
          Math_abs x <= 0.1 -> Math_abs y <= 0.1 ->
          run (frames fs) (handleJoystickMove x y (resetPlay w))
          = handleJoystickMove x y (resetPlay w))
    /\ (forall x y : Q,
          0.1 < Math_abs x \/ 0.1 < Math_abs y ->
          playStartedRef (handleJoystickMove x y (resetPlay w)) = true)
    /\ (forall k : Key,
          gameStatus (gameState w) = playing ->
          playStartedRef (handleKeyDown k (resetPlay w)) = true).
Proof.
  intros w fs Hc. split; [| split; [| split]].
  - apply run_frames_fixed. intros delta now random.
    apply beforeRender_before_snap; [exact Hc | reflexivity].
  - intros x y Hx Hy. apply run_frames_fixed. intros delta now random.
    unfold handleJoystickMove. cbv zeta.
    assert (Ex : (Math_abs x >? 0.1) = false) by (apply ltb_ge; exact Hx).
    assert (Ey : (Math_abs y >? 0.1) = false) by (apply ltb_ge; exact Hy).
    unfold gtb in *. rewrite Ex, Ey. simpl andb. cbv iota.
    apply beforeRender_before_snap; [exact Hc | reflexivity].
  - intros x y Hxy. unfold handleJoystickMove. cbv zeta.
    assert (E : (Math_abs x >? 0.1) || (Math_abs y >? 0.1) = true).
    { apply orb_true_iff. destruct Hxy as [H | H]; [left | right]; apply ltb_lt, H. }
    rewrite E. reflexivity.
  - intros k Hp. unfold handleKeyDown. cbv zeta.
    match goal with |- context [is_playing (gameStatus (gameState ?W))] =>
      change (gameStatus (gameState W)) with (gameStatus (gameState w))
    end.
    rewrite Hp. reflexivity.
Qed.

Lemma held_step (e : Event) (w : World) :
  no_clock e = true ->
  gameStatus (gameState w) = playing ->
  cutsceneActiveRef w = cs_game_start ->
  gameStartCutscenePlayed w = true ->
  let w' := step e w in
  (gameStatus (gameState w') = playing
   /\ cutsceneActiveRef w' = cs_game_start
   /\ gameStartCutscenePlayed w' = true)
  /\ upd_selectedReceiver (selectedReceiver (gameState w)) (gameState w')
     = gameState w
  /\ (qbRef w', ballRef w', receiversRef w', defendersRef w', lineOfScrimmageRef w',
      pending w', playEndedRef w')
     = (qbRef w, ballRef w, receiversRef w, defendersRef w, lineOfScrimmageRef w,
        pending w, playEndedRef w).
Proof.
  intros He Hp Hc Hg w'. subst w'.
  assert (Hself : upd_selectedReceiver (selectedReceiver (gameState w)) (gameState w)
                  = gameState w) by (destruct (gameState w); reflexivity).
  destruct e; try discriminate He; simpl step.
  - rewrite Hp. repeat split; assumption.
  - rewrite Hp. repeat split; assumption.
  - unfold handleKeyDown. cbv zeta. destruct (_ && _); repeat split; assumption.
  - repeat split; assumption.
  - unfold handleJoystickMove. cbv zeta. destruct (_ && _); repeat split; assumption.
  - unfold onPointerDown.
    destruct (negb _ || _); [repeat split; assumption |]. cbv zeta.
    assert (Hthrow : forall receiver clickPoint,
               let w' := throwBall receiver clickPoint now w in
               (gameStatus (gameState w') = playing
                /\ cutsceneActiveRef w' = cs_game_start
                /\ gameStartCutscenePlayed w' = true)
               /\ upd_selectedReceiver (selectedReceiver (gameState w)) (gameState w')
                  = gameState w
               /\ (qbRef w', ballRef w', receiversRef w', defendersRef w',
                   lineOfScrimmageRef w', pending w', playEndedRef w')
                  = (qbRef w, ballRef w, receiversRef w, defendersRef w,
                     lineOfScrimmageRef w, pending w, playEndedRef w)).
    { intros receiver clickPoint. unfold throwBall. cbv zeta.
      destruct (ballThrownRef w); [repeat split; assumption |].
      destruct (findIndex_from 0 _ _) as [[i r] |];
        (split; [repeat split; assumption | split; [| reflexivity]]);
        match goal with |- upd_selectedReceiver _ ?g = _ =>
          change g with (upd_selectedReceiver (Some receiver) (gameState w))
        end;
        destruct (gameState w); reflexivity. }
    destruct (if hit pickResult then _ else None) as [r |]; [apply Hthrow |].
    destruct (if hit pickResult then pickedPoint pickResult else None) as [tapPoint |];
      [| repeat split; assumption].
    destruct (assistLoop w tapPoint None 0 (receiversRef w)) as [[s r] |];
      [apply Hthrow | repeat split; assumption].
  - unfold beforeRender. rewrite Hp, Hc, Hg. simpl. repeat split; assumption.
Qed.

(** X17. A restarted game does not start: [restartGame] sets the
    cutscene ref to the opening cutscene, but the frame callback plays that
    cutscene once in the life of the scene, so that after a first game
    every frame returns at the cutscene check.  Whatever frames, key,
    joystick and pointer events follow the restart, short of the skip
    button and of callbacks still queued, the Drive State stays the
    starting one (the selected receiver apart, which a tap still writes),
    the players stay where the last game left them, and the line of
    scrimmage is the one of the last game. *)
Theorem restarted_game_is_held :
  forall (w : World) (es : list Event),
    gameStatus (gameState w) = gameover ->
    gameStartCutscenePlayed w = true ->
    forallb no_clock es = true ->
    let w' := run es (step EvRestartGame w) in
    upd_selectedReceiver None (gameState w') = startingGameState playing cs_game_start
    /\ cutsceneActiveRef w' = cs_game_start
    /\ (qbRef w', ballRef w', receiversRef w', defendersRef w', lineOfScrimmageRef w',
        pending w', playEndedRef w')
       = (qbRef w, ballRef w, receiversRef w, defendersRef w, lineOfScrimmageRef w,
          pending w, false).
Proof.
  intros w es Hover Hplayed Hes w'. subst w'. simpl step. rewrite Hover.
  unfold restartGame.
  assert (H0 : (gameStatus (gameState (startGame w)) = playing
                /\ cutsceneActiveRef (startGame w) = cs_game_start
                /\ gameStartCutscenePlayed (startGame w) = true)
               /\ upd_selectedReceiver None (gameState (startGame w))
                  = startingGameState playing cs_game_start
               /\ (qbRef (startGame w), ballRef (startGame w), receiversRef (startGame w),
                   defendersRef (startGame w), lineOfScrimmageRef (startGame w),
                   pending (startGame w), playEndedRef (startGame w))
                  = (qbRef w, ballRef w, receiversRef w, defendersRef w,
                     lineOfScrimmageRef w, pending w, false)).
  { repeat split. exact Hplayed. }
  revert H0. generalize (startGame w) as v. clear Hover Hplayed.
  induction es as [| e es IH]; intros v (Hheld & Hstate & Hrefs).
  - split; [exact Hstate | split; [apply Hheld | exact Hrefs]].
  - simpl in Hes. apply andb_prop in Hes. destruct Hes as [He Hes].
    rewrite run_cons. apply IH; [exact Hes |].
    destruct Hheld as (Hp & Hc & Hg).
    destruct (held_step e v He Hp Hc Hg) as (Hheld' & Hstate' & Hrefs').
    split; [exact Hheld' | split; [| rewrite Hrefs'; exact Hrefs]].
    rewrite <- Hstate, <- Hstate'. destruct (gameState (step e v)). reflexivity.
Qed.

(** *** Game over *)

Lemma gameStatus_handle_over (o : Outcome) (w : World) :
  gameStatus (gameState w) = gameover -> gameStatus (gameState (handle o w)) = gameover.
Proof. intro H. destruct o; unfold_handlers; split_ifs; simpl; exact H || reflexivity. Qed.

Lemma gameStatus_runTimer_over (t : Timer) (w : World) :
  gameStatus (gameState w) = gameover -> gameStatus (gameState (runTimer t w)) = gameover.
Proof.
  intro H. destruct t as [| | ? ? ? | ? ? ? | | n ? ? | | b]; simpl runTimer.
  - apply (gameStatus_handle_over OTouchdown), H.
  - reflexivity.
  - rewrite gameState_resetPlay. exact H.
  - rewrite gameState_resetPlay. exact H.
  - reflexivity.
  - destruct (n >? 4)%Z; [reflexivity | rewrite gameState_resetPlay; exact H].
  - rewrite gameState_resetPlay. exact H.
  - destruct b; exact H.
Qed.

Lemma gameStatus_step_over (e : Event) (w : World) :
  is_restart e = false ->
  gameStatus (gameState w) = gameover -> gameStatus (gameState (step e w)) = gameover.
Proof.
  intros He H. destruct e; try discriminate He; simpl step.
  - rewrite H. exact H.
  - unfold handleKeyDown. cbv zeta. destruct (_ && _); exact H.
  - exact H.
  - unfold handleJoystickMove. cbv zeta. destruct (_ && _); exact H.
  - unfold skipCutscene. destruct (is_none _); exact H.
  - unfold onPointerDown. rewrite H. exact H.
  - unfold beforeRender. rewrite H. exact H.
  - destruct (nth_error (pending w) n); [| exact H].
    apply gameStatus_runTimer_over. exact H.
Qed.

(** X18. Game over is left by the restart button only: no frame, key,
    joystick or pointer event, skip or queued callback that runs later
    changes the status, and on the game-over screen frames and pointer
    events change nothing at all. *)
Theorem game_over_until_restart :
  forall (es : list Event) (w : World),
    gameStatus (gameState w) = gameover ->
    existsb is_restart es = false ->
    let w' := run es w in
    gameStatus (gameState w') = gameover
    /\ (forall delta now random : Q, beforeRender delta now random w' = w')
    /\ (forall (now : Q) (pickResult : PickResult), onPointerDown now pickResult w' = w').
Proof.
  intros es w Hover Hes w'.
  assert (H : gameStatus (gameState w') = gameover).
  { subst w'. revert w Hover. induction es as [| e es IH]; intros w Hover; [exact Hover |].
    simpl in Hes. apply orb_false_iff in Hes. destruct Hes as [He Hes].
    rewrite run_cons. apply IH; [exact Hes |]. apply gameStatus_step_over; assumption. }
  split; [exact H | split].
  - intros delta now random. unfold beforeRender. rewrite H. reflexivity.
  - intros now pickResult. unfold onPointerDown. rewrite H. reflexivity.
Qed.

(** *** The players after a frame *)

Lemma refs_ballFlightStep (now random : Q) (w : World) :
  receiversRef (ballFlightStep now random w) = receiversRef w
  /\ defendersRef (ballFlightStep now random w) = defendersRef w.
Proof.
  unfold ballFlightStep.
  destruct (ballThrownRef w); [| split; reflexivity].
  destruct (ballFlightRef w) as [flight |]; [| split; reflexivity]. cbv zeta.
  destruct (_ >=? 1); [| split; reflexivity].
  match goal with |- context [resolveArrival random ?w1] => set (W := w1) end.
  pose proof (players_resolveArrival random W) as E.
  unfold players in E. injection E as E1 E2 _ _.
  split; [exact E1 | exact E2].
Qed.

Lemma players_refs (w w' : World) :
  players w' = players w ->
  receiversRef w' = receiversRef w /\ defendersRef w' = defendersRef w.
Proof. unfold players. intro E. injection E as E1 E2 _ _. split; assumption. Qed.

Lemma receiver_in_bounds_ext (l l' : list Receiver) :
  map group_position l' = map group_position l ->
  Forall receiver_in_bounds l -> Forall receiver_in_bounds l'.
Proof.
  intros E H.
  change (Forall (fun r =>
            (fun p => (- FIELD_HALF_WIDTH + 1 <= vx p /\ vx p <= FIELD_HALF_WIDTH - 1)
                      /\ vz p <= ENDZONE_Z - 1) (group_position r)) l').
  rewrite <- Forall_map, E, Forall_map. exact H.
Qed.

(** X19. After every simulated frame of a game that was reached from
    the menu, every receiver is within one unit of the sidelines and at
    most at [endzone - 1], and every defender is between the sidelines and
    in the band of his assignment. *)
Theorem frame_keeps_players_on_field :
  forall (delta now random : Q) (w : World),
    reachable w ->
    gameStatus (gameState w) = playing ->
    cutsceneActiveRef w = cs_none ->
    playStartedRef w = true ->
    let w' := beforeRender delta now random w in
    Forall receiver_in_bounds (receiversRef w') /\ Forall in_band (defendersRef w').
Proof.
  intros delta now random w Hr Hplaying Hnone Hstarted w'. subst w'.
  unfold beforeRender. rewrite Hplaying, Hnone, Hstarted.
  change (is_game_start cs_none) with false. change (is_playing playing) with true.
  change (is_none cs_none) with true. simpl negb. simpl andb. cbv iota zeta.
  set (w2 := qbStep delta (fst (sackTimerStep delta w))).
  assert (Hw2 : well_formed w2).
  { apply (well_formed_players (fst (sackTimerStep delta w))); [apply players_qbStep |].
    apply (well_formed_players w); [apply players_sackTimerStep |].
    apply well_formed_reachable, Hr. }
  assert (Hw3 : well_formed (receiversStep delta w2))
    by apply well_formed_receiversStep, Hw2.
  set (w5 := ballFlightStep now random (defendersStep delta (receiversStep delta w2))).
  assert (Hrefs : receiversRef (if snd (sackTimerStep delta w) then sackTimerUpdater w5 else w5)
                  = receiversRef (defendersStep delta (receiversStep delta w2))
                  /\ defendersRef (if snd (sackTimerStep delta w)
                                   then sackTimerUpdater w5 else w5)
                     = defendersRef (defendersStep delta (receiversStep delta w2))).
  { destruct (refs_ballFlightStep now random
                (defendersStep delta (receiversStep delta w2))) as [E1 E2].
    fold w5 in E1, E2.
    destruct (snd (sackTimerStep delta w)); [| split; assumption].
    destruct (players_refs _ _ (players_sackTimerUpdater w5)) as [E3 E4].
    split; [exact (eq_trans E3 E1) | exact (eq_trans E4 E2)]. }
  destruct Hrefs as [-> ->].
  split.
  - destruct (defendersFold_players delta
                (seq 0 (List.length (defendersRef (receiversStep delta w2))))
                (receiversStep delta w2)) as (_ & Hp & _).
    apply (receiver_in_bounds_ext _ _ Hp).
    unfold receiversStep. simpl. unfold forEach.
    apply forEach_from_Forall. intros r j _. apply receiverStep_in_bounds.
  - apply defendersStep_in_band, formation_corners, Hw3.
Qed.

(** *** [clampToField] *)

(** X20. [clampToField] returns a position between the sidelines and
    between the two ends of the field, at the height it was given; it
    leaves a position that is within the field where it is, and so
    clamping twice is clamping once. *)
Theorem clampToField_in_field :
  forall pos : Vector3,
    let p := clampToField pos in
    (- FIELD_HALF_WIDTH <= vx p /\ vx p <= FIELD_HALF_WIDTH)
    /\ (FIELD_MIN_Z <= vz p /\ vz p <= FIELD_MAX_Z)
    /\ vy p = vy pos
    /\ ((- FIELD_HALF_WIDTH <= vx pos /\ vx pos <= FIELD_HALF_WIDTH) -> vx p == vx pos)
    /\ ((FIELD_MIN_Z <= vz pos /\ vz pos <= FIELD_MAX_Z) -> vz p == vz pos)
    /\ vx (clampToField p) == vx p
    /\ vz (clampToField p) == vz p.
Proof.
  intros pos p.
  assert (Hx : - FIELD_HALF_WIDTH <= vx p /\ vx p <= FIELD_HALF_WIDTH)
    by (apply clamp_between; vm_compute; discriminate).
  assert (Hz : FIELD_MIN_Z <= vz p /\ vz p <= FIELD_MAX_Z)
    by (apply clamp_between; vm_compute; discriminate).
  assert (Hfix : forall lo hi x : Q,
             lo <= x /\ x <= hi -> Math_max lo (Math_min hi x) == x).
  { intros lo hi x [H1 H2]. unfold Math_max, Math_min.
    rewrite (Q.min_r hi x H2). apply Q.max_r. exact H1. }
  split; [exact Hx | split; [exact Hz | split; [reflexivity |]]].
  split; [apply Hfix | split; [apply Hfix | split; apply Hfix; assumption]].
Qed.

End Geometry.

(** ** The model run on concrete plays *)

Lemma down_counter_in_range_witness :
  let w := run sqrt6 threeIncompletePasses initialWorld in
  downs (gameState w) = 4%Z
  /\ gameStatus (gameState w) = playing
  /\ gameStatus (gameState (handleIncomplete w)) = gameover
  /\ gameStatus (gameState (handleCatch w)) = gameover.
Proof.
  intro w.
  assert (Hr : reachable sqrt6 w) by (apply reachable_run, reachable_initial).
  assert (Hlatch : playEndedRef w = false) by (vm_compute; reflexivity).
  assert (H4 : downs (gameState w) = 4%Z) by (vm_compute; reflexivity).
  destruct (down_counter_in_range sqrt6 w Hr) as [_ Hfourth].
  destruct (Hfourth Hlatch H4) as [[Hi _] [Hc _]].
  split; [exact H4 | split; [vm_compute; reflexivity | split; [exact Hi |]]].
  apply Hc; vm_compute; reflexivity.
Defined.

(** Scenario A of the specification: line of scrimmage -15, marker -5,
    catch at 0. *)
Lemma first_down_moves_the_chains_witness :
  let w := set_ballRef (V3 0.3 1.5 0) (run sqrt6 opening initialWorld) in
  lineOfScrimmageRef (handleCatch w) = 0
  /\ pending (handleCatch w) = [TFirstDown 10 0 10]
  /\ downs (gameState (runTimer (TFirstDown 10 0 10) (handleCatch w))) = 1%Z
  /\ firstDownMarker (gameState (runTimer (TFirstDown 10 0 10) (handleCatch w))) = 10.
Proof.
  intro w.
  assert (Hlatch : playEndedRef w = false) by (vm_compute; reflexivity).
  assert (Hmarker : firstDownMarker (gameState w) <= vz (ballRef w))
    by (vm_compute; discriminate).
  assert (Htd : vz (ballRef w) < ENDZONE_Z - 3) by (vm_compute; reflexivity).
  destruct (first_down_moves_the_chains w Hlatch Hmarker Htd) as (Href & Hpend & Hcallback).
  destruct (Hcallback (handleCatch w)) as (Hd & _ & Hm & _).
  split; [exact Href | split; [exact Hpend | split; [exact Hd | exact Hm]]].
Defined.

(** A first down on a catch at 20.5: the yards to go become 5, not
    [min(10, 25 - 20.5) = 4.5]. *)
Lemma first_down_yards_to_go_is_rounded :
  let w := set_ballRef (V3 0.3 1.5 20.5) (run sqrt6 opening initialWorld) in
  playEndedRef w = false
  /\ firstDownMarker (gameState w) <= vz (ballRef w)
  /\ vz (ballRef w) < ENDZONE_Z - 3
  /\ pending (handleCatch w) = [TFirstDown 5 20.5 24]
  /\ yardsToGo (gameState (runTimer (TFirstDown 5 20.5 24) (handleCatch w))) = 5%Z
  /\ Math_min 10 (ENDZONE_Z - vz (ballRef w)) == 4.5
  /\ ~ inject_Z 5 == Math_min 10 (ENDZONE_Z - vz (ballRef w)).
Proof.
  intro w.
  split; [vm_compute; reflexivity |].
  split; [vm_compute; discriminate |].
  split; [vm_compute; reflexivity |].
  split; [vm_compute; reflexivity |].
  split; [vm_compute; reflexivity |].
  split; [vm_compute; reflexivity |].
  vm_compute. discriminate.
Qed.

(** Scenario C of the specification: a catch at 23 with the endzone at 25. *)
Lemma touchdown_catch_never_scores_witness :
  let w := set_ballRef (V3 0.3 1.5 23) (run sqrt6 opening initialWorld) in
  let later := run sqrt6 [EvTimeout 0; EvFrame 0.1 1 0; EvSkipCutscene; EvTimeout 0]
                   (handleCatch w) in
  pending (handleCatch w) = [TTouchdown]
  /\ score (gameState later) = 0%Z
  /\ gameStatus (gameState later) = playing.
Proof.
  intros w later.
  assert (Hlatch : playEndedRef w = false) by (vm_compute; reflexivity).
  assert (Hplaying : gameStatus (gameState w) = playing) by (vm_compute; reflexivity).
  assert (Hpending : pending w = []) by (vm_compute; reflexivity).
  assert (Htd : ENDZONE_Z - 3 <= vz (ballRef w)) by (vm_compute; discriminate).
  destruct (touchdown_catch_never_scores sqrt6 w
              [EvTimeout 0; EvFrame 0.1 1 0; EvSkipCutscene; EvTimeout 0]
              Hlatch Hplaying Hpending Htd) as (Hp & _ & Hs & Hg & _).
  split; [exact Hp | split; [exact Hs | exact Hg]].
Defined.

(** The same in play: the pass of [touchdownPass] is caught beyond
    [endzone - 3]; the callback queued by the catch runs, and the game goes
    on, unscored, with the latch set. *)
Lemma touchdown_pass_is_not_scored :
  let caught := run sqrt6 touchdownPass initialWorld in
  let later := run sqrt6 [EvTimeout 0] caught in
  (Qle_bool (ENDZONE_Z - 3) (vz (ballRef caught)), pending caught,
   message (gameState caught), pending later, score (gameState later),
   gameStatus (gameState later), playEndedRef later)
  = (true, [TTouchdown], Some "COMPLETE!"%string, [], 0%Z, playing, true).
Proof. vm_compute. reflexivity. Qed.

(** The sack timer runs out in a frame in which the quarterback steps up
    from -18 to -17.4: he is tackled where the step has taken him, 2 yards
    behind the line at -15, and not where the frame found him, which would
    have cost 3. *)
Lemma sack_transition_witness :
  let w := setGameState (upd_sackTimer 0.1)
             (run sqrt6 (opening ++ [EvKeyDown KS]) initialWorld) in
  let w' := beforeRender sqrt6 0.1 1 0 w in
  vz (qbRef w) == -18
  /\ lineOfScrimmageRef w' == -17.4
  /\ message (gameState w') = Some "SACKED! -2 YDS"%string
  /\ (exists tackle : Q, pending w' = [TCutsceneEnd true; TSackOver 2 12 tackle])
  /\ message (gameState (handleSack w)) = Some "SACKED! -3 YDS"%string
  /\ pending (handleSack w) = [TCutsceneEnd true; TSackOver 2 13 (vz (qbRef w))]
  /\ downs (gameState (runTimer (TSackOver 2 13 (vz (qbRef w))) (handleSack w))) = 2%Z
  /\ yardsToGo (gameState (runTimer (TSackOver 2 13 (vz (qbRef w))) (handleSack w))) = 13%Z
  /\ playEndedRef (defenderStep sqrt6 4.2 w 0) = true.
Proof.
  intros w w'.
  assert (Hlatch : playEndedRef w = false) by (vm_compute; reflexivity).
  destruct (sack_transition sqrt6 w Hlatch)
    as ((_ & Hmsg & Hpend & Hcallback) & _ & Hframe & Hrusher).
  specialize (Hcallback (handleSack w)). simpl in Hcallback.
  destruct Hcallback as (Hd & Hy & _).
  assert (Hplaying : gameStatus (gameState w) = playing) by (vm_compute; reflexivity).
  assert (Hnone : cutsceneActiveRef w = cs_none) by (vm_compute; reflexivity).
  assert (Hstarted : playStartedRef w = true) by (vm_compute; reflexivity).
  assert (Haccum : 0.1 <= sackTimerAccum w + 0.1) by (vm_compute; discriminate).
  assert (Hzero : sackTimer (gameState w) - 0.1 <= 0) by (vm_compute; discriminate).
  assert (Hthrown : ballThrownRef w = false) by (vm_compute; reflexivity).
  destruct (Hframe 0.1 1 0 Hplaying Hnone Hstarted Haccum) as (_ & Hsack).
  destruct (Hsack Hzero Hthrown) as (_ & Hlos).
  specialize (Hrusher 4.2 0%nat (mkDefender (V3 (-4) 0 (-8)) rusher (V3 (-4) 0 (-8)))
                eq_refl eq_refl Hthrown).
  simpl in Hrusher.
  assert (Hnear : Distance sqrt6
                    (V3 (clampX (vx (add (V3 (-4) 0 (-8))
                           (scale (normalize sqrt6 (set_y 0 (subtract (qbRef w) (V3 (-4) 0 (-8)))))
                                  (2.5 * 4.2)))))
                        (vy (add (V3 (-4) 0 (-8))
                           (scale (normalize sqrt6 (set_y 0 (subtract (qbRef w) (V3 (-4) 0 (-8)))))
                                  (2.5 * 4.2))))
                        (Math_max (FIELD_MIN_Z + 2) (Math_min (-5)
                           (vz (add (V3 (-4) 0 (-8))
                              (scale (normalize sqrt6
                                        (set_y 0 (subtract (qbRef w) (V3 (-4) 0 (-8)))))
                                     (2.5 * 4.2)))))))
                    (qbRef w) < 1.2) by (vm_compute; reflexivity).
  specialize (Hrusher Hnear).
  split; [vm_compute; reflexivity |].
  split; [unfold w'; rewrite Hlos; vm_compute; reflexivity |].
  split; [vm_compute; reflexivity |].
  split; [eexists; vm_compute; reflexivity |].
  split; [rewrite Hmsg; vm_compute; reflexivity |].
  split; [rewrite Hpend; vm_compute; reflexivity |].
  split; [exact Hd | split; [exact Hy |]].
  rewrite Hrusher. vm_compute. reflexivity.
Defined.

(** A sack 7.5 behind the line: 8 yards are lost and the yards to go become
    18, not 10 + 7.5. *)
Lemma sack_yards_lost_are_rounded :
  let w := set_qbRef (V3 0 0 (-22.5)) (run sqrt6 opening initialWorld) in
  playEndedRef w = false
  /\ lineOfScrimmageRef w - vz (qbRef w) == 7.5
  /\ message (gameState (handleSack w)) = Some "SACKED! -8 YDS"%string
  /\ pending (handleSack w) = [TCutsceneEnd true; TSackOver 2 18 (-22.5)]
  /\ yardsToGo (gameState (runTimer (TSackOver 2 18 (-22.5)) (handleSack w))) = 18%Z
  /\ ~ inject_Z 18 == inject_Z (yardsToGo (gameState w)) + (lineOfScrimmageRef w - vz (qbRef w)).
Proof.
  intro w.
  split; [vm_compute; reflexivity |].
  split; [vm_compute; reflexivity |].
  split; [vm_compute; reflexivity |].
  split; [vm_compute; reflexivity |].
  split; [vm_compute; reflexivity |].
  vm_compute. discriminate.
Qed.

Lemma arrival_resolution_witness :
  let w := withShortPass (run sqrt6 opening initialWorld) in
  let landed := set_ballRef (flightPosition shortPass 1) w in
  ballFlightStep sqrt6 1 0.5 w = clearFlight (handleCatch landed)
  /\ ballFlightStep sqrt6 1 0.97 w = clearFlight (handleInterception landed).
Proof.
  intros w landed.
  assert (Hthrown : ballThrownRef w = true) by reflexivity.
  assert (Hflight : ballFlightRef w = Some shortPass) by reflexivity.
  assert (Ht : 1 <= Math_min ((1 - startTime shortPass) / duration shortPass) 1)
    by (vm_compute; discriminate).
  assert (Hfind : findReceiver (selectedReceiver (gameState w)) (receiversRef w)
                  = Some (mkReceiver "wr1" (V3 (- FIELD_HALF_WIDTH + 4) 0 (-10)) true
                                     (- FIELD_HALF_WIDTH + 4, -10)))
    by (vm_compute; reflexivity).
  split.
  - destruct (arrival_resolution sqrt6 1 0.5 w shortPass _ Hthrown Hflight Ht Hfind)
      as (_ & Hcatch & _).
    rewrite Hcatch; [| vm_compute; reflexivity | vm_compute; reflexivity].
    vm_compute. reflexivity.
  - destruct (arrival_resolution sqrt6 1 0.97 w shortPass _ Hthrown Hflight Ht Hfind)
      as (_ & _ & Hint & _).
    rewrite Hint; [| vm_compute; reflexivity | vm_compute; discriminate].
    vm_compute. reflexivity.
Defined.

Lemma ball_flight_interpolation_witness :
  let w := withShortPass (run sqrt6 opening initialWorld) in
  let p := ballRef (ballFlightStep sqrt6 0.25 0 w) in
  vx p == -6.6 /\ vy p == 4 /\ vz p == -8.75.
Proof.
  intros w p.
  assert (Hthrown : ballThrownRef w = true) by reflexivity.
  assert (Hflight : ballFlightRef w = Some shortPass) by reflexivity.
  assert (Hdur : 0 < duration shortPass) by reflexivity.
  assert (Hnow : startTime shortPass <= 0.25) by (vm_compute; discriminate).
  destruct (ball_flight_interpolation sqrt6 0.25 0 w shortPass Hthrown Hflight Hdur Hnow)
    as (_ & _ & Hx & Hz & Hy & _).
  fold p in Hx, Hy, Hz. rewrite Hx, Hy, Hz.
  split; [| split]; vm_compute; reflexivity.
Defined.

Lemma qb_stays_in_pocket_witness :
  let w := run sqrt6 (opening ++ [EvKeyDown KA]) initialWorld in
  let p := qbRef (qbStep 5 w) in
  vx p == -16.5 /\ vz p == -18 /\ vz p <= -10.
Proof.
  intros w p.
  assert (Hthrown : ballThrownRef w = false) by (vm_compute; reflexivity).
  destruct (qb_stays_in_pocket 5 w Hthrown) as (_ & (_ & Hz) & _).
  split; [vm_compute; reflexivity | split; [vm_compute; reflexivity | exact Hz]].
Defined.

(** On the first play the line of scrimmage is at -15 and the quarterback
    starts at -18: one second of downfield input takes him to -12, three
    yards past the line. *)
Lemma qb_can_pass_the_line_of_scrimmage :
  let w := run sqrt6 (opening ++ [EvKeyDown KS]) initialWorld in
  let p := qbRef (qbStep 1 w) in
  ballThrownRef w = false
  /\ lineOfScrimmageRef w == -15
  /\ lineOfScrimmage (gameState w) == -15
  /\ vz p == -12
  /\ ~ vz p <= lineOfScrimmageRef w
  /\ ~ vz (qbRef (step sqrt6 (EvFrame 1 1 0) w)) <= lineOfScrimmageRef w.
Proof.
  intros w p.
  split; [vm_compute; reflexivity |].
  split; [vm_compute; reflexivity |].
  split; [vm_compute; reflexivity |].
  split; [vm_compute; reflexivity |].
  split; intro H; vm_compute in H; apply H; reflexivity.
Qed.

Lemma throw_refused_while_in_flight_witness :
  let w := withShortPass (run sqrt6 opening initialWorld) in
  throwBall sqrt6 "wr2" None 0.1 w = w
  /\ onPointerDown sqrt6 0.1 (pickReceiver 1) w = w
  /\ onPointerDown sqrt6 0.1 (pickReceiver 1) initialWorld = initialWorld.
Proof.
  intro w.
  destruct (throw_refused_while_in_flight sqrt6 "wr2" None 0.1 (pickReceiver 1) w)
    as (Hthrown & _).
  destruct (throw_refused_while_in_flight sqrt6 "wr2" None 0.1 (pickReceiver 1) initialWorld)
    as (_ & Hmenu & _).
  destruct (Hthrown eq_refl) as [Ht Hp].
  split; [exact Ht | split; [exact Hp | apply Hmenu; discriminate]].
Defined.

(** An incomplete pass has ended the play (the latch is set, the reset is
    queued); a tap on a receiver before the reset throws again. *)
Lemma throw_accepted_after_play_ended :
  let w := run sqrt6 (opening ++ incompletePlay) initialWorld in
  let w' := onPointerDown sqrt6 101 (pickReceiver 0) w in
  playEndedRef w = true
  /\ pending w = [TIncompleteOver]
  /\ ballThrownRef w = false
  /\ ballFlightRef w = None
  /\ ballThrownRef w' = true
  /\ selectedReceiver (gameState w') = Some "wr1"%string
  /\ ballFlightRef w' <> None.
Proof.
  intros w w'.
  split; [vm_compute; reflexivity |].
  split; [vm_compute; reflexivity |].
  split; [vm_compute; reflexivity |].
  split; [vm_compute; reflexivity |].
  split; [vm_compute; reflexivity |].
  split; [vm_compute; reflexivity |].
  assert (E : match ballFlightRef w' with Some _ => true | None => false end = true)
    by (vm_compute; reflexivity).
  destruct (ballFlightRef w'); [discriminate | discriminate E].
Qed.

Lemma reset_marks_receivers_open_witness :
  let w := run sqrt6 (opening ++ incompletePlay) initialWorld in
  Forall (fun r => data_isOpen r = true) (receiversRef (resetPlay w))
  /\ exists d' r',
       nth_error (defendersRef (defenderStep sqrt6 0.5 initialWorld 2)) 2 = Some d'
       /\ nth_error (receiversRef (defenderStep sqrt6 0.5 initialWorld 2)) 0 = Some r'
       /\ data_isOpen r' = false.
Proof.
  intro w.
  assert (Hlen : (List.length (receiversRef w) <= 2)%nat) by (vm_compute; repeat constructor).
  assert (Hlen0 : (List.length (receiversRef initialWorld) <= 2)%nat)
    by (vm_compute; repeat constructor).
  split.
  - apply (reset_marks_receivers_open sqrt6 w Hlen).
  - destruct (reset_marks_receivers_open sqrt6 initialWorld Hlen0) as [_ Hcorner].
    destruct (Hcorner 0.5 2%nat
                (mkDefender (V3 (-12) 0 (-5)) corner (V3 (-12) 0 (-5)))
                (mkReceiver "wr1" (V3 (- FIELD_HALF_WIDTH + 4) 0 (-10)) true
                            (- FIELD_HALF_WIDTH + 4, -10))
                eq_refl eq_refl (le_n 2) eq_refl) as (d' & r' & Hd & Hr & Hpos & Hopen).
    exists d', r'. split; [exact Hd | split; [exact Hr |]].
    rewrite Hopen.
    assert (Ed : Some d' = nth_error (defendersRef (defenderStep sqrt6 0.5 initialWorld 2)) 2)
      by (symmetry; exact Hd).
    assert (Er : Some r' = nth_error (receiversRef (defenderStep sqrt6 0.5 initialWorld 2)) 0)
      by (symmetry; exact Hr).
    vm_compute in Ed, Er. injection Ed as ->. injection Er as ->.
    vm_compute. reflexivity.
Defined.

(** A sack, then in the same play a catch, an incomplete pass and a whole
    frame with a rusher in contact: nothing more happens. *)
Lemma one_outcome_per_play_witness :
  let w := run sqrt6 (opening ++ [EvKeyDown KS]) initialWorld in
  playEndedRef w = false
  /\ handle OCatch (handle OSack w) = handle OSack w
  /\ handle OIncomplete (handle OSack w) = handle OSack w
  /\ playEndedRef (defendersStep sqrt6 4 (handle OSack w)) = true
  /\ lineOfScrimmageRef (beforeRender sqrt6 4 1 0 (handle OSack w))
     = lineOfScrimmageRef (handle OSack w).
Proof.
  intro w.
  destruct (one_outcome_per_play sqrt6 OSack w) as [Hfrozen Hafter].
  destruct (Hafter (handle OSack w) Hfrozen) as [Hnoop Hframe].
  destruct (Hframe 4 1 0) as (_ & _ & _ & _ & (Hl & _) & _ & (_ & _ & Hlos)).
  split; [vm_compute; reflexivity |].
  split; [exact (Hnoop OCatch) |].
  split; [exact (Hnoop OIncomplete) |].
  split; [exact Hl | exact Hlos].
Defined.

(** ** The program's numbers *)

Section Binary64Runs.

Import PrimFloat.
Local Set Warnings "-inexact-float".

(** The flight [crossingPass64] at the clock 0.5, when its duration has
    elapsed: [t] is 1, the height and z are those of the target, and x is
    -2.7 + (5.75 - -2.7) * 1 = 5.749999999999999, short of the 5.75 of the
    target. *)
Lemma flight_end_misses_the_target_in_binary64 :
  let t := flightParameter64 crossingPass64 0.5%float in
  let p := flightPosition64 crossingPass64 t in
  (0 <? duration64 crossingPass64)%float = true
  /\ (0 <=? maxHeight64 crossingPass64)%float = true
  /\ (t =? 1)%float = true
  /\ (fst (fst p) =? fst (fst (targetPos64 crossingPass64)))%float = false
  /\ (fst (fst p) =? 5.749999999999999)%float = true
  /\ (snd (fst p) =? snd (fst (targetPos64 crossingPass64)))%float = true
  /\ (snd p =? snd (targetPos64 crossingPass64))%float = true.
Proof. vm_compute. repeat split. Qed.

(** The count of the sack timer: from 5, fifty ticks leave about 1.03e-15
    and not 0, so that the updater finds the count at 0 on the fifty-first
    tick. *)
Lemma sack_timer_count_in_binary64 :
  (0 <? ticks64 50 5)%float = true
  /\ (ticks64 50 5 <? 0.000000000000002)%float = true
  /\ (ticks64 51 5 <=? 0)%float = true.
Proof. vm_compute. repeat split. Qed.

End Binary64Runs.

(** ** Further runs of the model *)

(** The touchdown pass: the catch is made at about 23.4, and the score is 0. *)
Lemma score_is_always_zero_witness :
  let w := run sqrt6 (touchdownPass ++ [EvTimeout 0]) initialWorld in
  reachable sqrt6 w
  /\ score (gameState w) = 0%Z
  /\ finalRating (score (gameState w)) = "BACK TO PRACTICE!"%string.
Proof.
  intro w.
  assert (Hr : reachable sqrt6 w) by (apply reachable_run, reachable_initial).
  destruct (score_is_always_zero sqrt6 w Hr) as (Hs & _ & Hrating).
  split; [exact Hr | split; [exact Hs | exact Hrating]].
Defined.

Lemma drive_state_bounds_witness :
  let w := run sqrt6 threeIncompletePasses initialWorld in
  reachable sqrt6 w
  /\ (1 <= yardsToGo (gameState w))%Z
  /\ sackTimer (gameState w) <= 5.
Proof.
  intro w.
  assert (Hr : reachable sqrt6 w) by (apply reachable_run, reachable_initial).
  destruct (drive_state_bounds sqrt6 w Hr) as (Hy & (_ & Hs) & _).
  split; [exact Hr | split; [exact Hy | exact Hs]].
Defined.


Lemma interception_ends_game_witness :
  let w := run sqrt6 snapped initialWorld in
  playEndedRef w = false
  /\ pending (handleInterception w) = pending w ++ [TCutsceneEnd false; TInterceptionOver]
  /\ gameStatus (gameState (runTimer TInterceptionOver (handleInterception w))) = gameover.
Proof.
  intro w.
  assert (Hlatch : playEndedRef w = false) by (vm_compute; reflexivity).
  destruct (interception_ends_game w Hlatch) as (Hp & _ & _ & _ & _ & Hover).
  destruct (Hover (handleInterception w)) as (Hg & _).
  split; [exact Hlatch | split; [exact Hp | exact Hg]].
Defined.

(** A catch at -9 on first down, with the marker at -5: second down. *)
Lemma short_catch_transition_witness :
  let w := set_ballRef (V3 0.3 1.5 (-9)) (run sqrt6 snapped initialWorld) in
  let newYardsToGo := Math_round (firstDownMarker (gameState w) - vz (ballRef w)) in
  let callback := TShortCatch (downs (gameState w) + 1) newYardsToGo (vz (ballRef w)) in
  vz (ballRef w) < firstDownMarker (gameState w)
  /\ lineOfScrimmageRef (handleCatch w) = vz (ballRef w)
  /\ pending (handleCatch w) = pending w ++ [callback]
  /\ downs (gameState (runTimer callback (handleCatch w))) = (downs (gameState w) + 1)%Z.
Proof.
  intros w newYardsToGo callback.
  assert (Hlatch : playEndedRef w = false) by (vm_compute; reflexivity).
  assert (Htd : vz (ballRef w) < ENDZONE_Z - 3) by (vm_compute; reflexivity).
  assert (Hshort : vz (ballRef w) < firstDownMarker (gameState w))
    by (vm_compute; reflexivity).
  assert (Hdowns : (downs (gameState w) < 4)%Z) by (vm_compute; reflexivity).
  destruct (short_catch_transition w Hlatch Htd Hshort Hdowns) as (Hl & Hp & _ & _ & Hcb).
  destruct (Hcb (handleCatch w)) as (Hd & _).
  split; [exact Hshort | split; [exact Hl | split; [exact Hp | exact Hd]]].
Defined.

Lemma incomplete_transition_witness :
  let w := run sqrt6 snapped initialWorld in
  (downs (gameState w) < 4)%Z
  /\ lineOfScrimmageRef (handleIncomplete w) = lineOfScrimmageRef w
  /\ pending (handleIncomplete w) = pending w ++ [TIncompleteOver]
  /\ playEndedRef (runTimer TIncompleteOver (handleIncomplete w)) = false.
Proof.
  intro w.
  assert (Hlatch : playEndedRef w = false) by (vm_compute; reflexivity).
  assert (Hdowns : (downs (gameState w) < 4)%Z) by (vm_compute; reflexivity).
  destruct (incomplete_transition w Hlatch Hdowns) as (_ & Hl & Hp & Hcb).
  destruct (Hcb (handleIncomplete w)) as (_ & _ & _ & _ & _ & He).
  split; [exact Hdowns | split; [exact Hl | split; [exact Hp | exact He]]].
Defined.

(** The left receiver at the snap of the first play, a tenth of a second. *)
Lemma route_step_follows_velocity_witness :
  let r := mkReceiver "wr1" (V3 (-13.5) 0 (-10)) true (-13.5, -10) in
  let v := getReceiverVelocity initialWorld 0 (group_position r) in
  let p' := group_position (receiverStep 0.1 initialWorld r 0) in
  vz (group_position r) < ENDZONE_Z - 1
  /\ vz p' == Math_min (ENDZONE_Z - 1) (vz (group_position r) + vz v * 0.1).
Proof.
  intros r v p'.
  assert (Hz : vz (group_position r) < ENDZONE_Z - 1) by (vm_compute; reflexivity).
  destruct (route_step_follows_velocity 0.1 initialWorld r 0 Hz) as (_ & Hvz & _).
  split; [exact Hz | exact Hvz].
Defined.


Lemma throw_aims_within_the_field_witness :
  let w := run sqrt6 snapped initialWorld in
  let r := mkReceiver "wr1" (V3 (- FIELD_HALF_WIDTH + 4) 0 (-10)) true
                      (- FIELD_HALF_WIDTH + 4, -10) in
  let w' := throwBall sqrt6 "wr1" None 0 w in
  ballThrownRef w = false
  /\ ballThrownRef w' = true
  /\ selectedReceiver (gameState w') = Some "wr1"%string
  /\ exists flight : Flight,
       ballFlightRef w' = Some flight
       /\ vy (targetPos flight) = 1.5
       /\ vz (targetPos flight) <= ENDZONE_Z - 1.
Proof.
  intros w r w'.
  assert (Hthrown : ballThrownRef w = false) by (vm_compute; reflexivity).
  assert (Hfind : findIndex_from 0 (fun r => String.eqb (data_id r) "wr1") (receiversRef w)
                  = Some (0%nat, r)) by (vm_compute; reflexivity).
  destruct (throw_aims_within_the_field sqrt6 "wr1" None 0 w 0 r Hthrown Hfind)
    as (Ht & Hs & flight & Hf & _ & _ & Hy & _ & Hz & _).
  split; [exact Hthrown | split; [exact Ht | split; [exact Hs |]]].
  exists flight. split; [exact Hf | split; [exact Hy | exact Hz]].
Defined.

Lemma defenders_stay_in_bands_witness :
  let w := run sqrt6 snapped initialWorld in
  corners_have_receivers w
  /\ Forall in_band (defendersRef (defendersStep sqrt6 0.1 w))
  /\ map target (defendersRef (defendersStep sqrt6 0.1 w)) = map target (defendersRef w).
Proof.
  intro w.
  assert (Hc : corners_have_receivers w).
  { intros i Hi.
    assert (E : map target (defendersRef w) = [rusher; rusher; corner; corner; safety])
      by (vm_compute; reflexivity).
    assert (L : List.length (receiversRef w) = 2%nat) by (vm_compute; reflexivity).
    rewrite E in Hi. rewrite L.
    destruct i as [| [| [| [| [| i]]]]]; simpl in Hi; try discriminate Hi; try lia.
    destruct i; discriminate Hi. }
  destruct (defenders_stay_in_bands sqrt6 0.1 w Hc) as (Hb & Ht & _).
  split; [exact Hc | split; [exact Hb | exact Ht]].
Defined.

Lemma formation_is_kept_witness :
  let w := run sqrt6 threeIncompletePasses initialWorld in
  reachable sqrt6 w
  /\ map data_id (receiversRef w) = ["wr1"; "wr2"]%string
  /\ map target (defendersRef w) = [rusher; rusher; corner; corner; safety].
Proof.
  intro w.
  assert (Hr : reachable sqrt6 w) by (apply reachable_run, reachable_initial).
  destruct (formation_is_kept sqrt6 w Hr) as (Hi & Ht & _).
  split; [exact Hr | split; [exact Hi | exact Ht]].
Defined.

(** The short pass a quarter of a second into its half second, with the
    sack timer run out and eight seconds of rush in one frame. *)
Lemma no_sack_once_thrown_witness :
  let w := withShortPass
             (setGameState (upd_sackTimer 0) (run sqrt6 snapped initialWorld)) in
  let w' := beforeRender sqrt6 8 0.25 0 w in
  sackTimer (gameState w) = 0
  /\ playEndedRef w' = false
  /\ pending w' = pending w
  /\ qbRef w' = qbRef w
  /\ ballRef w' = flightPosition shortPass (Math_min ((0.25 - startTime shortPass)
                                                      / duration shortPass) 1).
Proof.
  intros w w'.
  assert (Hplaying : gameStatus (gameState w) = playing) by (vm_compute; reflexivity).
  assert (Hnone : cutsceneActiveRef w = cs_none) by (vm_compute; reflexivity).
  assert (Hstarted : playStartedRef w = true) by (vm_compute; reflexivity).
  assert (Hthrown : ballThrownRef w = true) by (vm_compute; reflexivity).
  assert (Hflight : ballFlightRef w = Some shortPass) by reflexivity.
  assert (Hdur : 0 < duration shortPass) by (vm_compute; reflexivity).
  assert (Hnow : 0.25 - startTime shortPass < duration shortPass)
    by (vm_compute; reflexivity).
  assert (Hlatch : playEndedRef w = false) by (vm_compute; reflexivity).
  destruct (no_sack_once_thrown sqrt6 8 0.25 0 w shortPass Hplaying Hnone Hstarted Hthrown
              Hflight Hdur Hnow) as (He & Hp & _ & Hq & _ & _ & _ & Hb).
  split; [reflexivity | split; [rewrite <- Hlatch; exact He |]].
  split; [exact Hp | split; [exact Hq | exact Hb]].
Defined.

Lemma nothing_moves_before_the_snap_witness :
  let w := run sqrt6 (opening ++ incompletePlay) initialWorld in
  let fs := [(0.5, 101, 0); (8, 102, 0)] in
  gameStartCutscenePlayed w = true
  /\ run sqrt6 (frames fs) (resetPlay w) = resetPlay w.
Proof.
  intros w fs.
  assert (Hplayed : gameStartCutscenePlayed w = true) by (vm_compute; reflexivity).
  destruct (nothing_moves_before_the_snap sqrt6 w fs (or_intror Hplayed)) as (Hfixed & _).
  split; [exact Hplayed | exact Hfixed].
Defined.

(** An interception, the game over, the restart, and then frames, keys and
    a tap on a receiver. *)
Lemma restarted_game_is_held_witness :
  let w := run sqrt6 interceptedPass initialWorld in
  let es := [EvFrame 0.1 101 0; EvKeyDown KW; EvFrame 0.1 102 0;
             EvPointerDown 102 (pickReceiver 1); EvFrame 1 103 0] in
  let w' := run sqrt6 es (step sqrt6 EvRestartGame w) in
  reachable sqrt6 w
  /\ gameStatus (gameState w) = gameover
  /\ upd_selectedReceiver None (gameState w') = startingGameState playing cs_game_start
  /\ cutsceneActiveRef w' = cs_game_start.
Proof.
  intros w es w'.
  assert (Hr : reachable sqrt6 w) by (apply reachable_run, reachable_initial).
  assert (Hover : gameStatus (gameState w) = gameover) by (vm_compute; reflexivity).
  assert (Hplayed : gameStartCutscenePlayed w = true) by (vm_compute; reflexivity).
  assert (Hes : forallb no_clock es = true) by reflexivity.
  destruct (restarted_game_is_held sqrt6 w es Hover Hplayed Hes) as (Hs & Hc & _).
  split; [exact Hr | split; [exact Hover | split; [exact Hs | exact Hc]]].
Defined.

Lemma game_over_until_restart_witness :
  let w := run sqrt6 interceptedPass initialWorld in
  let es := [EvFrame 0.1 101 0; EvTimeout 0; EvKeyDown KW; EvSkipCutscene;
             EvPointerDown 102 (pickReceiver 0); EvStartGame] in
  gameStatus (gameState w) = gameover
  /\ gameStatus (gameState (run sqrt6 es w)) = gameover.
Proof.
  intros w es.
  assert (Hover : gameStatus (gameState w) = gameover) by (vm_compute; reflexivity).
  assert (Hes : existsb is_restart es = false) by reflexivity.
  destruct (game_over_until_restart sqrt6 es w Hover Hes) as (Hg & _).
  split; [exact Hover | exact Hg].
Defined.

Lemma frame_keeps_players_on_field_witness :
  let w := run sqrt6 snapped initialWorld in
  let w' := beforeRender sqrt6 0.1 1 0 w in
  reachable sqrt6 w
  /\ Forall receiver_in_bounds (receiversRef w')
  /\ Forall in_band (defendersRef w').
Proof.
  intros w w'.
  assert (Hr : reachable sqrt6 w) by (apply reachable_run, reachable_initial).
  assert (Hplaying : gameStatus (gameState w) = playing) by (vm_compute; reflexivity).
  assert (Hnone : cutsceneActiveRef w = cs_none) by (vm_compute; reflexivity).
  assert (Hstarted : playStartedRef w = true) by (vm_compute; reflexivity).
  destruct (frame_keeps_players_on_field sqrt6 0.1 1 0 w Hr Hplaying Hnone Hstarted)
    as (Hrec & Hdef).
  split; [exact Hr | split; [exact Hrec | exact Hdef]].
Defined.
